(** * Personal finance dashboard: transaction store and view pipeline

    A shallow embedding of the four iterations of the [App] component
    (src/unnamed/part_000 and src/src/App_backup2.js) and the properties of
    the transaction store and of the derived view.

    The four iterations are embedded one module each, in the order in which
    they grow:
    - [Plain]     : src/unnamed/part_000, lines 1-468 (no validation);
    - [Checked]   : src/src/App_backup2.js, lines 1-530 (amount and date
                    validation);
    - [MultiType] : src/src/App_backup2.js, lines 530-1326 (income, expense
                    and investment records);
    - [Budget]    : src/unnamed/part_000, lines 469-1489 (notes, budget,
                    import and export). *)

From Stdlib Require Import List String Ascii ZArith NArith Bool Lia.
From Stdlib Require Import Permutation Sorted DecimalString.
Import ListNotations.

Set Implicit Arguments.
Set Warnings "-register-all".

Open Scope list_scope.

(* ===================================================================== *)
(** ** JavaScript strings

    A [string] stands for a JavaScript string whose code units are below
    256, one [ascii] per code unit.  On these strings the functions below
    are the ECMAScript ones. *)
(* ===================================================================== *)

Module Js.

(** [!s] is [negb (truthy s)]: the empty string is the only falsy one. *)
Definition truthy (s : string) : bool := negb (String.eqb s "").

(** [a > b] and [a < b] on two strings: code-unit order. *)
Definition str_gt (a b : string) : bool := String.ltb b a.
Definition str_lt (a b : string) : bool := String.ltb a b.

(** White space and line terminators removed by [trim]. *)
Definition is_space (c : ascii) : bool :=
  let n := N_of_ascii c in
  ((9 <=? n) && (n <=? 13) || (n =? 32) || (n =? 160))%N.

Fixpoint trimStart (s : string) : string :=
  match s with
  | EmptyString => EmptyString
  | String c s' => if is_space c then trimStart s' else s
  end.

Definition rev_string (s : string) : string :=
  string_of_list_ascii (rev (list_ascii_of_string s)).

Definition trim (s : string) : string :=
  rev_string (trimStart (rev_string (trimStart s))).

(** [toLowerCase] on code units below 256: A-Z and the accented capitals
    U+00C0-U+00DE (except the multiplication sign U+00D7) move by 32. *)
Definition lower_char (c : ascii) : ascii :=
  let n := N_of_ascii c in
  if ((65 <=? n) && (n <=? 90)
      || (192 <=? n) && (n <=? 222) && negb (n =? 215))%N
  then ascii_of_N (n + 32) else c.

Fixpoint toLowerCase (s : string) : string :=
  match s with
  | EmptyString => EmptyString
  | String c s' => String (lower_char c) (toLowerCase s')
  end.

(** [s.includes(q)]. *)
Fixpoint includes (s q : string) : bool :=
  String.prefix q s
  || match s with
     | EmptyString => false
     | String _ s' => includes s' q
     end.

(** [s.split(sep)] for a one-character separator. *)
Fixpoint split (sep : ascii) (s : string) : list string :=
  match s with
  | EmptyString => [EmptyString]
  | String c s' =>
      if Ascii.eqb c sep then EmptyString :: split sep s'
      else match split sep s' with
           | [] => [String c EmptyString]
           | h :: t => String c h :: t
           end
  end.

(** [s.slice(0, n)]. *)
Definition slice0 (n : nat) (s : string) : string := String.substring 0 n s.

(** [s.startsWith(p)]. *)
Definition startsWith (s p : string) : bool := String.prefix p s.

(** [s.padStart(n, "0")]. *)
Fixpoint zeros (k : nat) : string :=
  match k with
  | O => EmptyString
  | S k' => String "0" (zeros k')
  end.

Definition padStart0 (n : nat) (s : string) : string :=
  String.append (zeros (n - String.length s)) s.

(** [new Date().toISOString().split("T")[0]] applied to the ISO string. *)
Definition iso_date (iso : string) : string :=
  match split "T" iso with
  | d :: _ => d
  | [] => EmptyString
  end.

(** [a === b] where [a] may be [undefined] and [b] is a string. *)
Definition opt_str_eqb (a : option string) (b : string) : bool :=
  match a with
  | Some x => String.eqb x b
  | None => false
  end.

End Js.

(* ===================================================================== *)
(** ** The host: numbers, collation and dates

    JavaScript numbers, [Number] on strings, [localeCompare] and [Date] are
    the engine's, not the repository's.  They are an interface here; the
    laws the proofs use are collected in [HostLaws]. *)
(* ===================================================================== *)

Class Host : Type := {
  num : Type;
  (** [Number(s)] for a string [s]. *)
  StringToNumber : string -> num;
  (** [isNaN(x)]. *)
  num_isNaN : num -> bool;
  num_zero : num;
  num_one : num;
  num_minus_one : num;
  (** [x < y] and [x <= y] on numbers. *)
  num_ltb : num -> num -> bool;
  num_leb : num -> num -> bool;
  num_add : num -> num -> num;
  num_sub : num -> num -> num;
  num_mul : num -> num -> num;
  (** [x.toString()]. *)
  num_toString : num -> string;
  (** [a.localeCompare(b)]. *)
  localeCompare : string -> string -> num;
  (** [new Date(v).getTime()], where [None] is [undefined]: NaN for an
      invalid date. *)
  Date_parse : option string -> num;
  (** [getMonth()] of the date with the given time value, in local time. *)
  Date_getMonth : num -> num;
  (** For the date [d] with the given time value, the first ten characters
      of [toISOString()] after [d.setDate(d.getDate() - d.getDay())]. *)
  Date_weekKey : num -> string;
  (** [JSON.parse(JSON.stringify(x))] for a number [x]: [None] is [null],
      which [stringify] writes for NaN and for the two infinities; a
      finite number is read back from its text as it was (zero for the
      negative zero). *)
  num_json : num -> option num
}.

Section HostDerived.
Context {H : Host}.

(** [x > y] on numbers. *)
Definition num_gtb (x y : num) : bool := num_ltb y x.

(** What [Array.prototype.sort] reads from the value a comparator
    returns: negative, positive, or neither (zero and NaN). *)
Definition num_sign (v : num) : comparison :=
  if num_ltb v num_zero then Lt
  else if num_ltb num_zero v then Gt
  else Eq.

(** A number that is not NaN and is greater than zero. *)
Definition num_positive (x : num) : bool :=
  negb (num_isNaN x) && num_ltb num_zero x.

End HostDerived.

Class HostLaws (H : Host) : Prop := {
  zero_not_NaN : num_isNaN num_zero = false;
  leb_ltb : forall x y,
    num_isNaN x = false -> num_isNaN y = false ->
    num_leb x y = negb (num_ltb y x);
  ltb_irrefl : forall x, num_ltb x x = false;
  ltb_trans : forall x y z,
    num_ltb x y = true -> num_ltb y z = true -> num_ltb x z = true;
  ltb_negtrans : forall x y z,
    num_isNaN y = false -> num_ltb x z = true ->
    num_ltb x y = true \/ num_ltb y z = true;
  lc_refl : forall a, num_sign (localeCompare a a) = Eq;
  lc_antisym : forall a b,
    num_sign (localeCompare b a) = CompOpp (num_sign (localeCompare a b));
  lc_trans : forall a b c,
    num_sign (localeCompare a b) <> Gt ->
    num_sign (localeCompare b c) <> Gt ->
    num_sign (localeCompare a c) <> Gt
}.

(* ===================================================================== *)
(** ** Array.prototype.sort

    ECMAScript fixes the result of [sort] for a consistent comparator: the
    sorted permutation in which elements that compare equal keep their
    order.  [sort] below computes it by insertion from the left.  For a
    comparator that is not consistent the order is implementation-defined;
    [sort] is then one of the orders an engine may produce. *)
(* ===================================================================== *)

Module JsArray.
Section Sort.
Variable A : Type.
Variable cmp : A -> A -> comparison.

Fixpoint insert (x : A) (l : list A) : list A :=
  match l with
  | [] => [x]
  | y :: l' =>
      match cmp x y with
      | Lt => x :: y :: l'
      | _ => y :: insert x l'
      end
  end.

Definition sort (l : list A) : list A :=
  fold_left (fun acc x => insert x acc) l [].

(** [x] and [y] compare equal. *)
Definition ties (x y : A) : bool :=
  match cmp x y with Eq => true | _ => false end.

(** A consistent comparator on the elements that satisfy [P]. *)
Record consistent_on (P : A -> Prop) : Prop := {
  cmp_refl : forall a, P a -> cmp a a = Eq;
  cmp_antisym : forall a b, P a -> P b -> cmp b a = CompOpp (cmp a b);
  cmp_trans : forall a b c, P a -> P b -> P c ->
    cmp a b <> Gt -> cmp b c <> Gt -> cmp a c <> Gt
}.

(** [l] is in ascending order of [cmp]. *)
Definition ascending (l : list A) : Prop :=
  StronglySorted (fun a b => cmp a b <> Gt) l.

End Sort.
End JsArray.

(** Own properties of an object used as a dictionary, in the order in which
    [Object.entries] and [Object.values] list them: array indices in
    ascending order first, then the other keys in creation order. *)
Module JsObject.
Section Dict.
Variable V : Type.

Definition t := list (string * V).

Definition digit (c : ascii) : option N :=
  let n := N_of_ascii c in
  if ((48 <=? n) && (n <=? 57))%N then Some (n - 48)%N else None.

Fixpoint digits_value (s : string) (acc : N) : option N :=
  match s with
  | EmptyString => Some acc
  | String c s' =>
      match digit c with
      | Some d => digits_value s' (10 * acc + d)%N
      | None => None
      end
  end.

(** The array index a key denotes, if any: a canonical decimal numeral
    below 2^32 - 1. *)
Definition array_index (k : string) : option N :=
  match k with
  | EmptyString => None
  | String c rest =>
      if Ascii.eqb c "0" && negb (String.eqb rest "") then None
      else match digits_value k 0 with
           | Some n => if (n <? 4294967295)%N then Some n else None
           | None => None
           end
  end.

Definition goes_before (k k' : string) : bool :=
  match array_index k, array_index k' with
  | Some n, Some n' => (n <? n')%N
  | Some _, None => true
  | None, _ => false
  end.

(** [o[k]], [None] for [undefined]. *)
Fixpoint get (k : string) (o : t) : option V :=
  match o with
  | [] => None
  | (k', v) :: o' => if String.eqb k' k then Some v else get k o'
  end.

Fixpoint replace (k : string) (v : V) (o : t) : t :=
  match o with
  | [] => []
  | (k', v') :: o' =>
      if String.eqb k' k then (k, v) :: o' else (k', v') :: replace k v o'
  end.

Fixpoint place (k : string) (v : V) (o : t) : t :=
  match o with
  | [] => [(k, v)]
  | (k', v') :: o' =>
      if goes_before k k' then (k, v) :: o else (k', v') :: place k v o'
  end.

(** [o[k] = v]. *)
Definition set (k : string) (v : V) (o : t) : t :=
  match get k o with
  | Some _ => replace k v o
  | None => place k v o
  end.

Definition keys (o : t) : list string := map fst o.
Definition values (o : t) : list V := map snd o.
Definition entries (o : t) : list (string * V) := o.

End Dict.

(** The names every object inherits from [Object.prototype]: [o[k]] is not
    [undefined] for them even when [o] has no such property of its own. *)
Definition inherited (k : string) : bool :=
  existsb (String.eqb k)
    [ "constructor"; "hasOwnProperty"; "isPrototypeOf";
      "propertyIsEnumerable"; "toLocaleString"; "toString"; "valueOf";
      "__defineGetter__"; "__defineSetter__"; "__lookupGetter__";
      "__lookupSetter__"; "__proto__" ]%string.
End JsObject.

(* ===================================================================== *)
(** ** Data model *)
(* ===================================================================== *)

Section Model.
Context {H : Host}.

(** The value of an [amount] property: the text of the form field, or a
    number. *)
Inductive Amount : Type :=
| AStr (s : string)
| ANum (n : num).

(** [Number(a)]. *)
Definition Number (a : Amount) : num :=
  match a with
  | AStr s => StringToNumber s
  | ANum n => n
  end.

(** A transaction object.  [None] is an absent property.  [type] exists
    in [MultiType] only; [notes], [createdAt] and [updatedAt] in [Budget]
    only. *)
Record Txn : Type := mkTxn {
  id : Z;
  title : string;
  amount : Amount;
  date : option string;
  category : string;
  type : option string;
  notes : option string;
  createdAt : option string;
  updatedAt : option string
}.

(** The state of the entry form. *)
Record Form : Type := mkForm {
  form_title : string;
  form_amount : string;
  form_date : string;
  form_category : string;
  form_customCategory : string;
  form_type : string;
  form_notes : string
}.

(** The state of the edit form ([editForm]). *)
Record EditForm : Type := mkEditForm {
  edit_title : string;
  edit_amount : Amount;
  edit_date : option string;
  edit_category : string;
  edit_type : option string;
  edit_notes : string
}.

(** The readings of the clock a handler takes: the ISO string of the
    first [new Date()], the value of [Date.now()], and the ISO string of
    the [new Date()] that stamps [createdAt] or [updatedAt]. *)
Record Clock : Type := mkClock {
  isoNow : string;
  now : Z;
  isoStamp : string
}.

(** What a handler shows to the user. *)
Inductive Report : Type :=
| Alert (message : string)
| Notify (message : string) (kind : string).

(** The result of a handler: the collection it leaves and its report. *)
Definition Outcome : Type := (list Txn * option Report)%type.

(** The filter and sort controls. *)
Record Params : Type := mkParams {
  selectedMonth : string;
  filterType : string;
  search : string;
  sortBy : string;
  sortDir : string;
  timeRange : string
}.

(** [x > y] and [x < y] where [x] and [y] are [date] properties: false
    as soon as one of them is [undefined]. *)
Definition date_gt (x y : option string) : bool :=
  match x, y with
  | Some a, Some b => Js.str_gt a b
  | _, _ => false
  end.

Definition date_lt (x y : option string) : bool :=
  match x, y with
  | Some a, Some b => Js.str_lt a b
  | _, _ => false
  end.

(** [e.date && e.date.split("-")[1] === selectedMonth]. *)
Definition month_matches (m : string) (e : Txn) : bool :=
  match date e with
  | Some d => Js.truthy d && Js.opt_str_eqb (nth_error (Js.split "-" d) 1) m
  | None => false
  end.

(** [e.date?.slice(0, 7)], and [None] when the result is falsy. *)
Definition month_key (e : Txn) : option string :=
  match date e with
  | Some d => let m := Js.slice0 7 d in
              if Js.truthy m then Some m else None
  | None => None
  end.

(** [e.title.toLowerCase().includes(q)]. *)
Definition title_matches (q : string) (e : Txn) : bool :=
  Js.includes (Js.toLowerCase (title e)) q.

(** The sign [sort] reads from a comparator that returns 1, -1 or 0. *)
Definition sgn (v : Z) : comparison := Z.compare v 0.

(** [category === "Other" ? customCategory : category]. *)
Definition finalCategory (f : Form) : string :=
  if String.eqb (form_category f) "Other" then form_customCategory f
  else form_category f.

(** [!title || !amount || !date || !category]. *)
Definition missing_field (f : Form) : bool :=
  negb (Js.truthy (form_title f)) || negb (Js.truthy (form_amount f))
  || negb (Js.truthy (form_date f)) || negb (Js.truthy (form_category f)).

(** [isNaN(amountNum) || amountNum <= 0]. *)
Definition bad_amount (n : num) : bool :=
  num_isNaN n || num_leb n num_zero.

(** [new Date().toISOString().split('T')[0]]. *)
Definition today (clk : Clock) : string := Js.iso_date (isoNow clk).

End Model.

(* ===================================================================== *)
(** ** [Plain]: src/unnamed/part_000, lines 1-468 *)
(* ===================================================================== *)

Module Plain.
Section Handlers.
Context {H : Host}.

(** [addExpense], lines 62-85. *)
Definition addExpense (f : Form) (clk : Clock) (expenses : list Txn)
  : Outcome :=
  if missing_field f then (expenses, None)
  else
    let finalCategory := finalCategory f in
    if negb (Js.truthy finalCategory) then (expenses, None)
    else
      (expenses ++
         [ {| id := now clk;
              title := form_title f;
              amount := AStr (form_amount f);
              date := Some (form_date f);
              category := finalCategory;
              type := None; notes := None;
              createdAt := None; updatedAt := None |} ],
       None).

(** [deleteExpense], lines 88-89. *)
Definition deleteExpense (i : Z) (expenses : list Txn) : list Txn :=
  filter (fun e => negb (id e =? i)%Z) expenses.

(** [{ ...e, ...editForm }]. *)
Definition merge (e : Txn) (editForm : EditForm) : Txn :=
  {| id := id e;
     title := edit_title editForm;
     amount := edit_amount editForm;
     date := edit_date editForm;
     category := edit_category editForm;
     type := type e; notes := notes e;
     createdAt := createdAt e; updatedAt := updatedAt e |}.

(** [saveEdit], lines 106-113. *)
Definition saveEdit (i : Z) (editForm : EditForm) (clk : Clock)
    (expenses : list Txn) : Outcome :=
  (map (fun e => if (id e =? i)%Z then merge e editForm else e) expenses,
   None).

(** [clearAll], lines 115-120; [confirmed] is the answer to
    [window.confirm]. *)
Definition clearAll (confirmed : bool) (expenses : list Txn) : list Txn :=
  if confirmed then [] else expenses.

(** The comparator of lines 142-152. *)
Definition compare (p : Params) (a b : Txn) : Z :=
  let gt :=
    if String.eqb (sortBy p) "amount"
    then num_gtb (Number (amount a)) (Number (amount b))
    else date_gt (date a) (date b) in
  let lt :=
    if String.eqb (sortBy p) "amount"
    then num_ltb (Number (amount a)) (Number (amount b))
    else date_lt (date a) (date b) in
  if String.eqb (sortDir p) "asc"
  then (if gt then 1 else -1)%Z
  else (if lt then 1 else -1)%Z.

(** The three steps of the view pipeline, lines 128-153. *)
Definition monthStage (p : Params) (l : list Txn) : list Txn :=
  if Js.truthy (selectedMonth p)
  then filter (month_matches (selectedMonth p)) l
  else l.

Definition searchStage (p : Params) (l : list Txn) : list Txn :=
  if Js.truthy (Js.trim (search p))
  then filter (title_matches (Js.toLowerCase (search p))) l
  else l.

Definition sortStage (p : Params) (l : list Txn) : list Txn :=
  if Js.truthy (sortBy p)
  then JsArray.sort (fun a b => sgn (compare p a b)) l
  else l.

(** [view], lines 128-153. *)
Definition view (p : Params) (expenses : list Txn) : list Txn :=
  let view :=
    if Js.truthy (selectedMonth p)
    then filter (month_matches (selectedMonth p)) expenses
    else expenses in
  let view :=
    if Js.truthy (Js.trim (search p))
    then let q := Js.toLowerCase (search p) in
         filter (title_matches q) view
    else view in
  let view :=
    if Js.truthy (sortBy p)
    then JsArray.sort (fun a b => sgn (compare p a b)) view
    else view in
  view.

End Handlers.
End Plain.

(* ===================================================================== *)
(** ** [Checked]: src/src/App_backup2.js, lines 1-530 *)
(* ===================================================================== *)

Module Checked.
Section Handlers.
Context {H : Host}.

(** [addExpense], lines 50-87. *)
Definition addExpense (f : Form) (clk : Clock) (expenses : list Txn)
  : Outcome :=
  if missing_field f then (expenses, None)
  else
    let amountNum := StringToNumber (form_amount f) in
    if bad_amount amountNum
    then (expenses, Some (Alert "Please enter a valid positive amount"))
    else
      let today := today clk in
      if Js.str_gt (form_date f) today
      then (expenses, Some (Alert "Cannot add expenses for future dates"))
      else
        let finalCategory := finalCategory f in
        if negb (Js.truthy finalCategory) then (expenses, None)
        else
          (expenses ++
             [ {| id := now clk;
                  title := form_title f;
                  amount := ANum amountNum;
                  date := Some (form_date f);
                  category := finalCategory;
                  type := None; notes := None;
                  createdAt := None; updatedAt := None |} ],
           None).

(** [deleteExpense], lines 90-91. *)
Definition deleteExpense (i : Z) (expenses : list Txn) : list Txn :=
  filter (fun e => negb (id e =? i)%Z) expenses.

(** [{ ...e, ...editForm, amount: amountNum }]. *)
Definition merge (e : Txn) (editForm : EditForm) (amountNum : num) : Txn :=
  {| id := id e;
     title := edit_title editForm;
     amount := ANum amountNum;
     date := edit_date editForm;
     category := edit_category editForm;
     type := type e; notes := notes e;
     createdAt := createdAt e; updatedAt := updatedAt e |}.

(** [saveEdit], lines 108-129. *)
Definition saveEdit (i : Z) (editForm : EditForm) (clk : Clock)
    (expenses : list Txn) : Outcome :=
  let amountNum := Number (edit_amount editForm) in
  if bad_amount amountNum
  then (expenses, Some (Alert "Please enter a valid positive amount"))
  else
    let today := today clk in
    if date_gt (edit_date editForm) (Some today)
    then (expenses, Some (Alert "Cannot set expense date to future"))
    else
      (map (fun e => if (id e =? i)%Z then merge e editForm amountNum
                     else e) expenses,
       None).

(** [clearAll], lines 131-136. *)
Definition clearAll (confirmed : bool) (expenses : list Txn) : list Txn :=
  if confirmed then [] else expenses.

(** The comparator of lines 158-170. *)
Definition compare (p : Params) (a b : Txn) : Z :=
  let lt :=
    if String.eqb (sortBy p) "amount"
    then num_ltb (Number (amount a)) (Number (amount b))
    else date_lt (date a) (date b) in
  let gt :=
    if String.eqb (sortBy p) "amount"
    then num_gtb (Number (amount a)) (Number (amount b))
    else date_gt (date a) (date b) in
  if lt then (if String.eqb (sortDir p) "asc" then -1 else 1)%Z
  else if gt then (if String.eqb (sortDir p) "asc" then 1 else -1)%Z
  else 0%Z.

(** The steps of the view pipeline, lines 144-171. *)
Definition monthStage (p : Params) (l : list Txn) : list Txn :=
  if Js.truthy (selectedMonth p)
  then filter (month_matches (selectedMonth p)) l
  else l.

Definition searchStage (p : Params) (l : list Txn) : list Txn :=
  if Js.truthy (Js.trim (search p))
  then filter (title_matches (Js.toLowerCase (search p))) l
  else l.

Definition sortStage (p : Params) (l : list Txn) : list Txn :=
  if Js.truthy (sortBy p)
  then JsArray.sort (fun a b => sgn (compare p a b)) l
  else l.

(** [view], lines 144-171. *)
Definition view (p : Params) (expenses : list Txn) : list Txn :=
  let view :=
    if Js.truthy (selectedMonth p)
    then filter (month_matches (selectedMonth p)) expenses
    else expenses in
  let view :=
    if Js.truthy (Js.trim (search p))
    then let q := Js.toLowerCase (search p) in
         filter (title_matches q) view
    else view in
  let view :=
    if Js.truthy (sortBy p)
    then JsArray.sort (fun a b => sgn (compare p a b)) view
    else view in
  view.

End Handlers.
End Checked.

(* ===================================================================== *)
(** ** [MultiType]: src/src/App_backup2.js, lines 530-1326 *)
(* ===================================================================== *)

Module MultiType.
Section Handlers.
Context {H : Host}.

(** [addExpense], lines 590-632. *)
Definition addExpense (f : Form) (clk : Clock) (expenses : list Txn)
  : Outcome :=
  if missing_field f
  then (expenses, Some (Alert "Please fill all fields"))
  else
    let amountNum := StringToNumber (form_amount f) in
    if bad_amount amountNum
    then (expenses, Some (Alert "Enter valid amount"))
    else
      let today := today clk in
      if Js.str_gt (form_date f) today
      then (expenses, Some (Alert "Cannot add future dates"))
      else
        let finalCategory := finalCategory f in
        if negb (Js.truthy finalCategory)
        then (expenses, Some (Alert "Enter category"))
        else
          (expenses ++
             [ {| id := now clk;
                  title := form_title f;
                  amount := ANum amountNum;
                  date := Some (form_date f);
                  category := finalCategory;
                  type := Some (form_type f);
                  notes := None;
                  createdAt := None; updatedAt := None |} ],
           None).

(** [deleteExpense], line 635. *)
Definition deleteExpense (i : Z) (expenses : list Txn) : list Txn :=
  filter (fun e => negb (id e =? i)%Z) expenses.

(** [{ ...e, ...editForm, amount: amountNum }]; here [editForm] has a
    [type] property. *)
Definition merge (e : Txn) (editForm : EditForm) (amountNum : num) : Txn :=
  {| id := id e;
     title := edit_title editForm;
     amount := ANum amountNum;
     date := edit_date editForm;
     category := edit_category editForm;
     type := edit_type editForm;
     notes := notes e;
     createdAt := createdAt e; updatedAt := updatedAt e |}.

(** [saveEdit], lines 653-670. *)
Definition saveEdit (i : Z) (editForm : EditForm) (clk : Clock)
    (expenses : list Txn) : Outcome :=
  let amountNum := Number (edit_amount editForm) in
  if bad_amount amountNum
  then (expenses, Some (Alert "Enter valid amount"))
  else
    let today := today clk in
    if date_gt (edit_date editForm) (Some today)
    then (expenses, Some (Alert "Cannot set future date"))
    else
      (map (fun e => if (id e =? i)%Z then merge e editForm amountNum
                     else e) expenses,
       None).

(** [clearAll], lines 672-676. *)
Definition clearAll (confirmed : bool) (expenses : list Txn) : list Txn :=
  if confirmed then [] else expenses.

(** [e.type === "expense" || !e.type]. *)
Definition is_expense (e : Txn) : bool :=
  match type e with
  | Some t => String.eqb t "expense" || negb (Js.truthy t)
  | None => true
  end.

(** [e.type === t]. *)
Definition has_type (t : string) (e : Txn) : bool :=
  Js.opt_str_eqb (type e) t.

(** The comparator of lines 702-708. *)
Definition compare (p : Params) (a b : Txn) : Z :=
  let lt :=
    if String.eqb (sortBy p) "amount"
    then num_ltb (Number (amount a)) (Number (amount b))
    else date_lt (date a) (date b) in
  let gt :=
    if String.eqb (sortBy p) "amount"
    then num_gtb (Number (amount a)) (Number (amount b))
    else date_gt (date a) (date b) in
  if lt then (if String.eqb (sortDir p) "asc" then -1 else 1)%Z
  else if gt then (if String.eqb (sortDir p) "asc" then 1 else -1)%Z
  else 0%Z.

(** The four steps of the view pipeline, lines 684-709. *)
Definition monthStage (p : Params) (l : list Txn) : list Txn :=
  if Js.truthy (selectedMonth p)
  then filter (month_matches (selectedMonth p)) l
  else l.

Definition typeStage (p : Params) (l : list Txn) : list Txn :=
  if negb (String.eqb (filterType p) "all") then
    if String.eqb (filterType p) "expense" then filter is_expense l
    else if String.eqb (filterType p) "income"
         then filter (has_type "income") l
         else l
  else l.

Definition searchStage (p : Params) (l : list Txn) : list Txn :=
  if Js.truthy (Js.trim (search p))
  then filter (title_matches (Js.toLowerCase (search p))) l
  else l.

Definition sortStage (p : Params) (l : list Txn) : list Txn :=
  if Js.truthy (sortBy p)
  then JsArray.sort (fun a b => sgn (compare p a b)) l
  else l.

(** [view], lines 684-709. *)
Definition view (p : Params) (expenses : list Txn) : list Txn :=
  let view :=
    if Js.truthy (selectedMonth p)
    then filter (month_matches (selectedMonth p)) expenses
    else expenses in
  let view :=
    if negb (String.eqb (filterType p) "all") then
      if String.eqb (filterType p) "expense" then filter is_expense view
      else if String.eqb (filterType p) "income"
           then filter (has_type "income") view
           else view
    else view in
  let view :=
    if Js.truthy (Js.trim (search p))
    then let q := Js.toLowerCase (search p) in
         filter (title_matches q) view
    else view in
  let view :=
    if Js.truthy (sortBy p)
    then JsArray.sort (fun a b => sgn (compare p a b)) view
    else view in
  view.

(** A value of [monthMap], lines 762-764. *)
Record MonthRow : Type := mkMonthRow {
  month : string;
  expense : num;
  income : num;
  investment : num
}.

(** An element of [barData], lines 776-780. *)
Record BarRow : Type := mkBarRow {
  bar_month : string;
  bar_expense : num;
  bar_income : num;
  bar_investment : num;
  spending : num;
  total : num
}.

(** The three [+=] of lines 765-771. *)
Definition add_amount (e : Txn) (r : MonthRow) : MonthRow :=
  if has_type "income" e
  then {| month := month r; expense := expense r;
          income := num_add (income r) (Number (amount e));
          investment := investment r |}
  else if has_type "investment" e
  then {| month := month r; expense := expense r; income := income r;
          investment := num_add (investment r) (Number (amount e)) |}
  else {| month := month r;
          expense := num_add (expense r) (Number (amount e));
          income := income r; investment := investment r |}.

(** The body of [view.forEach], lines 759-772.  For a key that is an
    inherited name, [monthMap[m]] is the inherited function: no row is
    made, the [+=] writes to that function, and [monthMap] stays as it
    is. *)
Definition monthMap_step (monthMap : JsObject.t MonthRow) (e : Txn)
  : JsObject.t MonthRow :=
  match month_key e with
  | None => monthMap
  | Some m =>
      if JsObject.inherited m then monthMap
      else
        let monthMap :=
          match JsObject.get m monthMap with
          | None =>
              JsObject.set m
                {| month := m; expense := num_zero; income := num_zero;
                   investment := num_zero |} monthMap
          | Some _ => monthMap
          end in
        match JsObject.get m monthMap with
        | Some r => JsObject.replace m (add_amount e r) monthMap
        | None => monthMap
        end
  end.

Definition monthMap (view : list Txn) : JsObject.t MonthRow :=
  fold_left monthMap_step view [].

(** [barData], lines 774-780. *)
Definition barData (view : list Txn) : list BarRow :=
  map (fun item =>
         {| bar_month := month item;
            bar_expense := expense item;
            bar_income := income item;
            bar_investment := investment item;
            spending := num_add (expense item) (investment item);
            total := num_add (num_add (income item) (expense item))
                             (investment item) |})
      (JsArray.sort
         (fun a b => num_sign (localeCompare (month a) (month b)))
         (JsObject.values (monthMap view))).

End Handlers.
End MultiType.

(* ===================================================================== *)
(** ** [Budget]: src/unnamed/part_000, lines 469-1489 *)
(* ===================================================================== *)

Module Budget.

(** The result of a computation that may throw. *)
Inductive Result (A : Type) : Type :=
| Ok (a : A)
| Throw (error : string).
Arguments Ok {A} a.
Arguments Throw {A} error.

Section Handlers.
Context {H : Host}.

(** [addExpense], lines 598-635; the category is stored as selected. *)
Definition addExpense (f : Form) (clk : Clock) (expenses : list Txn)
  : Outcome :=
  if missing_field f
  then (expenses,
        Some (Notify "Please fill in all required fields" "error"))
  else
    let amountNum := StringToNumber (form_amount f) in
    if bad_amount amountNum
    then (expenses,
          Some (Notify "Please enter a valid positive amount" "error"))
    else
      let today := today clk in
      if Js.str_gt (form_date f) today
      then (expenses,
            Some (Notify "Cannot add expenses for future dates" "error"))
      else
        let newExpense :=
          {| id := now clk;
             title := form_title f;
             amount := ANum amountNum;
             date := Some (form_date f);
             category := form_category f;
             type := None;
             notes := Some (form_notes f);
             createdAt := Some (isoStamp clk);
             updatedAt := None |} in
        (newExpense :: expenses,
         Some (Notify "Expense added successfully!" "success")).

(** [deleteExpense], lines 638-643. *)
Definition deleteExpense (confirmed : bool) (i : Z) (expenses : list Txn)
  : Outcome :=
  if confirmed
  then (filter (fun e => negb (id e =? i)%Z) expenses,
        Some (Notify "Expense deleted" "info"))
  else (expenses, None).

(** [{ ...e, ...editForm, amount: amountNum, updatedAt: ... }]. *)
Definition merge (e : Txn) (editForm : EditForm) (amountNum : num)
    (stamp : string) : Txn :=
  {| id := id e;
     title := edit_title editForm;
     amount := ANum amountNum;
     date := edit_date editForm;
     category := edit_category editForm;
     type := type e;
     notes := Some (edit_notes editForm);
     createdAt := createdAt e;
     updatedAt := Some stamp |}.

(** [saveEdit], lines 661-685. *)
Definition saveEdit (i : Z) (editForm : EditForm) (clk : Clock)
    (expenses : list Txn) : Outcome :=
  let amountNum := Number (edit_amount editForm) in
  if bad_amount amountNum
  then (expenses,
        Some (Notify "Please enter a valid positive amount" "error"))
  else
    let today := today clk in
    if date_gt (edit_date editForm) (Some today)
    then (expenses,
          Some (Notify "Cannot set expense date to future" "error"))
    else
      (map (fun e => if (id e =? i)%Z
                     then merge e editForm amountNum (isoStamp clk)
                     else e) expenses,
       Some (Notify "Expense updated successfully!" "success")).

(** [clearAll], lines 687-692. *)
Definition clearAll (confirmed : bool) (expenses : list Txn) : Outcome :=
  if confirmed
  then ([], Some (Notify "All expenses cleared" "info"))
  else (expenses, None).

(** *** Import and export, lines 695-733

    A JSON value.  [JTxns l] is an array of transaction objects, each
    with a string or a number for an [amount]; [JArr] stands for the
    other arrays.  A file is represented by the value [JSON.parse] makes
    of its text. *)
Inductive Json : Type :=
| JNull
| JBool (b : bool)
| JNum (n : num)
| JStr (s : string)
| JTxns (l : list Txn)
| JArr (l : list Json)
| JObj (props : list (string * Json)).

(** What [JSON.parse] makes of the text of a file. *)
Inductive Parse : Type :=
| SyntaxError
| Parsed (data : Json).

(** The truth value of a JSON value in a condition. *)
Definition truthy (v : Json) : bool :=
  match v with
  | JNull => false
  | JBool b => b
  | JNum n => match num_sign n with Eq => false | _ => true end
  | JStr s => Js.truthy s
  | JTxns _ | JArr _ | JObj _ => true
  end.

(** The result of reading a property. *)
Inductive Read : Type :=
| TypeError
| Undefined
| Value (v : Json).

(** [data.k]: a TypeError on [null], [undefined] where no such property
    exists. *)
Definition prop (k : string) (data : Json) : Read :=
  match data with
  | JNull => TypeError
  | JObj props =>
      match JsObject.get k props with
      | Some v => Value v
      | None => Undefined
      end
  | _ => Undefined
  end.

(** [data], lines 696-700. *)
Definition exportDoc (expenses : list Txn) (monthlyBudget : Json)
    (clk : Clock) : Json :=
  JObj [ ("expenses"%string, JTxns expenses);
         ("monthlyBudget"%string, monthlyBudget);
         ("exportedAt"%string, JStr (isoNow clk)) ].

(** [JSON.parse(JSON.stringify(a))] for the value of an [amount]
    property; [None] is [null]. *)
Definition amount_json (a : Amount) : option Amount :=
  match a with
  | AStr s => Some (AStr s)
  | ANum n =>
      match num_json n with
      | Some n' => Some (ANum n')
      | None => None
      end
  end.

(** A transaction object read back from its JSON text, when its amount
    is not read back as [null]; the properties that are [undefined] are
    not written and are [undefined] again. *)
Definition txn_json (e : Txn) : option Txn :=
  match amount_json (amount e) with
  | Some a =>
      Some {| id := id e; title := title e; amount := a; date := date e;
              category := category e; type := type e; notes := notes e;
              createdAt := createdAt e; updatedAt := updatedAt e |}
  | None => None
  end.

Fixpoint txns_json (l : list Txn) : option (list Txn) :=
  match l with
  | [] => Some []
  | e :: l' =>
      match txn_json e, txns_json l' with
      | Some e', Some r => Some (e' :: r)
      | _, _ => None
      end
  end.

(** The number an [id] is read back as from its decimal text. *)
Definition id_json (i : Z) : num :=
  StringToNumber (DecimalString.NilZero.string_of_int (Z.to_int i)).

Definition opt_prop (k : string) (v : option string)
  : list (string * Json) :=
  match v with
  | Some s => [(k, JStr s)]
  | None => []
  end.

(** A transaction object read back from its JSON text as a plain object:
    this is what an array holds in the place of a transaction whose
    amount is read back as [null]. *)
Definition txn_object (e : Txn) : Json :=
  JObj ([ ("id"%string, JNum (id_json (id e)));
          ("title"%string, JStr (title e));
          ("amount"%string,
           match amount_json (amount e) with
           | Some (AStr s) => JStr s
           | Some (ANum n) => JNum n
           | None => JNull
           end) ]
        ++ opt_prop "date" (date e)
        ++ [ ("category"%string, JStr (category e)) ]
        ++ opt_prop "type" (type e)
        ++ opt_prop "notes" (notes e)
        ++ opt_prop "createdAt" (createdAt e)
        ++ opt_prop "updatedAt" (updatedAt e)).

(** [JSON.parse(JSON.stringify(v))]: a number that is not finite comes
    back as [null], and with it an array of transactions is no longer
    one. *)
Fixpoint reparse (v : Json) : Json :=
  match v with
  | JNull => JNull
  | JBool b => JBool b
  | JNum n =>
      match num_json n with
      | Some n' => JNum n'
      | None => JNull
      end
  | JStr s => JStr s
  | JTxns l =>
      match txns_json l with
      | Some l' => JTxns l'
      | None => JArr (map txn_object l)
      end
  | JArr l => JArr (map reparse l)
  | JObj props => JObj (map (fun '(k, x) => (k, reparse x)) props)
  end.

(** [exportData], lines 695-713: the content of the file written, which
    is the text [JSON.stringify] makes of [data], as [JSON.parse] reads
    it back, and the notification. *)
Definition exportData (expenses : list Txn) (monthlyBudget : Json)
    (clk : Clock) : Parse * Report :=
  (Parsed (reparse (exportDoc expenses monthlyBudget clk)),
   Notify "Data exported successfully!" "success").

(** The state updates [importData] issues. *)
Record Import : Type := mkImport {
  setExpenses : option Json;
  setMonthlyBudget : option Json;
  notification : option Report
}.

(** [importData], lines 715-733; [file] is [None] when no file was
    chosen. *)
Definition importData (file : option Parse) : Import :=
  match file with
  | None => mkImport None None None
  | Some SyntaxError =>
      mkImport None None (Some (Notify "Invalid file format" "error"))
  | Some (Parsed data) =>
      match prop "expenses" data with
      | TypeError =>
          mkImport None None (Some (Notify "Invalid file format" "error"))
      | Undefined => mkImport None None None
      | Value expenses =>
          if truthy expenses then
            mkImport (Some expenses)
              (match prop "monthlyBudget" data with
               | Value b => if truthy b then Some b else None
               | _ => None
               end)
              (Some (Notify "Data imported successfully!" "success"))
          else mkImport None None None
      end
  end.

(** The collection after the updates of an import: an array of
    transaction objects replaces it; any other value put in its place is
    not a collection ([None]). *)
Definition imported (i : Import) (expenses : list Txn)
  : option (list Txn) :=
  match setExpenses i with
  | None => Some expenses
  | Some (JTxns l) => Some l
  | Some _ => None
  end.

(** The budget after the updates of an import. *)
Definition imported_budget (i : Import) (monthlyBudget : Json) : Json :=
  match setMonthlyBudget i with
  | None => monthlyBudget
  | Some b => b
  end.

(** *** The computed view, lines 755-866 *)

(** [(new Date(e.date).getMonth() + 1).toString().padStart(2, '0')]. *)
Definition expenseMonth (e : Txn) : string :=
  Js.padStart0 2
    (num_toString (num_add (Date_getMonth (Date_parse (date e))) num_one)).

(** The search predicate of lines 768-772. *)
Definition matches (q : string) (e : Txn) : bool :=
  Js.includes (Js.toLowerCase (title e)) q
  || Js.includes (Js.toLowerCase (category e)) q
  || match notes e with
     | Some n => Js.truthy n && Js.includes (Js.toLowerCase n) q
     | None => false
     end.

(** The comparator of lines 776-786. *)
Definition compare (p : Params) (a b : Txn) : num :=
  let multiplier :=
    if String.eqb (sortDir p) "asc" then num_one else num_minus_one in
  if String.eqb (sortBy p) "amount"
  then num_mul (num_sub (Number (amount a)) (Number (amount b))) multiplier
  else if String.eqb (sortBy p) "title"
  then num_mul (localeCompare (title a) (title b)) multiplier
  else num_mul (num_sub (Date_parse (date a)) (Date_parse (date b)))
               multiplier.

Definition monthStage (p : Params) (l : list Txn) : list Txn :=
  if Js.truthy (selectedMonth p)
  then filter (fun e => String.eqb (expenseMonth e) (selectedMonth p)) l
  else l.

Definition searchStage (p : Params) (l : list Txn) : list Txn :=
  if Js.truthy (Js.trim (search p))
  then filter (matches (Js.toLowerCase (search p))) l
  else l.

Definition sortStage (p : Params) (l : list Txn) : list Txn :=
  JsArray.sort (fun a b => num_sign (compare p a b)) l.

(** [filtered], lines 757-786. *)
Definition filteredExpenses (p : Params) (expenses : list Txn)
  : list Txn :=
  let filtered := expenses in
  let filtered :=
    if Js.truthy (selectedMonth p)
    then filter (fun e => String.eqb (expenseMonth e) (selectedMonth p))
                filtered
    else filtered in
  let filtered :=
    if Js.truthy (Js.trim (search p))
    then let q := Js.toLowerCase (search p) in
         filter (matches q) filtered
    else filtered in
  JsArray.sort (fun a b => num_sign (compare p a b)) filtered.

(** [v || 0] for a number or [undefined]. *)
Definition or_zero (v : option num) : num :=
  match v with
  | Some n => match num_sign n with Eq => num_zero | _ => n end
  | None => num_zero
  end.

(** [o[k] = (o[k] || 0) + x], for a key [k] that is not an inherited name
    (for one, [o[k] || 0] is a function and [+] makes a string of it). *)
Definition bump (k : string) (x : num) (o : JsObject.t num)
  : JsObject.t num :=
  JsObject.set k (num_add (or_zero (JsObject.get k o)) x) o.

(** The body of [filtered.forEach], lines 807-818: [e.date.slice] throws
    a TypeError when the date is absent, [toISOString] a RangeError when
    it is not a date. *)
Definition aggregate_step
    (acc : Result (JsObject.t num * JsObject.t num)) (e : Txn)
  : Result (JsObject.t num * JsObject.t num) :=
  match acc with
  | Throw err => Throw err
  | Ok (monthlyData, weeklyData) =>
      match date e with
      | None => Throw "TypeError"
      | Some d =>
          let monthKey := Js.slice0 7 d in
          let monthlyData := bump monthKey (Number (amount e)) monthlyData in
          let t := Date_parse (Some d) in
          if num_isNaN t then Throw "RangeError"
          else
            let weekKey := Date_weekKey t in
            Ok (monthlyData, bump weekKey (Number (amount e)) weeklyData)
      end
  end.

Definition aggregate (filtered : list Txn)
  : Result (JsObject.t num * JsObject.t num) :=
  fold_left aggregate_step filtered (Ok ([], [])).

(** [bar], lines 821-837: pairs of a key ([month] or [week]) and a
    [total]. *)
Definition bar (p : Params) (monthlyData weeklyData : JsObject.t num)
  : list (string * num) :=
  let by_key :=
    fun a b : string * num => num_sign (localeCompare (fst a) (fst b)) in
  if String.eqb (timeRange p) "monthly"
  then JsArray.sort by_key (JsObject.entries monthlyData)
  else if String.eqb (timeRange p) "weekly"
  then firstn 12 (JsArray.sort by_key (JsObject.entries weeklyData))
  else [].

(** The parts of the computed object this development is about. *)
Record Computed : Type := mkComputed {
  computed_filteredExpenses : list Txn;
  totalAmount : num;
  barData : list (string * num)
}.

(** The [useMemo] callback, lines 755-866, restricted to [Computed];
    line 841 reads [e.date.startsWith] on every record of [expenses]. *)
Definition computed (p : Params) (expenses : list Txn)
  : Result Computed :=
  let filtered := filteredExpenses p expenses in
  let total :=
    fold_left (fun sum e => num_add sum (Number (amount e)))
              filtered num_zero in
  match aggregate filtered with
  | Throw err => Throw err
  | Ok (monthlyData, weeklyData) =>
      let bar := bar p monthlyData weeklyData in
      if forallb (fun e => match date e with Some _ => true
                                           | None => false end) expenses
      then Ok {| computed_filteredExpenses := filtered;
                 totalAmount := total;
                 barData := bar |}
      else Throw "TypeError"
  end.

End Handlers.
End Budget.

(* ===================================================================== *)
(** ** Sequences of operations *)
(* ===================================================================== *)

Section Operations.
Context {H : Host}.

(** One call of a handler of the store, with its inputs. *)
Inductive Op : Type :=
| OpAdd (f : Form) (clk : Clock)
| OpUpdate (i : Z) (editForm : EditForm) (clk : Clock)
| OpRemove (i : Z)
| OpClear (confirmed : bool).

(** The clock readings of the operations that read the clock. *)
Definition op_clock (op : Op) : option Clock :=
  match op with
  | OpAdd _ clk | OpUpdate _ _ clk => Some clk
  | OpRemove _ | OpClear _ => None
  end.

(** The values of [Date.now()] read by the calls of [addExpense]. *)
Fixpoint add_stamps (ops : list Op) : list Z :=
  match ops with
  | [] => []
  | OpAdd _ clk :: ops' => now clk :: add_stamps ops'
  | _ :: ops' => add_stamps ops'
  end.

Definition is_update (op : Op) : bool :=
  match op with OpUpdate _ _ _ => true | _ => false end.

(** No operation of [ops] reads a day after [day]. *)
Definition clocks_upto (day : string) (ops : list Op) : Prop :=
  forall op clk, In op ops -> op_clock op = Some clk ->
                 String.leb (today clk) day = true.

(** *** The invariants of the data model *)

(** A numeric amount greater than zero. *)
Definition amount_ok (e : Txn) : bool :=
  match amount e with
  | ANum n => num_positive n
  | AStr _ => false
  end.

(** A date that is not after [day]. *)
Definition date_ok (day : string) (e : Txn) : bool :=
  negb (date_gt (date e) (Some day)).

Definition title_ok (e : Txn) : bool := Js.truthy (title e).

Definition category_ok (e : Txn) : bool := Js.truthy (category e).

Definition valid (day : string) (e : Txn) : bool :=
  amount_ok e && date_ok day e && title_ok e && category_ok e.

(** The invariants of the data model on a collection, on the day
    [day]. *)
Definition invariants (day : string) (l : list Txn) : Prop :=
  Forall (fun e => valid day e = true) l /\ NoDup (map id l).

(** What holds of a collection [l] reached by the operations [ops], none
    of which reads a day after [day]: the amounts are numbers above zero
    and no date is after [day]; the titles and categories are not empty
    when no operation is an update; the [id]s are distinct when the calls
    of [addExpense] read distinct values of [Date.now()]. *)
Definition guaranteed (day : string) (ops : list Op) (l : list Txn)
  : Prop :=
  Forall (fun e => amount_ok e && date_ok day e = true) l
  /\ (existsb is_update ops = false ->
      Forall (fun e => valid day e = true) l)
  /\ (NoDup (add_stamps ops) -> NoDup (map id l)).

(** A date in the form [YYYY-MM-DD]. *)
Definition is_digit (c : ascii) : bool :=
  let n := N_of_ascii c in ((48 <=? n) && (n <=? 57))%N.

Definition well_formed_date (d : string) : bool :=
  match list_ascii_of_string d with
  | [y1; y2; y3; y4; h1; m1; m2; h2; d1; d2] =>
      forallb is_digit [y1; y2; y3; y4; m1; m2; d1; d2]
      && Ascii.eqb h1 "-" && Ascii.eqb h2 "-"
  | _ => false
  end.

(** The date of [e] is missing: absent or empty. *)
Definition date_missing (e : Txn) : bool :=
  match date e with
  | Some d => negb (Js.truthy d)
  | None => true
  end.

(** The date of [e] is missing or malformed: absent, or not in the form
    [YYYY-MM-DD]. *)
Definition date_malformed (e : Txn) : bool :=
  match date e with
  | Some d => negb (well_formed_date d)
  | None => true
  end.

(** [l1] is [l2] with some elements left out. *)
Inductive subseq (A : Type) : list A -> list A -> Prop :=
| subseq_nil : subseq [] []
| subseq_skip : forall x l1 l2, subseq l1 l2 -> subseq l1 (x :: l2)
| subseq_keep : forall x l1 l2, subseq l1 l2 -> subseq (x :: l1) (x :: l2).

(** *** Candidates and reports *)

(** A report of an error: an alert, or a notification of kind
    ["error"]. *)
Definition is_error (r : Report) : bool :=
  match r with
  | Alert _ => true
  | Notify _ kind => String.eqb kind "error"
  end.

Definition reports_error (o : Outcome) : bool :=
  match snd o with
  | Some r => is_error r
  | None => false
  end.

(** The amount of the candidate is at most zero. *)
Definition amount_not_positive (f : Form) : bool :=
  num_leb (StringToNumber (form_amount f)) num_zero.

(** The date of the candidate is after the current date. *)
Definition date_in_future (f : Form) (clk : Clock) : bool :=
  Js.str_gt (form_date f) (today clk).

(** A candidate with an amount at most zero, a date in the future, an
    empty title, or a category that is empty or not resolved. *)
Definition candidate_invalid (f : Form) (clk : Clock) : bool :=
  amount_not_positive f || date_in_future f clk
  || negb (Js.truthy (form_title f))
  || negb (Js.truthy (finalCategory f)).

(** A candidate that passes every check of [addExpense]. *)
Definition candidate_valid (f : Form) (clk : Clock) : bool :=
  negb (missing_field f)
  && negb (bad_amount (StringToNumber (form_amount f)))
  && negb (date_in_future f clk)
  && Js.truthy (finalCategory f).

(** A patch whose amount or date [saveEdit] refuses. *)
Definition edit_invalid (editForm : EditForm) (clk : Clock) : bool :=
  bad_amount (Number (edit_amount editForm))
  || date_gt (edit_date editForm) (Some (today clk)).

(** [e'] is [e] with the patch: it has the [id] of [e] and its creation
    stamp, the title, the date and the category of the patch, and the
    number [n] for an amount. *)
Definition carries_patch (editForm : EditForm) (n : num) (e e' : Txn)
  : Prop :=
  id e' = id e
  /\ title e' = edit_title editForm
  /\ amount e' = ANum n
  /\ date e' = edit_date editForm
  /\ category e' = edit_category editForm
  /\ createdAt e' = createdAt e.

(** [l'] is [l] with, in the place of every record [e] whose [id] is
    [i], a record [e'] with [R e e'], and every other record where it
    was. *)
Definition replaces_in_place (i : Z) (R : Txn -> Txn -> Prop)
    (l l' : list Txn) : Prop :=
  List.length l' = List.length l
  /\ forall k e, nth_error l k = Some e ->
       exists e', nth_error l' k = Some e'
                  /\ (if (id e =? i)%Z then R e e' else e' = e).

(** The amount of [e] is read back from its JSON text as it is: a
    string, or a number that [JSON] writes and reads back as the same
    number. *)
Definition amount_reads_back (e : Txn) : Prop :=
  Budget.amount_json (amount e) = Some (amount e).

(** [sum] of the amounts of [l], added from the left as [reduce] and the
    [+=] of the loops do. *)
Definition sum_amounts (l : list Txn) : num :=
  fold_left (fun sum e => num_add sum (Number (amount e))) l num_zero.

(** The month key under which [monthMap] counts [e]: the first seven
    characters of its date, unless they are empty or an inherited name. *)
Definition counted_key (e : Txn) : option string :=
  match month_key e with
  | Some m => if JsObject.inherited m then None else Some m
  | None => None
  end.

(** The records of [l] in the bucket [k] that [sel] selects. *)
Definition in_bucket (k : string) (sel : Txn -> bool) (e : Txn) : bool :=
  Js.opt_str_eqb (counted_key e) k && sel e.

Definition bucket_sum (k : string) (sel : Txn -> bool) (l : list Txn)
  : num :=
  sum_amounts (filter (in_bucket k sel) l).

(** The total that [o[k] = (o[k] || 0) + x] builds from the amounts of
    [l], from [undefined]. *)
Definition running_total (l : list Txn) : option num :=
  fold_left
    (fun (s : option num) e =>
       Some (num_add (Budget.or_zero s) (Number (amount e))))
    l None.

(** The three kinds of record the [+=] of [MultiType] tell apart. *)
Definition is_income (e : Txn) : bool := MultiType.has_type "income" e.

Definition is_investment (e : Txn) : bool :=
  negb (MultiType.has_type "income" e)
  && MultiType.has_type "investment" e.

Definition is_other (e : Txn) : bool :=
  negb (MultiType.has_type "income" e)
  && negb (MultiType.has_type "investment" e).

(** The row of the month [k] for the view [l]: the sums of the amounts
    of the records of that month, by kind. *)
Definition month_row (k : string) (l : list Txn) : MultiType.MonthRow :=
  {| MultiType.month := k;
     MultiType.expense := bucket_sum k is_other l;
     MultiType.income := bucket_sum k is_income l;
     MultiType.investment := bucket_sum k is_investment l |}.

Definition bar_row (k : string) (l : list Txn) : MultiType.BarRow :=
  {| MultiType.bar_month := k;
     MultiType.bar_expense := bucket_sum k is_other l;
     MultiType.bar_income := bucket_sum k is_income l;
     MultiType.bar_investment := bucket_sum k is_investment l;
     MultiType.spending :=
       num_add (bucket_sum k is_other l) (bucket_sum k is_investment l);
     MultiType.total :=
       num_add (num_add (bucket_sum k is_income l)
                        (bucket_sum k is_other l))
               (bucket_sum k is_investment l) |}.

(** Some record of [l] falls in the month [k]. *)
Definition month_present (k : string) (l : list Txn) : bool :=
  existsb (fun e => Js.opt_str_eqb (counted_key e) k) l.

(** The rows of a chart are in ascending order of their keys. *)
Definition keys_ascending (A : Type) (key : A -> string) (l : list A)
  : Prop :=
  StronglySorted
    (fun a b => num_sign (localeCompare (key a) (key b)) <> Gt) l.

(** [e.date.slice(0, 7)] is [k]. *)
Definition has_month (k : string) (e : Txn) : bool :=
  match date e with
  | Some d => String.eqb (Js.slice0 7 d) k
  | None => false
  end.

End Operations.

Module CheckedRun.
Section Run.
Context {H : Host}.

Definition apply (l : list Txn) (op : Op) : list Txn :=
  match op with
  | OpAdd f clk => fst (Checked.addExpense f clk l)
  | OpUpdate i editForm clk => fst (Checked.saveEdit i editForm clk l)
  | OpRemove i => Checked.deleteExpense i l
  | OpClear confirmed => Checked.clearAll confirmed l
  end.

Definition run (ops : list Op) (l : list Txn) : list Txn :=
  fold_left apply ops l.
End Run.
End CheckedRun.

Module MultiTypeRun.
Section Run.
Context {H : Host}.

Definition apply (l : list Txn) (op : Op) : list Txn :=
  match op with
  | OpAdd f clk => fst (MultiType.addExpense f clk l)
  | OpUpdate i editForm clk => fst (MultiType.saveEdit i editForm clk l)
  | OpRemove i => MultiType.deleteExpense i l
  | OpClear confirmed => MultiType.clearAll confirmed l
  end.

Definition run (ops : list Op) (l : list Txn) : list Txn :=
  fold_left apply ops l.
End Run.
End MultiTypeRun.

Module PlainRun.
Section Run.
Context {H : Host}.

Definition apply (l : list Txn) (op : Op) : list Txn :=
  match op with
  | OpAdd f clk => fst (Plain.addExpense f clk l)
  | OpUpdate i editForm clk => fst (Plain.saveEdit i editForm clk l)
  | OpRemove i => Plain.deleteExpense i l
  | OpClear confirmed => Plain.clearAll confirmed l
  end.

Definition run (ops : list Op) (l : list Txn) : list Txn :=
  fold_left apply ops l.
End Run.
End PlainRun.

Module BudgetRun.
Section Run.
Context {H : Host}.

(** The operations of the other iterations; the confirmation a removal
    asks for is given. *)
Definition apply_op (l : list Txn) (op : Op) : list Txn :=
  match op with
  | OpAdd f clk => fst (Budget.addExpense f clk l)
  | OpUpdate i editForm clk => fst (Budget.saveEdit i editForm clk l)
  | OpRemove i => fst (Budget.deleteExpense true i l)
  | OpClear confirmed => fst (Budget.clearAll confirmed l)
  end.

Definition run_ops (ops : list Op) (l : list Txn) : list Txn :=
  fold_left apply_op ops l.

(** The operations of [Budget]: those, and the import of a file. *)
Inductive BOp : Type :=
| Basic (op : Op)
| Import (file : option Budget.Parse).

(** [None] once an import has put a value that is not an array of
    transactions in the place of the collection. *)
Definition apply (st : option (list Txn)) (op : BOp)
  : option (list Txn) :=
  match st with
  | None => None
  | Some l =>
      match op with
      | Basic op => Some (apply_op l op)
      | Import file => Budget.imported (Budget.importData file) l
      end
  end.

Definition run (ops : list BOp) (l : list Txn) : option (list Txn) :=
  fold_left apply ops (Some l).
End Run.
End BudgetRun.

(* ===================================================================== *)
(** ** Sort keys *)
(* ===================================================================== *)

Section ThreeWayDef.
Variable A : Type.
Variable lt : A -> A -> bool.

(** The comparator that answers [s] below, the opposite above and zero
    otherwise. *)
Definition three_way (s : comparison) (a b : A) : comparison :=
  if lt a b then s else if lt b a then CompOpp s else Eq.
End ThreeWayDef.

Section SortKeys.
Context {H : Host}.

(** The order of the keys the comparators of [Plain], [Checked] and
    [MultiType] read: the amounts as numbers, or the dates as strings. *)
Definition key_lt (p : Params) (a b : Txn) : bool :=
  if String.eqb (sortBy p) "amount"
  then num_ltb (Number (amount a)) (Number (amount b))
  else date_lt (date a) (date b).

(** The records the comparator orders: with a number for an amount when
    sorting by amount, with a date when sorting by date. *)
Definition sortable (p : Params) (e : Txn) : Prop :=
  if String.eqb (sortBy p) "amount"
  then num_isNaN (Number (amount e)) = false
  else date e <> None.

Definition direction (p : Params) : comparison :=
  if String.eqb (sortDir p) "asc" then Lt else Gt.
End SortKeys.

(* ===================================================================== *)
(** ** A host to run the model on

    [IntHost] is a host whose numbers are the integers and NaN.  [Number]
    agrees with ECMAScript on the decimal numerals of integers (and on the
    empty string); [localeCompare] is the code-unit order; a date
    [YYYY-MM-DD] is counted in days of a calendar of twelve months of 31
    days, and weeks are blocks of seven such days.  It instantiates the
    general statements on concrete records. *)
(* ===================================================================== *)

Module IntHost.

Definition num : Type := option Z.

Definition StringToNumber (s : string) : num :=
  if String.eqb s "" then Some 0%Z
  else match DecimalString.NilZero.int_of_string s with
       | Some d => Some (Z.of_int d)
       | None => None
       end.

Definition isNaN (x : num) : bool :=
  match x with Some _ => false | None => true end.

Definition ltb (x y : num) : bool :=
  match x, y with
  | Some a, Some b => (a <? b)%Z
  | _, _ => false
  end.

Definition leb (x y : num) : bool :=
  match x, y with
  | Some a, Some b => (a <=? b)%Z
  | _, _ => false
  end.

Definition lift2 (f : Z -> Z -> Z) (x y : num) : num :=
  match x, y with
  | Some a, Some b => Some (f a b)
  | _, _ => None
  end.

Definition toString (x : num) : string :=
  match x with
  | Some a => DecimalString.NilZero.string_of_int (Z.to_int a)
  | None => "NaN"
  end.

Definition localeCompare (a b : string) : num :=
  match String.compare a b with
  | Lt => Some (-1)%Z
  | Eq => Some 0%Z
  | Gt => Some 1%Z
  end.

(** The day number of [YYYY-MM-DD]. *)
Definition Date_parse (v : option string) : num :=
  match v with
  | None => None
  | Some s =>
      if well_formed_date s then
        match StringToNumber (Js.slice0 4 s),
              StringToNumber (String.substring 5 2 s),
              StringToNumber (String.substring 8 2 s) with
        | Some y, Some m, Some d =>
            if ((1 <=? m) && (m <=? 12) && (1 <=? d) && (d <=? 31))%Z
            then Some ((y * 12 + (m - 1)) * 31 + (d - 1))%Z
            else None
        | _, _, _ => None
        end
      else None
  end.

Definition Date_getMonth (t : num) : num :=
  match t with
  | Some n => Some ((n / 31) mod 12)%Z
  | None => None
  end.

Definition render (n : Z) : string :=
  String.append
    (Js.padStart0 4 (toString (Some (n / 372)%Z)))
    (String.append "-"
       (String.append
          (Js.padStart0 2 (toString (Some ((n / 31) mod 12 + 1)%Z)))
          (String.append "-"
             (Js.padStart0 2 (toString (Some (n mod 31 + 1)%Z)))))).

Definition Date_weekKey (t : num) : string :=
  match t with
  | Some n => render (n - n mod 7)%Z
  | None => "Invalid Date"
  end.

(** Every number but NaN is finite here. *)
Definition json (x : num) : option num :=
  match x with
  | Some a => Some (Some a)
  | None => None
  end.

Definition host : Host :=
  Build_Host StringToNumber isNaN (Some 0%Z) (Some 1%Z) (Some (-1)%Z)
    ltb leb (lift2 Z.add) (lift2 Z.sub) (lift2 Z.mul) toString
    localeCompare Date_parse Date_getMonth Date_weekKey json.

End IntHost.

(** [WideHost] has the two infinities as well: [Number("Infinity")] is
    [Infinity], which is above zero and which [JSON] writes as [null].
    The rest is [IntHost]. *)
Module WideHost.

Inductive num : Type :=
| NaN
| NegInf
| Fin (z : Z)
| PosInf.

Definition of_int (x : IntHost.num) : num :=
  match x with
  | Some z => Fin z
  | None => NaN
  end.

Definition StringToNumber (s : string) : num :=
  if String.eqb s "Infinity" then PosInf
  else if String.eqb s "-Infinity" then NegInf
  else of_int (IntHost.StringToNumber s).

Definition isNaN (x : num) : bool :=
  match x with NaN => true | _ => false end.

Definition ltb (x y : num) : bool :=
  match x, y with
  | NaN, _ | _, NaN => false
  | NegInf, NegInf => false
  | NegInf, _ => true
  | Fin a, Fin b => (a <? b)%Z
  | Fin _, PosInf => true
  | Fin _, NegInf => false
  | PosInf, _ => false
  end.

Definition leb (x y : num) : bool :=
  match x, y with
  | NaN, _ | _, NaN => false
  | NegInf, _ => true
  | Fin a, Fin b => (a <=? b)%Z
  | Fin _, PosInf => true
  | Fin _, NegInf => false
  | PosInf, PosInf => true
  | PosInf, _ => false
  end.

Definition neg (x : num) : num :=
  match x with
  | NaN => NaN
  | NegInf => PosInf
  | Fin z => Fin (- z)
  | PosInf => NegInf
  end.

Definition add (x y : num) : num :=
  match x, y with
  | NaN, _ | _, NaN => NaN
  | PosInf, NegInf | NegInf, PosInf => NaN
  | PosInf, _ | _, PosInf => PosInf
  | NegInf, _ | _, NegInf => NegInf
  | Fin a, Fin b => Fin (a + b)
  end.

Definition sub (x y : num) : num := add x (neg y).

(** An infinity times a number of the given sign. *)
Definition scale (inf : num) (z : Z) : num :=
  match z with
  | Z0 => NaN
  | Zpos _ => inf
  | Zneg _ => neg inf
  end.

Definition mul (x y : num) : num :=
  match x, y with
  | NaN, _ | _, NaN => NaN
  | Fin a, Fin b => Fin (a * b)
  | Fin a, inf => scale inf a
  | inf, Fin b => scale inf b
  | PosInf, PosInf | NegInf, NegInf => PosInf
  | PosInf, NegInf | NegInf, PosInf => NegInf
  end.

Definition toString (x : num) : string :=
  match x with
  | NaN => "NaN"
  | NegInf => "-Infinity"
  | Fin z => IntHost.toString (Some z)
  | PosInf => "Infinity"
  end.

Definition localeCompare (a b : string) : num :=
  of_int (IntHost.localeCompare a b).

Definition Date_parse (v : option string) : num :=
  of_int (IntHost.Date_parse v).

Definition Date_getMonth (t : num) : num :=
  match t with
  | Fin n => of_int (IntHost.Date_getMonth (Some n))
  | _ => NaN
  end.

Definition Date_weekKey (t : num) : string :=
  match t with
  | Fin n => IntHost.Date_weekKey (Some n)
  | _ => "Invalid Date"
  end.

Definition json (x : num) : option num :=
  match x with
  | Fin z => Some (Fin z)
  | _ => None
  end.

Definition host : Host :=
  Build_Host StringToNumber isNaN (Fin 0) (Fin 1) (Fin (-1))
    ltb leb add sub mul toString
    localeCompare Date_parse Date_getMonth Date_weekKey json.

End WideHost.

(* ===================================================================== *)
(** ** Sample inputs *)
(* ===================================================================== *)

Module Sample.
Section Records.
Context {H : Host}.

(** Two records of the same day, in the order in which they were
    added. *)
Definition tea : Txn :=
  mkTxn 1 "Tea" (AStr "5") (Some "2024-01-05"%string) "Food"
        None None None None.

Definition bus : Txn :=
  mkTxn 2 "Bus" (AStr "7") (Some "2024-01-05"%string) "Travel"
        None None None None.

(** Sort by date, ascending, no filter. *)
Definition by_date : Params :=
  mkParams "" "all" "" "date" "asc" "monthly".

(** No filter and no sort. *)
Definition unsorted : Params :=
  mkParams "" "all" "" "" "asc" "monthly".

(** A clock reading on the first of March 2024. *)
Definition march : Clock :=
  mkClock "2024-03-01T10:00:00.000Z" 1709287200000
          "2024-03-01T10:00:00.001Z".

Definition lunch : Form :=
  mkForm "Lunch" "100" "2024-01-05" "Food" "" "expense" "".

Definition untitled : Form :=
  mkForm "" "10" "2024-01-01" "Food" "" "expense" "".

Definition negative : Form :=
  mkForm "Refund" "-5" "2024-01-05" "Food" "" "expense" "".

(** A record as [Checked] stores [lunch], with the [id] that [march]
    gives. *)
Definition stored_lunch : Txn :=
  mkTxn 1709287200000 "Lunch" (ANum (StringToNumber "100"))
        (Some "2024-01-05"%string) "Food" None None None None.

(** A patch with a negative amount and one with an empty title. *)
Definition patch_negative : EditForm :=
  mkEditForm "Tea" (AStr "-3") (Some "2024-01-05"%string) "Food" None "".

Definition patch_untitled : EditForm :=
  mkEditForm "" (AStr "5") (Some "2024-01-05"%string) "Food" None "".

(** A record whose date is not a date. *)
Definition undated : Txn :=
  mkTxn 3 "Gift" (AStr "9") (Some "garbage"%string) "Other"
        (Some "income"%string) None None None.

(** A record with a negative amount, and a file that holds it. *)
Definition debt : Txn :=
  mkTxn 4 "Debt" (ANum (StringToNumber "-5")) (Some "2024-01-05"%string)
        "Bills" None None None None.

Definition debt_file : Budget.Json :=
  Budget.JObj [("expenses"%string, Budget.JTxns [debt])].

(** Files: an object without [expenses], and one whose [expenses] is a
    string. *)
Definition no_expenses : Budget.Json := Budget.JObj [].

Definition text_expenses : Budget.Json :=
  Budget.JObj [("expenses"%string, Budget.JStr "abc")].

(** A file with a record whose amount is the text ["Infinity"], and the
    edit form that holds the properties of that record. *)
Definition big : Txn :=
  mkTxn 5 "Big" (AStr "Infinity") (Some "2024-01-05"%string) "Bills"
        None None None None.

Definition big_file : Budget.Json :=
  Budget.JObj [("expenses"%string, Budget.JTxns [big])].

Definition big_form : EditForm :=
  mkEditForm "Big" (AStr "Infinity") (Some "2024-01-05"%string) "Bills"
             None "".

(** A patch that passes the checks of [saveEdit]. *)
Definition patch_tea : EditForm :=
  mkEditForm "Green tea" (AStr "6") (Some "2024-01-06"%string) "Drinks"
             None "hot".

End Records.
End Sample.

(* ===================================================================== *)
(** ** The edit form, the cards and the charts *)
(* ===================================================================== *)

Section Tally.
Context {H : Host}.

(** [a.toString()] for the value of an [amount] property. *)
Definition Amount_toString (a : Amount) : string :=
  match a with
  | AStr s => s
  | ANum n => num_toString n
  end.

(** The dictionary that a loop of [o[k] = (o[k] || 0) + Number(e.amount)]
    builds from [l], where [key e] is the key of [e], or [None] when the
    loop skips [e]. *)
Definition tally (key : Txn -> option string) (l : list Txn)
  : JsObject.t num :=
  fold_left
    (fun acc e =>
       match key e with
       | Some k => Budget.bump k (Number (amount e)) acc
       | None => acc
       end) l [].

(** The keys of [l], each once, in the order of their first occurrence. *)
Definition first_seen (l : list string) : list string :=
  fold_left
    (fun acc k => if existsb (String.eqb k) acc then acc else acc ++ [k])
    l [].

(** The keys of the records of [l] that have one. *)
Definition keys_of (key : Txn -> option string) (l : list Txn)
  : list string :=
  flat_map (fun e => match key e with Some k => [k] | None => [] end) l.

(** A key that is neither an array index nor an inherited name. *)
Definition ordinary_key (k : string) : bool :=
  match JsObject.array_index k with
  | Some _ => false
  | None => negb (JsObject.inherited k)
  end.

(** [e] with its [type] property left out. *)
Definition untyped (e : Txn) : Txn :=
  {| id := id e; title := title e; amount := amount e; date := date e;
     category := category e; type := None; notes := notes e;
     createdAt := createdAt e; updatedAt := updatedAt e |}.

End Tally.

(** [startEdit] of [Plain], src/unnamed/part_000, lines 91-99: the [id]
    put in [editingId] and the form put in [editForm].  The form of [Plain]
    and [Checked] has no [type] and no [notes]. *)
Module PlainForm.
Section Form.
Context {H : Host}.

Definition startEdit (e : Txn) : Z * EditForm :=
  (id e,
   {| edit_title := title e;
      edit_amount := amount e;
      edit_date := date e;
      edit_category := category e;
      edit_type := None;
      edit_notes := "" |}).

End Form.
End PlainForm.

(** [startEdit] of [Checked], src/src/App_backup2.js, lines 93-101, and
    its cards and charts, lines 183-208 (the same text as lines 155-178 of
    src/unnamed/part_000). *)
Module CheckedCards.
Section Cards.
Context {H : Host}.

Definition startEdit (e : Txn) : Z * EditForm :=
  (id e,
   {| edit_title := title e;
      edit_amount := amount e;
      edit_date := date e;
      edit_category := category e;
      edit_type := None;
      edit_notes := "" |}).

(** [totalAmount], lines 184-187. *)
Definition totalAmount (view : list Txn) : num :=
  fold_left (fun sum e => num_add sum (Number (amount e))) view num_zero.

(** [pieData], lines 190-196: pairs of a [name] and a [value]. *)
Definition pieData (view : list Txn) : list (string * num) :=
  JsObject.entries
    (fold_left
       (fun acc e => Budget.bump (category e) (Number (amount e)) acc)
       view []).

(** [monthMap], lines 199-204. *)
Definition monthMap (view : list Txn) : JsObject.t num :=
  fold_left
    (fun monthMap e =>
       match month_key e with
       | None => monthMap
       | Some m => Budget.bump m (Number (amount e)) monthMap
       end) view [].

(** [barData], lines 206-208: pairs of a [month] and a [total]. *)
Definition barData (view : list Txn) : list (string * num) :=
  JsObject.entries (monthMap view).

End Cards.
End CheckedCards.

(** The load of the collection, [startEdit] and the cards of [MultiType],
    src/src/App_backup2.js, lines 570-577, 637-646 and 711-731. *)
Module MultiTypeCards.
Section Cards.
Context {H : Host}.

(** [exp.type || "expense"]. *)
Definition type_or_expense (exp : Txn) : string :=
  match type exp with
  | Some t => if Js.truthy t then t else "expense"
  | None => "expense"
  end.

(** [{ ...exp, type: exp.type || "expense" }]. *)
Definition typed (exp : Txn) : Txn :=
  {| id := id exp; title := title exp; amount := amount exp;
     date := date exp; category := category exp;
     type := Some (type_or_expense exp);
     notes := notes exp; createdAt := createdAt exp;
     updatedAt := updatedAt exp |}.

(** The initial value of [expenses], lines 570-577; [saved] is the array
    in storage, [None] when there is none. *)
Definition load (saved : option (list Txn)) : list Txn :=
  let data := match saved with Some l => l | None => [] end in
  map typed data.

(** [startEdit], lines 637-646. *)
Definition startEdit (e : Txn) : Z * EditForm :=
  (id e,
   {| edit_title := title e;
      edit_amount := AStr (Amount_toString (amount e));
      edit_date := date e;
      edit_category := category e;
      edit_type := type e;
      edit_notes := "" |}).

(** Lines 712-714. *)
Definition expenseView (view : list Txn) : list Txn :=
  filter MultiType.is_expense view.

Definition incomeView (view : list Txn) : list Txn :=
  filter (MultiType.has_type "income") view.

Definition investmentView (view : list Txn) : list Txn :=
  filter (MultiType.has_type "investment") view.

(** Lines 728-731. *)
Definition totalExpenses (view : list Txn) : num :=
  fold_left (fun sum e => num_add sum (Number (amount e)))
            (expenseView view) num_zero.

Definition totalIncome (view : list Txn) : num :=
  fold_left (fun sum e => num_add sum (Number (amount e)))
            (incomeView view) num_zero.

Definition totalInvestment (view : list Txn) : num :=
  fold_left (fun sum e => num_add sum (Number (amount e)))
            (investmentView view) num_zero.

Definition netBalance (view : list Txn) : num :=
  num_sub (num_sub (totalIncome view) (totalExpenses view))
          (totalInvestment view).

(** [pieData], lines 749-756: the spending by category. *)
Definition pieData (view : list Txn) : list (string * num) :=
  let spendingData := expenseView view ++ investmentView view in
  JsObject.entries
    (fold_left
       (fun acc e => Budget.bump (category e) (Number (amount e)) acc)
       spendingData []).

(** A record that none of the three views holds. *)
Definition other_type (e : Txn) : bool :=
  negb (MultiType.is_expense e)
  && negb (MultiType.has_type "income" e)
  && negb (MultiType.has_type "investment" e).

End Cards.
End MultiTypeCards.

(** [startEdit] and [getTopSpendingCategory] of [Budget],
    src/unnamed/part_000, lines 645-654 and 869-872. *)
Module BudgetInsights.
Section Insights.
Context {H : Host}.

Definition startEdit (expense : Txn) : Z * EditForm :=
  (id expense,
   {| edit_title := title expense;
      edit_amount := amount expense;
      edit_date := date expense;
      edit_category := category expense;
      edit_type := None;
      edit_notes := match notes expense with
                    | Some n => if Js.truthy n then n else ""
                    | None => ""
                    end |}).

(** [getTopSpendingCategory], lines 869-872, for the items of [pieData];
    [value] reads the [value] of an item, the only property the function
    looks at.  [None] is [null]. *)
Definition getTopSpendingCategory (A : Type) (value : A -> num)
    (pieData : list A) : option A :=
  match pieData with
  | [] => None
  | first :: _ =>
      Some (fold_left
              (fun max item =>
                 if num_gtb (value item) (value max) then item else max)
              pieData first)
  end.

End Insights.
End BudgetInsights.

(** More sample inputs. *)
Module Cases.
Section Records.
Context {H : Host}.

Definition rent : Txn :=
  mkTxn 11 "Rent" (ANum (StringToNumber "900"))
        (Some "2024-02-01"%string) "Bills" (Some "expense"%string)
        None None None.

Definition salary : Txn :=
  mkTxn 12 "Salary" (ANum (StringToNumber "3000"))
        (Some "2024-02-03"%string) "Salary" (Some "income"%string)
        None None None.

Definition shares : Txn :=
  mkTxn 13 "Shares" (ANum (StringToNumber "500"))
        (Some "2024-01-20"%string) "Stocks" (Some "investment"%string)
        None None None.

Definition february : list Txn := [rent; salary].

Definition ledger : list Txn := [rent; salary; shares].

(** Sort by amount, ascending, and search for ["RENT"]. *)
Definition by_amount : Params :=
  mkParams "" "all" "" "amount" "asc" "monthly".

Definition find_rent : Params :=
  mkParams "" "all" "RENT" "" "asc" "monthly".

Definition in_february : Params :=
  mkParams "02" "all" "" "" "asc" "monthly".

Definition weekly : Params :=
  mkParams "" "all" "" "date" "asc" "weekly".

Definition next_day : Clock :=
  mkClock "2024-03-02T08:00:00.000Z" 1709366400000
          "2024-03-02T08:00:00.001Z".

End Records.
End Cases.

(** The tests of the view pipeline on one record. *)
Section Tests.
Context {H : Host}.

Definition month_ok (p : Params) (e : Txn) : bool :=
  negb (Js.truthy (selectedMonth p)) || month_matches (selectedMonth p) e.

Definition type_ok (p : Params) (e : Txn) : bool :=
  if String.eqb (filterType p) "expense" then MultiType.is_expense e
  else if String.eqb (filterType p) "income"
       then MultiType.has_type "income" e
       else true.

Definition search_ok (p : Params) (e : Txn) : bool :=
  negb (Js.truthy (Js.trim (search p)))
  || title_matches (Js.toLowerCase (search p)) e.

(** The tests of [Budget]. *)
Definition Budget_month_ok (p : Params) (e : Txn) : bool :=
  negb (Js.truthy (selectedMonth p))
  || String.eqb (Budget.expenseMonth e) (selectedMonth p).

Definition Budget_search_ok (p : Params) (e : Txn) : bool :=
  negb (Js.truthy (Js.trim (search p)))
  || Budget.matches (Js.toLowerCase (search p)) e.

(** [p] with another search text. *)
Definition with_search (s : string) (p : Params) : Params :=
  mkParams (selectedMonth p) (filterType p) s (sortBy p) (sortDir p)
           (timeRange p).

(** [a] and [e] have the same sort key: neither is below the other. *)
Definition same_key (p : Params) (a e : Txn) : bool :=
  negb (key_lt p a e) && negb (key_lt p e a).

(** [a] may stand before [b] in the direction of [p]. *)
Definition in_order (p : Params) (a b : Txn) : bool :=
  if String.eqb (sortDir p) "asc" then negb (key_lt p b a)
  else negb (key_lt p a b).

(** [s] has no hyphen. *)
Definition no_dash (s : string) : bool :=
  forallb (fun c => negb (Ascii.eqb c "-")) (list_ascii_of_string s).

(** The date [y-mo-d]. *)
Definition ymd (y mo d : string) : string :=
  String.append y (String "-" (String.append mo (String "-" d))).

(** Every character of [s] is white space. *)
Definition all_space (s : string) : bool :=
  forallb Js.is_space (list_ascii_of_string s).

End Tests.

(* ===================================================================== *)
(** ** The stages of the view, as the specification words them

    [computeView] is the month filter, then the type filter, then the
    case-insensitive substring search, then the sort by the chosen field
    and direction.  The definitions of this module are written from those
    words, not from the text of the components; the properties compare the
    views of the components with them. *)
(* ===================================================================== *)

(** The laws of the host's subtraction and multiplication that the
    comparator of [Budget] relies on: the sign of [x - y] tells which of
    [x] and [y] is below the other, and the factors [1] and [-1] keep and
    turn the sign. *)
Class HostArith (H : Host) : Prop := {
  sub_sign : forall x y,
    num_sign (num_sub x y)
    = if num_ltb x y then Lt else if num_ltb y x then Gt else Eq;
  mul_one_sign : forall x, num_sign (num_mul x num_one) = num_sign x;
  mul_minus_one_sign : forall x,
    num_sign (num_mul x num_minus_one) = CompOpp (num_sign x)
}.

Module Stages.
Section Spec.
Context {H : Host}.

(** *** The month filter *)

(** The text of [s] before its first hyphen, and the text after it. *)
Fixpoint upto_dash (s : string) : string :=
  match s with
  | EmptyString => EmptyString
  | String c s' => if Ascii.eqb c "-" then EmptyString
                   else String c (upto_dash s')
  end.

Fixpoint after_dash (s : string) : option string :=
  match s with
  | EmptyString => None
  | String c s' => if Ascii.eqb c "-" then Some s' else after_dash s'
  end.

(** The month of a date: the text between its first and its second
    hyphen, [MM] in [YYYY-MM-DD]. *)
Definition month_of (d : string) : option string :=
  match after_dash d with
  | Some rest => Some (upto_dash rest)
  | None => None
  end.

Definition in_month (m : string) (e : Txn) : bool :=
  match date e with
  | Some d => Js.opt_str_eqb (month_of d) m
  | None => false
  end.

(** No month is selected with the empty text. *)
Definition month_filter (p : Params) (l : list Txn) : list Txn :=
  if String.eqb (selectedMonth p) "" then l
  else filter (in_month (selectedMonth p)) l.

(** The month of the date in local time, counted from one, in two
    digits, for [Budget], which asks [Date] for it. *)
Definition two_digits (s : string) : string :=
  match s with
  | EmptyString => "00"
  | String c EmptyString => String "0" s
  | _ => s
  end.

Definition local_month (e : Txn) : string :=
  two_digits
    (num_toString (num_add (Date_getMonth (Date_parse (date e))) num_one)).

Definition local_month_filter (p : Params) (l : list Txn) : list Txn :=
  if String.eqb (selectedMonth p) "" then l
  else filter (fun e => String.eqb (local_month e) (selectedMonth p)) l.

(** *** The type filter *)

(** The type of a record: ["expense"] when it has none. *)
Definition type_of (e : Txn) : string :=
  match type e with
  | Some EmptyString | None => "expense"
  | Some t => t
  end.

(** The filter knows the types ["expense"] and ["income"]; any other
    choice shows every type. *)
Definition type_filter (p : Params) (l : list Txn) : list Txn :=
  if String.eqb (filterType p) "expense" || String.eqb (filterType p) "income"
  then filter (fun e => String.eqb (type_of e) (filterType p)) l
  else l.

(** *** The search *)

(** [a] and [b] are the same text when the case of the letters is
    ignored. *)
Definition same_letters (a b : string) : bool :=
  String.eqb (Js.toLowerCase a) (Js.toLowerCase b).

(** Some piece of [s], at some position, is [q] when the case of the
    letters is ignored. *)
Definition contains_ci (s q : string) : bool :=
  existsb
    (fun i => same_letters (String.substring i (String.length q) s) q)
    (seq 0 (S (String.length s))).

(** A search text of white space only is no search. *)
Definition blank (s : string) : bool :=
  forallb Js.is_space (list_ascii_of_string s).

Definition search_title (p : Params) (l : list Txn) : list Txn :=
  if blank (search p) then l
  else filter (fun e => contains_ci (title e) (search p)) l.

(** The search of [Budget] reads the title, the category and the
    notes. *)
Definition search_fields (p : Params) (l : list Txn) : list Txn :=
  if blank (search p) then l
  else filter
         (fun e =>
            contains_ci (title e) (search p)
            || contains_ci (category e) (search p)
            || match notes e with
               | Some n => contains_ci n (search p)
               | None => false
               end) l.

(** *** The sort *)

(** The order of two numbers. *)
Definition num_order (x y : num) : comparison :=
  if num_ltb x y then Lt else if num_ltb y x then Gt else Eq.

(** The order of two records by the chosen field: the amount as a
    number; otherwise the date, as text. *)
Definition by_field (p : Params) (a b : Txn) : comparison :=
  if String.eqb (sortBy p) "amount"
  then num_order (Number (amount a)) (Number (amount b))
  else if date_lt (date a) (date b) then Lt
       else if date_lt (date b) (date a) then Gt
       else Eq.

(** The order of two records by the chosen field in [Budget]: the
    amount as a number, the title in the order of the locale; otherwise
    the date, as a time. *)
Definition Budget_by_field (p : Params) (a b : Txn) : comparison :=
  if String.eqb (sortBy p) "amount"
  then num_order (Number (amount a)) (Number (amount b))
  else if String.eqb (sortBy p) "title"
  then num_sign (localeCompare (title a) (title b))
  else num_order (Date_parse (date a)) (Date_parse (date b)).

(** An order, in the chosen direction. *)
Definition in_direction (p : Params) (c : comparison) : comparison :=
  if String.eqb (sortDir p) "asc" then c else CompOpp c.

(** The stable sort by the chosen field and direction; no field is
    chosen with the empty text. *)
Definition sort_by (p : Params) (l : list Txn) : list Txn :=
  if String.eqb (sortBy p) "" then l
  else JsArray.sort (fun a b => in_direction p (by_field p a b)) l.

(** [Budget] sorts in any case, by date when no field is chosen. *)
Definition Budget_sort_by (p : Params) (l : list Txn) : list Txn :=
  JsArray.sort (fun a b => in_direction p (Budget_by_field p a b)) l.

(** *** The view *)

Definition computeView (p : Params) (records : list Txn) : list Txn :=
  sort_by p (search_title p (type_filter p (month_filter p records))).

(** The iterations without a type. *)
Definition computeView_untyped (p : Params) (records : list Txn)
  : list Txn :=
  sort_by p (search_title p (month_filter p records)).

Definition Budget_computeView (p : Params) (records : list Txn)
  : list Txn :=
  Budget_sort_by p (search_fields p (local_month_filter p records)).

End Spec.
End Stages.

(** The date of [e] is a calendar date in the form [YYYY-MM-DD] that
    [Date] reads. *)
Section Dated.
Context {H : Host}.

Definition calendar_dated (e : Txn) : bool :=
  match date e with
  | Some d => well_formed_date d && negb (num_isNaN (Date_parse (Some d)))
  | None => false
  end.

End Dated.

(* ===================================================================== *)
(** * Properties *)
(* ===================================================================== *)

(** ** The order of strings *)

Lemma ascii_compare_refl (a : ascii) : Ascii.compare a a = Eq.
Proof. unfold Ascii.compare. apply N.compare_refl. Qed.

Lemma string_compare_refl (s : string) : String.compare s s = Eq.
Proof.
  induction s as [|a s IH]; simpl; [reflexivity|].
  now rewrite ascii_compare_refl.
Qed.

Lemma string_compare_lt_trans (a b c : string) :
  String.compare a b = Lt -> String.compare b c = Lt ->
  String.compare a c = Lt.
Proof.
  revert b c.
  induction a as [|x a IH]; intros [|y b] [|z c]; simpl;
    try congruence.
  destruct (Ascii.compare x y) eqn:Exy; try discriminate.
  - apply Ascii.compare_eq_iff in Exy. subst y.
    destruct (Ascii.compare x z); try congruence. apply IH.
  - intros _.
    destruct (Ascii.compare y z) eqn:Eyz; try discriminate.
    + apply Ascii.compare_eq_iff in Eyz. subst z. now rewrite Exy.
    + intros _. unfold Ascii.compare in *.
      rewrite N.compare_lt_iff in *.
      assert (Hxz : (N_of_ascii x < N_of_ascii z)%N) by lia.
      apply N.compare_lt_iff in Hxz. now rewrite Hxz.
Qed.

Lemma string_compare_le_trans (a b c : string) :
  String.compare a b <> Gt -> String.compare b c <> Gt ->
  String.compare a c <> Gt.
Proof.
  intros Hab Hbc.
  destruct (String.compare a b) eqn:Eab; try congruence.
  - apply String.compare_eq_iff in Eab. now subst b.
  - destruct (String.compare b c) eqn:Ebc; try congruence.
    + apply String.compare_eq_iff in Ebc. subst c. congruence.
    + rewrite (string_compare_lt_trans _ _ _ Eab Ebc). discriminate.
Qed.

Lemma string_ltb_irrefl (s : string) : String.ltb s s = false.
Proof. unfold String.ltb. now rewrite string_compare_refl. Qed.

Lemma string_ltb_trans (a b c : string) :
  String.ltb a b = true -> String.ltb b c = true -> String.ltb a c = true.
Proof.
  unfold String.ltb. intros Hab Hbc.
  destruct (String.compare a b) eqn:Eab; try discriminate.
  destruct (String.compare b c) eqn:Ebc; try discriminate.
  now rewrite (string_compare_lt_trans _ _ _ Eab Ebc).
Qed.

Lemma string_ltb_negtrans (a b c : string) :
  String.ltb a c = true -> String.ltb a b = true \/ String.ltb b c = true.
Proof.
  unfold String.ltb. intros Hac.
  destruct (String.compare a b) eqn:Eab; auto.
  - apply String.compare_eq_iff in Eab. subst b. now right.
  - right. destruct (String.compare b c) eqn:Ebc; auto; exfalso.
    + apply String.compare_eq_iff in Ebc. subst c.
      rewrite Eab in Hac. discriminate.
    + assert (Hba : String.compare b a = Lt).
      { rewrite String.compare_antisym, Eab. reflexivity. }
      assert (Hcb : String.compare c b = Lt).
      { rewrite String.compare_antisym, Ebc. reflexivity. }
      pose proof (string_compare_lt_trans _ _ _ Hcb Hba) as Hca.
      rewrite String.compare_antisym, Hca in Hac. discriminate.
Qed.

(** A date that is not after [d1] is not after a later day [d2]. *)
Lemma not_after_mono (d : option string) (d1 d2 : string) :
  date_gt d (Some d1) = false -> String.leb d1 d2 = true ->
  date_gt d (Some d2) = false.
Proof.
  destruct d as [s|]; simpl; [|reflexivity].
  unfold Js.str_gt, String.ltb, String.leb. intros H1 H2.
  destruct (String.compare d2 s) eqn:E2; try reflexivity. exfalso.
  destruct (String.compare d1 d2) eqn:E12; try discriminate.
  - apply String.compare_eq_iff in E12. subst d2.
    rewrite E2 in H1. discriminate.
  - rewrite (string_compare_lt_trans _ _ _ E12 E2) in H1. discriminate.
Qed.

(** ** Sorting with a consistent comparator *)

Lemma filter_none (A : Type) (f : A -> bool) (l : list A) :
  (forall z, In z l -> f z = false) -> filter f l = [].
Proof.
  induction l as [|y l IH]; simpl; intros Hf; [reflexivity|].
  rewrite (Hf y) by now left. apply IH. intros z Hz. apply Hf. now right.
Qed.

Section SortFacts.
Variable A : Type.
Variable cmp : A -> A -> comparison.
Variable P : A -> Prop.
Hypothesis Hc : JsArray.consistent_on cmp P.

Local Abbreviation insert := (JsArray.insert cmp).
Local Abbreviation sort := (JsArray.sort cmp).
Local Abbreviation ties := (JsArray.ties cmp).
Local Abbreviation ascending := (JsArray.ascending cmp).

Lemma c_antisym (a b : A) : P a -> P b -> cmp b a = CompOpp (cmp a b).
Proof. apply (JsArray.cmp_antisym Hc). Qed.

Lemma c_trans (a b c : A) :
  P a -> P b -> P c -> cmp a b <> Gt -> cmp b c <> Gt -> cmp a c <> Gt.
Proof. apply (JsArray.cmp_trans Hc). Qed.

Lemma sort_snoc (l : list A) (x : A) :
  sort (l ++ [x]) = insert x (sort l).
Proof. unfold JsArray.sort. now rewrite fold_left_app. Qed.

Lemma insert_perm (x : A) (l : list A) : Permutation (insert x l) (x :: l).
Proof.
  induction l as [|y l IH]; simpl; [reflexivity|].
  destruct (cmp x y); try reflexivity;
    (rewrite IH; apply perm_swap).
Qed.

Lemma sort_perm (l : list A) : Permutation (sort l) l.
Proof.
  induction l as [|x l IH] using rev_ind; [reflexivity|].
  rewrite sort_snoc, insert_perm, IH.
  apply Permutation_cons_append.
Qed.

Lemma sort_Forall (Q : A -> Prop) (l : list A) :
  Forall Q l -> Forall Q (sort l).
Proof.
  intros HQ. eapply Permutation_Forall; [|exact HQ].
  symmetry. apply sort_perm.
Qed.

Lemma cmp_lt_le (a b c : A) :
  P a -> P b -> P c -> cmp a b = Lt -> cmp b c <> Gt -> cmp a c = Lt.
Proof.
  intros Pa Pb Pc Hab Hbc.
  destruct (cmp a c) eqn:Eac; [exfalso|reflexivity|exfalso].
  - assert (Hca : cmp c a <> Gt).
    { rewrite (c_antisym Pa Pc), Eac. discriminate. }
    apply (c_trans Pb Pc Pa Hbc Hca).
    rewrite (c_antisym Pa Pb), Hab. reflexivity.
  - assert (Hab' : cmp a b <> Gt) by (rewrite Hab; discriminate).
    now apply (c_trans Pa Pb Pc Hab' Hbc).
Qed.

Lemma ties_lt_contra (a x z : A) :
  P a -> P x -> P z -> cmp a x = Eq -> cmp x z = Lt -> cmp a z <> Eq.
Proof.
  intros Pa Px Pz Hax Hxz Haz.
  assert (Hza : cmp z a <> Gt).
  { rewrite (c_antisym Pa Pz), Haz. discriminate. }
  assert (Hax' : cmp a x <> Gt) by (rewrite Hax; discriminate).
  apply (c_trans Pz Pa Px Hza Hax').
  rewrite (c_antisym Px Pz), Hxz. reflexivity.
Qed.

Lemma insert_ascending (x : A) (l : list A) :
  P x -> Forall P l -> ascending l -> ascending (insert x l).
Proof.
  intros Px HP Hs. induction l as [|y l IH]; simpl.
  - repeat constructor.
  - inversion HP as [|? ? Py HPl]; subst.
    inversion Hs as [|? ? Hsl Hy]; subst.
    destruct (cmp x y) eqn:Exy.
    + constructor; [now apply IH|].
      eapply Permutation_Forall; [symmetry; apply insert_perm|].
      constructor; [|exact Hy].
      rewrite (c_antisym Px Py), Exy. discriminate.
    + constructor; [exact Hs|].
      constructor; [rewrite Exy; discriminate|].
      rewrite Forall_forall in *. intros z Hz.
      rewrite (cmp_lt_le Px Py (HPl z Hz) Exy (Hy z Hz)). discriminate.
    + constructor; [now apply IH|].
      eapply Permutation_Forall; [symmetry; apply insert_perm|].
      constructor; [|exact Hy].
      rewrite (c_antisym Px Py), Exy. discriminate.
Qed.

Lemma sort_ascending (l : list A) : Forall P l -> ascending (sort l).
Proof.
  induction l as [|x l IH] using rev_ind; intros HP.
  - constructor.
  - apply Forall_app in HP. destruct HP as [HPl HPx].
    inversion HPx; subst.
    rewrite sort_snoc. apply insert_ascending; auto.
    now apply sort_Forall.
Qed.

Lemma insert_ties (a x : A) (l : list A) :
  P a -> P x -> Forall P l -> ascending l ->
  filter (ties a) (insert x l)
  = filter (ties a) l ++ (if ties a x then [x] else []).
Proof.
  intros Pa Px HP Hs. induction l as [|y l IH].
  - simpl. now destruct (ties a x).
  - inversion HP as [|? ? Py HPl]; subst.
    inversion Hs as [|? ? Hsl Hy]; subst.
    assert (Hrec :
      filter (ties a) (y :: insert x l)
      = filter (ties a) (y :: l) ++ (if ties a x then [x] else [])).
    { simpl. rewrite (IH HPl Hsl). now destruct (ties a y). }
    change (insert x (y :: l)) with
      (match cmp x y with Lt => x :: y :: l | _ => y :: insert x l end).
    destruct (cmp x y) eqn:Exy; try exact Hrec.
    destruct (ties a x) eqn:Tax.
    + assert (Hnone : filter (ties a) (y :: l) = []).
      { apply filter_none. intros z Hz.
        assert (Pz : P z).
        { rewrite Forall_forall in HP. now apply HP. }
        assert (Hxz : cmp x z = Lt).
        { destruct Hz as [->|Hz]; [exact Exy|].
          rewrite Forall_forall in Hy.
          exact (cmp_lt_le Px Py Pz Exy (Hy z Hz)). }
        unfold JsArray.ties in *.
        destruct (cmp a x) eqn:Eax; try discriminate.
        pose proof (ties_lt_contra Pa Px Pz Eax Hxz) as Hne.
        destruct (cmp a z); congruence. }
      rewrite Hnone.
      change (filter (ties a) (x :: y :: l)) with
        (if ties a x then x :: filter (ties a) (y :: l)
         else filter (ties a) (y :: l)).
      now rewrite Tax, Hnone.
    + change (filter (ties a) (x :: y :: l)) with
        (if ties a x then x :: filter (ties a) (y :: l)
         else filter (ties a) (y :: l)).
      now rewrite Tax, app_nil_r.
Qed.

(** Records that compare equal keep their order. *)
Lemma sort_stable (a : A) (l : list A) :
  P a -> Forall P l -> filter (ties a) (sort l) = filter (ties a) l.
Proof.
  intros Pa. induction l as [|x l IH] using rev_ind; intros HP.
  - reflexivity.
  - apply Forall_app in HP. destruct HP as [HPl HPx].
    inversion HPx; subst.
    rewrite sort_snoc, insert_ties; auto using sort_Forall, sort_ascending.
    rewrite IH by assumption. rewrite filter_app. simpl.
    now destruct (ties a x).
Qed.

Lemma ties_refl (a : A) : P a -> ties a a = true.
Proof.
  intros Pa. unfold JsArray.ties. now rewrite (JsArray.cmp_refl Hc a Pa).
Qed.

Lemma filter_ties_self (a : A) (l : list A) :
  P a -> filter (ties a) (a :: l) = a :: filter (ties a) l.
Proof. intros Pa. simpl. now rewrite (ties_refl Pa). Qed.

Lemma filter_ties_In (a : A) (l l' : list A) :
  P a -> filter (ties a) l = filter (ties a) l' -> In a l -> In a l'.
Proof.
  intros Pa E Ha.
  assert (Hf : In a (filter (ties a) l)).
  { apply filter_In. split; [exact Ha|now apply ties_refl]. }
  rewrite E in Hf. now apply filter_In in Hf.
Qed.

(** An ascending list is determined by the order of the records that
    compare equal: whatever a conforming engine returns for a consistent
    comparator is what [sort] returns. *)
Lemma ascending_stable_unique (l1 l2 : list A) :
  Forall P l1 -> Forall P l2 -> ascending l1 -> ascending l2 ->
  (forall a, P a -> filter (ties a) l1 = filter (ties a) l2) ->
  l1 = l2.
Proof.
  revert l2. induction l1 as [|x l1 IH]; intros l2 HP1 HP2 Hs1 Hs2 Heq.
  - destruct l2 as [|y l2]; [reflexivity|exfalso].
    inversion HP2 as [|? ? Py _]; subst.
    specialize (Heq y Py). rewrite (filter_ties_self _ Py) in Heq.
    discriminate.
  - inversion HP1 as [|? ? Px HPl1]; subst.
    inversion Hs1 as [|? ? Hsl1 Hx]; subst.
    destruct l2 as [|y l2].
    { exfalso. specialize (Heq x Px).
      rewrite (filter_ties_self _ Px) in Heq. discriminate. }
    inversion HP2 as [|? ? Py HPl2]; subst.
    inversion Hs2 as [|? ? Hsl2 Hy]; subst.
    assert (Hxy : cmp x y <> Gt).
    { destruct (filter_ties_In (y :: l2) (x :: l1) Py)
        as [->|Hy1]; [now rewrite Heq|now left| |].
      - rewrite (JsArray.cmp_refl Hc y Py). discriminate.
      - rewrite Forall_forall in Hx. now apply Hx. }
    assert (Hyx : cmp y x <> Gt).
    { destruct (filter_ties_In (x :: l1) (y :: l2) Px)
        as [->|Hx2]; [now rewrite Heq|now left| |].
      - rewrite (JsArray.cmp_refl Hc x Px). discriminate.
      - rewrite Forall_forall in Hy. now apply Hy. }
    assert (Exy : ties x y = true).
    { unfold JsArray.ties. rewrite (c_antisym Px Py) in Hyx.
      destruct (cmp x y); simpl in *; congruence. }
    assert (x = y).
    { pose proof (Heq x Px) as E.
      rewrite (filter_ties_self _ Px) in E.
      simpl in E. rewrite Exy in E. congruence. }
    subst y. f_equal.
    apply IH; auto.
    intros a Pa. specialize (Heq a Pa). simpl in Heq.
    destruct (ties a x); congruence.
Qed.

(** The result of [sort] is the one list in ascending order in which the
    records that compare equal are in the order of the input. *)
Lemma sort_characterised (l l' : list A) :
  Forall P l -> Forall P l' -> ascending l' ->
  (forall a, P a -> filter (ties a) l' = filter (ties a) l) ->
  l' = sort l.
Proof.
  intros HP HP' Hs Hties.
  apply ascending_stable_unique; auto using sort_Forall, sort_ascending.
  intros a Pa. rewrite (Hties a Pa). symmetry. now apply sort_stable.
Qed.

End SortFacts.

(** ** Three-way comparators *)

Section ThreeWay.
Variable A : Type.
Variable lt : A -> A -> bool.
Variable P : A -> Prop.
Hypothesis lt_irrefl : forall a, lt a a = false.
Hypothesis lt_trans :
  forall a b c, lt a b = true -> lt b c = true -> lt a c = true.
Hypothesis lt_negtrans :
  forall a b c, P b -> lt a c = true -> lt a b = true \/ lt b c = true.

Local Abbreviation three_way := (three_way lt).

Lemma lt_asym (a b : A) : lt a b = true -> lt b a = false.
Proof.
  intros Hab. destruct (lt b a) eqn:Hba; [|reflexivity].
  rewrite <- (lt_irrefl a). symmetry. now apply lt_trans with b.
Qed.

Lemma three_way_consistent (s : comparison) :
  s = Lt \/ s = Gt -> JsArray.consistent_on (three_way s) P.
Proof.
  intros Hs. split.
  - intros a _. unfold three_way. now rewrite lt_irrefl.
  - intros a b _ _. unfold three_way.
    destruct (lt a b) eqn:Hab.
    + rewrite (lt_asym Hab). reflexivity.
    + destruct (lt b a); [now destruct s|reflexivity].
  - intros a b c _ Pb _. unfold three_way. intros Hab Hbc.
    destruct Hs as [-> | ->]; simpl in *.
    + destruct (lt a c) eqn:Hac; [discriminate|].
      destruct (lt c a) eqn:Hca; [|discriminate].
      destruct (@lt_negtrans c b a Pb Hca) as [Hcb|Hba].
      * rewrite Hcb, (lt_asym Hcb) in Hbc. congruence.
      * rewrite Hba, (lt_asym Hba) in Hab. congruence.
    + destruct (lt a c) eqn:Hac; [|destruct (lt c a); discriminate].
      destruct (@lt_negtrans a b c Pb Hac) as [Hab'|Hbc'].
      * rewrite Hab' in Hab. congruence.
      * rewrite Hbc' in Hbc. congruence.
Qed.

End ThreeWay.

Lemma consistent_ext (A : Type) (c1 c2 : A -> A -> comparison)
    (P : A -> Prop) :
  (forall a b, c1 a b = c2 a b) ->
  JsArray.consistent_on c1 P -> JsArray.consistent_on c2 P.
Proof.
  intros E [Hr Ha Ht]. split.
  - intros a Pa. rewrite <- E. now apply Hr.
  - intros a b Pa Pb. rewrite <- !E. now apply Ha.
  - intros a b c Pa Pb Pc. rewrite <- !E. now apply Ht.
Qed.

(** ** The comparators of the four iterations *)

Section Comparators.
Context {H : Host} {HL : HostLaws H}.

Lemma key_lt_irrefl (p : Params) (a : Txn) : key_lt p a a = false.
Proof.
  unfold key_lt. destruct (String.eqb (sortBy p) "amount").
  - apply ltb_irrefl.
  - destruct (date a); simpl; [apply string_ltb_irrefl|reflexivity].
Qed.

Lemma key_lt_trans (p : Params) (a b c : Txn) :
  key_lt p a b = true -> key_lt p b c = true -> key_lt p a c = true.
Proof.
  unfold key_lt. destruct (String.eqb (sortBy p) "amount").
  - apply ltb_trans.
  - destruct (date a), (date b), (date c); simpl; try discriminate.
    apply string_ltb_trans.
Qed.

Lemma key_lt_negtrans (p : Params) (a b c : Txn) :
  sortable p b -> key_lt p a c = true ->
  key_lt p a b = true \/ key_lt p b c = true.
Proof.
  unfold key_lt, sortable. destruct (String.eqb (sortBy p) "amount").
  - apply ltb_negtrans.
  - destruct (date a), (date b), (date c); simpl; try discriminate;
      try congruence.
    intros _. apply string_ltb_negtrans.
Qed.

Lemma Checked_compare_three_way (p : Params) (a b : Txn) :
  three_way (key_lt p) (direction p) a b = sgn (Checked.compare p a b).
Proof.
  unfold three_way, Checked.compare, key_lt, direction, num_gtb,
    date_gt, date_lt, Js.str_gt, Js.str_lt.
  destruct (String.eqb (sortBy p) "amount"),
    (String.eqb (sortDir p) "asc"), (date a), (date b); simpl;
    repeat match goal with
           | |- context [if ?c then _ else _] => destruct c
           end; reflexivity.
Qed.

Lemma MultiType_compare_Checked (p : Params) (a b : Txn) :
  MultiType.compare p a b = Checked.compare p a b.
Proof. reflexivity. Qed.

(** The comparators of [Checked] and [MultiType] are consistent on the
    records they order. *)
Lemma Checked_compare_consistent (p : Params) :
  JsArray.consistent_on (fun a b => sgn (Checked.compare p a b))
                        (sortable p).
Proof.
  apply consistent_ext with (c1 := three_way (key_lt p) (direction p)).
  - apply Checked_compare_three_way.
  - apply three_way_consistent.
    + apply key_lt_irrefl.
    + apply key_lt_trans.
    + apply key_lt_negtrans.
    + unfold direction. destruct (String.eqb (sortDir p) "asc"); auto.
Qed.

Lemma MultiType_compare_consistent (p : Params) :
  JsArray.consistent_on (fun a b => sgn (MultiType.compare p a b))
                        (sortable p).
Proof. exact (Checked_compare_consistent p). Qed.

(** The comparator of [Plain] never answers zero: a record does not
    compare equal to itself, so the comparator is not consistent. *)
Lemma Plain_compare_self (p : Params) (a : Txn) :
  Plain.compare p a a = (-1)%Z.
Proof.
  unfold Plain.compare.
  pose proof (key_lt_irrefl p a) as Hk. unfold key_lt in Hk.
  unfold num_gtb, date_gt, Js.str_gt.
  unfold date_lt, Js.str_lt in *.
  destruct (String.eqb (sortBy p) "amount"),
    (String.eqb (sortDir p) "asc"); try now rewrite Hk.
  destruct (date a); [|reflexivity]. now rewrite Hk.
Qed.

Lemma Plain_compare_not_consistent (p : Params) (P : Txn -> Prop)
    (a : Txn) :
  P a -> ~ JsArray.consistent_on (fun a b => sgn (Plain.compare p a b)) P.
Proof.
  intros Pa [Hr _ _]. specialize (Hr a Pa).
  rewrite Plain_compare_self in Hr. discriminate.
Qed.

(** In the views of [Checked] and [MultiType] the records that compare
    equal under the chosen sort field are in the order in which the
    sorted list had them. *)
Lemma Checked_sort_stable (p : Params) (a : Txn) (l : list Txn) :
  sortable p a -> Forall (sortable p) l ->
  filter (JsArray.ties (fun a b => sgn (Checked.compare p a b)) a)
         (Checked.sortStage p l)
  = filter (JsArray.ties (fun a b => sgn (Checked.compare p a b)) a) l.
Proof.
  intros Pa HP. unfold Checked.sortStage.
  destruct (Js.truthy (sortBy p)); [|reflexivity].
  now apply sort_stable with (P := sortable p);
    [apply Checked_compare_consistent| |].
Qed.

Lemma MultiType_sort_stable (p : Params) (a : Txn) (l : list Txn) :
  sortable p a -> Forall (sortable p) l ->
  filter (JsArray.ties (fun a b => sgn (MultiType.compare p a b)) a)
         (MultiType.sortStage p l)
  = filter (JsArray.ties (fun a b => sgn (MultiType.compare p a b)) a) l.
Proof. exact (@Checked_sort_stable p a l). Qed.

End Comparators.

Unset Implicit Arguments.

(** ** Adding a record *)

Section Add.
Context {H : Host}.

Lemma truthy_false_iff (s : string) : Js.truthy s = false <-> s = ""%string.
Proof.
  unfold Js.truthy. destruct (String.eqb_spec s ""); simpl; split;
    congruence.
Qed.

Lemma invalid_cases (f : Form) (clk : Clock) :
  candidate_invalid f clk = true ->
  missing_field f = true
  \/ bad_amount (StringToNumber (form_amount f)) = true
  \/ Js.str_gt (form_date f) (today clk) = true
  \/ Js.truthy (finalCategory f) = false.
Proof.
  unfold candidate_invalid, amount_not_positive, date_in_future,
    missing_field, bad_amount.
  intros Hi.
  repeat (apply orb_true_iff in Hi; destruct Hi as [Hi|Hi]).
  - right; left. rewrite Hi. apply orb_true_r.
  - right; right; left. exact Hi.
  - left. rewrite Hi. reflexivity.
  - right; right; right. now apply negb_true_iff in Hi.
Qed.

(** C1 (as amended).  In the three iterations that validate, [add] with
    an amount at most zero, a date after the current date, an empty
    title or an empty or unresolved category leaves the collection as it
    is; [Budget] stores the category as selected, so there it is the
    empty category that is refused.  [MultiType] and [Budget] report the
    rejection; [Checked] reports it when no field is empty and the
    category is resolved, that is when it is due to the amount or to the
    date. *)
Theorem add_rejects_invalid_candidate
    (f : Form) (clk : Clock) (l : list Txn) :
  candidate_invalid f clk = true ->
  fst (Checked.addExpense f clk l) = l
  /\ fst (MultiType.addExpense f clk l) = l
  /\ reports_error (MultiType.addExpense f clk l) = true
  /\ (missing_field f = false -> Js.truthy (finalCategory f) = true ->
      reports_error (Checked.addExpense f clk l) = true)
  /\ (amount_not_positive f || date_in_future f clk
      || negb (Js.truthy (form_title f))
      || negb (Js.truthy (form_category f)) = true ->
      fst (Budget.addExpense f clk l) = l
      /\ reports_error (Budget.addExpense f clk l) = true).
Proof.
  intros Hi. pose proof (invalid_cases f clk Hi) as Hc.
  unfold Checked.addExpense, MultiType.addExpense, Budget.addExpense,
    reports_error.
  split; [|split; [|split; [|split]]].
  - destruct (missing_field f) eqn:E1; [reflexivity|].
    destruct (bad_amount _) eqn:E2; [reflexivity|].
    destruct (Js.str_gt _ _) eqn:E3; [reflexivity|].
    destruct (Js.truthy (finalCategory f)) eqn:E4; [|reflexivity].
    destruct Hc as [Hc|[Hc|[Hc|Hc]]]; congruence.
  - destruct (missing_field f) eqn:E1; [reflexivity|].
    destruct (bad_amount _) eqn:E2; [reflexivity|].
    destruct (Js.str_gt _ _) eqn:E3; [reflexivity|].
    destruct (Js.truthy (finalCategory f)) eqn:E4; [|reflexivity].
    destruct Hc as [Hc|[Hc|[Hc|Hc]]]; congruence.
  - destruct (missing_field f) eqn:E1; [reflexivity|].
    destruct (bad_amount _) eqn:E2; [reflexivity|].
    destruct (Js.str_gt _ _) eqn:E3; [reflexivity|].
    destruct (Js.truthy (finalCategory f)) eqn:E4; [|reflexivity].
    destruct Hc as [Hc|[Hc|[Hc|Hc]]]; congruence.
  - intros Hm Hf. rewrite Hm.
    destruct (bad_amount _) eqn:E2; [reflexivity|].
    destruct (Js.str_gt _ _) eqn:E3; [reflexivity|].
    destruct Hc as [Hc|[Hc|[Hc|Hc]]]; congruence.
  - clear Hi Hc. intros Hb.
    unfold amount_not_positive, date_in_future in Hb.
    destruct (missing_field f) eqn:Em; [split; reflexivity|].
    destruct (bad_amount _) eqn:E2; [split; reflexivity|].
    destruct (Js.str_gt _ _) eqn:E3; [split; reflexivity|].
    exfalso. unfold missing_field in Em. unfold bad_amount in E2.
    apply orb_false_iff in E2. destruct E2 as [_ E2].
    repeat (apply orb_false_iff in Em; destruct Em as [Em ?]).
    rewrite E2, Em in Hb. simpl in Hb. congruence.
Qed.

End Add.

Section AddValid.
Context {H : Host} {HL : HostLaws H}.

Lemma good_amount_positive (n : num) :
  bad_amount n = false -> num_positive n = true.
Proof.
  unfold bad_amount, num_positive. intros Hb.
  apply orb_false_iff in Hb. destruct Hb as [Hn Hle].
  rewrite Hn. simpl.
  rewrite (leb_ltb n num_zero Hn zero_not_NaN) in Hle.
  now apply negb_false_iff in Hle.
Qed.

Lemma valid_cases (f : Form) (clk : Clock) :
  candidate_valid f clk = true ->
  missing_field f = false
  /\ bad_amount (StringToNumber (form_amount f)) = false
  /\ Js.str_gt (form_date f) (today clk) = false
  /\ Js.truthy (finalCategory f) = true.
Proof.
  unfold candidate_valid, date_in_future. intros Hv.
  repeat (apply andb_true_iff in Hv; destruct Hv as [Hv ?]).
  repeat split; try now apply negb_true_iff. assumption.
Qed.

Lemma missing_field_false (f : Form) :
  missing_field f = false ->
  Js.truthy (form_title f) = true /\ Js.truthy (form_category f) = true.
Proof.
  unfold missing_field. intros Hm.
  repeat (apply orb_false_iff in Hm; destruct Hm as [Hm ?]).
  split; now apply negb_false_iff.
Qed.

Lemma NoDup_ids_snoc (l : list Txn) (r : Txn) :
  NoDup (map id l) -> ~ In (id r) (map id l) ->
  NoDup (map id (l ++ [r])).
Proof.
  intros Hn Hi. rewrite map_app. simpl.
  apply NoDup_rev in Hn.
  rewrite <- (rev_involutive (map id l ++ [id r])).
  apply NoDup_rev. rewrite rev_app_distr. simpl.
  constructor; [|exact Hn]. now rewrite <- in_rev.
Qed.

(** C4 (as amended).  For a candidate that passes every check, [add]
    makes the collection one record longer; the new record has the
    current value of [Date.now()] for an [id] and satisfies the
    invariants of the data model; [Checked] and [MultiType] put it at
    the end of the collection, [Budget] at the front; its [id] is unique
    within the collection when no record had that [id] before. *)
Theorem add_accepts_valid_candidate
    (f : Form) (clk : Clock) (l : list Txn) :
  candidate_valid f clk = true ->
  (exists r, fst (Checked.addExpense f clk l) = l ++ [r]
             /\ id r = now clk /\ valid (today clk) r = true)
  /\ (exists r, fst (MultiType.addExpense f clk l) = l ++ [r]
                /\ id r = now clk /\ valid (today clk) r = true)
  /\ (exists r, fst (Budget.addExpense f clk l) = r :: l
                /\ id r = now clk /\ valid (today clk) r = true)
  /\ List.length (fst (Checked.addExpense f clk l)) = S (List.length l)
  /\ List.length (fst (MultiType.addExpense f clk l)) = S (List.length l)
  /\ List.length (fst (Budget.addExpense f clk l)) = S (List.length l)
  /\ (NoDup (map id l) -> ~ In (now clk) (map id l) ->
      NoDup (map id (fst (Checked.addExpense f clk l)))
      /\ NoDup (map id (fst (MultiType.addExpense f clk l)))
      /\ NoDup (map id (fst (Budget.addExpense f clk l)))).
Proof.
  intros Hv. destruct (valid_cases f clk Hv) as (Hm & Ha & Hd & Hc).
  destruct (missing_field_false f Hm) as [Ht Hcat].
  pose proof (good_amount_positive _ Ha) as Hpos.
  unfold Checked.addExpense, MultiType.addExpense, Budget.addExpense.
  rewrite Hm, Ha, Hd, Hc. simpl.
  assert (Hvalid : forall r,
            amount r = ANum (StringToNumber (form_amount f)) ->
            date r = Some (form_date f) -> title r = form_title f ->
            Js.truthy (category r) = true ->
            valid (today clk) r = true).
  { intros r Hra Hrd Hrt Hrc.
    unfold valid, amount_ok, date_ok, title_ok, category_ok.
    rewrite Hra, Hrd, Hrt, Hrc, Hpos, Ht. simpl. now rewrite Hd. }
  repeat split.
  - eexists. split; [reflexivity|]. split; [reflexivity|].
    now apply Hvalid.
  - eexists. split; [reflexivity|]. split; [reflexivity|].
    now apply Hvalid.
  - eexists. split; [reflexivity|]. split; [reflexivity|].
    now apply Hvalid.
  - rewrite length_app. simpl. lia.
  - rewrite length_app. simpl. lia.
  - now apply NoDup_ids_snoc.
  - now apply NoDup_ids_snoc.
  - simpl. now constructor.
Qed.

End AddValid.

(** ** Updating a record *)

Section Update.
Context {H : Host}.

Lemma map_absent_id (i : Z) (new : Txn -> Txn) (l : list Txn) :
  (forall e, In e l -> id e <> i) ->
  map (fun e => if (id e =? i)%Z then new e else e) l = l.
Proof.
  induction l as [|e l IH]; intros Hab; simpl; [reflexivity|].
  rewrite IH by (intros e' He'; apply Hab; now right).
  destruct (Z.eqb_spec (id e) i) as [E|_]; [|reflexivity].
  exfalso. apply (Hab e); [now left|exact E].
Qed.

Lemma map_replaces_in_place (i : Z) (new : Txn -> Txn)
    (R : Txn -> Txn -> Prop) (l : list Txn) :
  (forall e, R e (new e)) ->
  replaces_in_place i R l
    (map (fun e => if (id e =? i)%Z then new e else e) l).
Proof.
  intros HR. split; [apply length_map|].
  intros k e Hk. rewrite nth_error_map, Hk. simpl.
  eexists. split; [reflexivity|].
  destruct (id e =? i)%Z; [apply HR|reflexivity].
Qed.

(** C5 (as amended).  In the three iterations that validate,
    [update(id, patch)] checks the amount and the date of the patch
    again: when one of them is refused it leaves the collection as it is
    and reports an error; otherwise it reports no error, and in the place
    of every record with that [id] it puts a record with the same [id]
    and creation stamp, with the title, the date and the category of the
    patch and with the amount of the patch as a number, and leaves the
    others where they are, so that it changes nothing when no record has
    that [id].  The type is the one of the patch in [MultiType] and is
    kept in the two others; the notes and the update stamp are kept but
    in [Budget], which takes the notes of the patch and the time of the
    update. *)
Theorem update_validates_and_replaces
    (i : Z) (editForm : EditForm) (clk : Clock) (l : list Txn) :
  let n := Number (edit_amount editForm) in
  (if edit_invalid editForm clk
   then fst (Checked.saveEdit i editForm clk l) = l
        /\ reports_error (Checked.saveEdit i editForm clk l) = true
        /\ fst (MultiType.saveEdit i editForm clk l) = l
        /\ reports_error (MultiType.saveEdit i editForm clk l) = true
        /\ fst (Budget.saveEdit i editForm clk l) = l
        /\ reports_error (Budget.saveEdit i editForm clk l) = true
   else replaces_in_place i
          (fun e e' => carries_patch editForm n e e'
                       /\ type e' = type e /\ notes e' = notes e
                       /\ updatedAt e' = updatedAt e)
          l (fst (Checked.saveEdit i editForm clk l))
        /\ reports_error (Checked.saveEdit i editForm clk l) = false
        /\ replaces_in_place i
             (fun e e' => carries_patch editForm n e e'
                          /\ type e' = edit_type editForm
                          /\ notes e' = notes e
                          /\ updatedAt e' = updatedAt e)
             l (fst (MultiType.saveEdit i editForm clk l))
        /\ reports_error (MultiType.saveEdit i editForm clk l) = false
        /\ replaces_in_place i
             (fun e e' => carries_patch editForm n e e'
                          /\ type e' = type e
                          /\ notes e' = Some (edit_notes editForm)
                          /\ updatedAt e' = Some (isoStamp clk))
             l (fst (Budget.saveEdit i editForm clk l))
        /\ reports_error (Budget.saveEdit i editForm clk l) = false)
  /\ ((forall e, In e l -> id e <> i) ->
      fst (Checked.saveEdit i editForm clk l) = l
      /\ fst (MultiType.saveEdit i editForm clk l) = l
      /\ fst (Budget.saveEdit i editForm clk l) = l).
Proof.
  intros n. unfold edit_invalid, Checked.saveEdit, MultiType.saveEdit,
    Budget.saveEdit, reports_error. fold n.
  destruct (bad_amount n); simpl.
  - repeat split; reflexivity.
  - destruct (date_gt (edit_date editForm) (Some (today clk))); simpl.
    + repeat split; reflexivity.
    + split.
      * split; [|split; [reflexivity|split; [|split; [reflexivity|split;
          [|reflexivity]]]]];
          apply map_replaces_in_place; intros e;
          unfold carries_patch; simpl; repeat split; reflexivity.
      * intros Hab. repeat split; now apply map_absent_id.
Qed.

End Update.

(** ** Removing records *)

Section Remove.
Context {H : Host}.

Lemma subseq_refl (A : Type) (l : list A) : subseq l l.
Proof. induction l; constructor; assumption. Qed.

Lemma subseq_filter (A : Type) (f : A -> bool) (l : list A) :
  subseq (filter f l) l.
Proof.
  induction l as [|x l IH]; simpl; [constructor|].
  destruct (f x); constructor; assumption.
Qed.

Lemma filter_split_length (A : Type) (f : A -> bool) (l : list A) :
  (List.length (filter (fun x => negb (f x)) l)
   + List.length (filter f l) = List.length l)%nat.
Proof.
  induction l as [|x l IH]; simpl; [reflexivity|].
  destruct (f x); simpl; lia.
Qed.

Lemma filter_idem (A : Type) (f : A -> bool) (l : list A) :
  filter f (filter f l) = filter f l.
Proof.
  induction l as [|x l IH]; simpl; [reflexivity|].
  destruct (f x) eqn:E; simpl; [rewrite E|]; now rewrite ?IH.
Qed.

(** C10.  [remove(id)] removes every record whose [id] is the given one,
    also when several records have it, and leaves the records with
    another [id] as they are and in their order.  Two records added under
    the same reading of the clock have the same [id], and one removal
    takes both away. *)
Theorem remove_deletes_every_match (i : Z) (l : list Txn) :
  let l' := Checked.deleteExpense i l in
  (forall e, In e l' <-> In e l /\ id e <> i)
  /\ subseq l' l
  /\ filter (fun e => negb (id e =? i)%Z) l'
     = filter (fun e => negb (id e =? i)%Z) l
  /\ (List.length l' + List.length (filter (fun e => (id e =? i)%Z) l)
      = List.length l)%nat
  /\ Plain.deleteExpense i l = l'
  /\ MultiType.deleteExpense i l = l'
  /\ fst (Budget.deleteExpense true i l) = l'
  /\ (forall f clk,
        Checked.deleteExpense (now clk)
          (fst (Checked.addExpense f clk
                  (fst (Checked.addExpense f clk l))))
        = Checked.deleteExpense (now clk) l).
Proof.
  intros l'. subst l'.
  split; [|split; [|split; [|split; [|split; [|split; [|split]]]]]];
    try reflexivity; unfold Checked.deleteExpense.
  - intros e. rewrite filter_In, negb_true_iff, Z.eqb_neq. tauto.
  - apply subseq_filter.
  - apply filter_idem.
  - apply (filter_split_length _ (fun e => (id e =? i)%Z)).
  - intros f clk. unfold Checked.addExpense.
    destruct (missing_field f); [reflexivity|].
    destruct (bad_amount _); [reflexivity|].
    destruct (Js.str_gt _ _); [reflexivity|].
    destruct (Js.truthy (finalCategory f)); [|reflexivity].
    simpl. rewrite !filter_app. simpl. rewrite Z.eqb_refl. simpl.
    now rewrite !app_nil_r.
Qed.

End Remove.

(** ** The states the operations reach *)

Section Reachable.
Context {H : Host}.
Variable apply : list Txn -> Op -> list Txn.

(** Every operation leaves the collection as it is, adds one valid record
    stamped with its reading of [Date.now()], patches records without
    touching their [id], or keeps a part of the collection. *)
Hypothesis apply_cases : forall l op,
  apply l op = l
  \/ (exists r f clk, op = OpAdd f clk /\ id r = now clk
        /\ valid (today clk) r = true
        /\ Permutation (apply l op) (r :: l))
  \/ (exists i ef clk m, op = OpUpdate i ef clk
        /\ (forall e, id (m e) = id e /\ amount_ok (m e) = true
                      /\ date_ok (today clk) (m e) = true)
        /\ apply l op
           = map (fun e => if (id e =? i)%Z then m e else e) l)
  \/ (exists f, apply l op = filter f l).

Lemma date_ok_mono (d1 d2 : string) (e : Txn) :
  date_ok d1 e = true -> String.leb d1 d2 = true -> date_ok d2 e = true.
Proof.
  unfold date_ok. intros H1 H2. apply negb_true_iff in H1.
  apply negb_true_iff. now apply not_after_mono with d1.
Qed.

Lemma valid_mono (d1 d2 : string) (e : Txn) :
  valid d1 e = true -> String.leb d1 d2 = true -> valid d2 e = true.
Proof.
  unfold valid. intros Hv Hle.
  repeat (apply andb_true_iff in Hv; destruct Hv as [Hv ?]).
  repeat (apply andb_true_iff; split); auto.
  now apply date_ok_mono with d1.
Qed.

Lemma valid_amount_date (d : string) (e : Txn) :
  valid d e = true -> amount_ok e && date_ok d e = true.
Proof.
  unfold valid. intros Hv.
  repeat (apply andb_true_iff in Hv; destruct Hv as [Hv ?]).
  apply andb_true_iff. now split.
Qed.

Lemma Forall_map_if (Q : Txn -> Prop) (i : Z) (m : Txn -> Txn)
    (l : list Txn) :
  Forall Q l -> (forall e, Q (m e)) ->
  Forall Q (map (fun e => if (id e =? i)%Z then m e else e) l).
Proof.
  intros HQ Hm. induction HQ; simpl; constructor; auto.
  destruct (id x =? i)%Z; auto.
Qed.

Lemma Forall_filter (Q : Txn -> Prop) (f : Txn -> bool) (l : list Txn) :
  Forall Q l -> Forall Q (filter f l).
Proof.
  intros HQ. apply Forall_forall. intros e He.
  apply filter_In in He. rewrite Forall_forall in HQ. now apply HQ.
Qed.

Lemma step_amount_date (day : string) (l : list Txn) (op : Op) :
  (forall clk, op_clock op = Some clk ->
               String.leb (today clk) day = true) ->
  Forall (fun e => amount_ok e && date_ok day e = true) l ->
  Forall (fun e => amount_ok e && date_ok day e = true) (apply l op).
Proof.
  intros Hclk HQ.
  destruct (apply_cases l op)
    as [E|[(r & f & clk & -> & Hid & Hv & Hp)
          |[(i & ef & clk & m & -> & Hm & E)|(f & E)]]].
  - now rewrite E.
  - eapply Permutation_Forall; [symmetry; exact Hp|].
    constructor; [|exact HQ].
    apply valid_amount_date. apply valid_mono with (today clk); auto.
  - rewrite E. apply Forall_map_if; [exact HQ|].
    intros e. destruct (Hm e) as (_ & Ha & Hd).
    rewrite Ha. simpl. apply date_ok_mono with (today clk); auto.
  - rewrite E. now apply Forall_filter.
Qed.

Lemma step_valid (day : string) (l : list Txn) (op : Op) :
  (forall clk, op_clock op = Some clk ->
               String.leb (today clk) day = true) ->
  is_update op = false ->
  Forall (fun e => valid day e = true) l ->
  Forall (fun e => valid day e = true) (apply l op).
Proof.
  intros Hclk Hu HQ.
  destruct (apply_cases l op)
    as [E|[(r & f & clk & -> & Hid & Hv & Hp)
          |[(i & ef & clk & m & -> & Hm & E)|(f & E)]]].
  - now rewrite E.
  - eapply Permutation_Forall; [symmetry; exact Hp|].
    constructor; [|exact HQ].
    apply valid_mono with (today clk); auto.
  - discriminate.
  - rewrite E. now apply Forall_filter.
Qed.

Lemma NoDup_map_filter (f : Txn -> bool) (l : list Txn) :
  NoDup (map id l) -> NoDup (map id (filter f l)).
Proof.
  induction l as [|e l IH]; simpl; intros Hn; [constructor|].
  inversion Hn as [|? ? Hni Hn']; subst.
  destruct (f e); simpl; [|now apply IH].
  constructor; [|now apply IH].
  intros Hin. apply Hni. apply in_map_iff in Hin.
  destruct Hin as (x & Hx & Hxin). apply filter_In in Hxin.
  apply in_map_iff. exists x. tauto.
Qed.

Lemma map_id_patch (i : Z) (m : Txn -> Txn) (l : list Txn) :
  (forall e, id (m e) = id e) ->
  map id (map (fun e => if (id e =? i)%Z then m e else e) l) = map id l.
Proof.
  intros Hm. rewrite map_map. apply map_ext. intros e.
  destruct (id e =? i)%Z; auto.
Qed.

(** The [id]s of the collection stay distinct, and apart from the values
    of [Date.now()] the later calls of [addExpense] will read. *)
Lemma run_ids (ops : list Op) (l : list Txn) :
  NoDup (map id l) -> NoDup (add_stamps ops) ->
  (forall e, In e l -> ~ In (id e) (add_stamps ops)) ->
  NoDup (map id (fold_left apply ops l)).
Proof.
  revert l. induction ops as [|op ops IH]; intros l Hn Hs Hfresh;
    [exact Hn|].
  simpl. 
  destruct (apply_cases l op)
    as [E|[(r & f & clk & -> & Hid & Hv & Hp)
          |[(i & ef & clk & m & -> & Hm & E)|(f & E)]]].
  - rewrite E. apply IH; auto.
    + destruct op; simpl in Hs; auto. now inversion Hs.
    + intros e He Hin. apply (Hfresh e He).
      destruct op; simpl; auto.
  - simpl in Hs. inversion Hs as [|? ? Hnot Hs']; subst.
    apply IH; auto.
    + eapply Permutation_NoDup.
      { apply Permutation_map. symmetry. exact Hp. }
      simpl. constructor; [|exact Hn].
      intros Hin. apply in_map_iff in Hin.
      destruct Hin as (x & Hx & Hxin).
      apply (Hfresh x Hxin). simpl. left. congruence.
    + intros e He Hin.
      apply (Permutation_in _ Hp) in He. destruct He as [<-|He].
      * apply Hnot. now rewrite <- Hid.
      * apply (Hfresh e He). simpl. now right.
  - simpl in Hs. apply IH; auto.
    + rewrite E, map_id_patch; [exact Hn|]. intros e. apply (Hm e).
    + intros e He Hin. rewrite E in He. apply in_map_iff in He.
      destruct He as (x & Hx & Hxin).
      apply (Hfresh x Hxin). simpl.
      destruct (id x =? i)%Z; subst e; [|exact Hin].
      now rewrite (proj1 (Hm x)) in Hin.
  - assert (Hs' : NoDup (add_stamps ops)).
    { destruct op; simpl in Hs; auto. now inversion Hs. }
    apply IH; auto.
    + rewrite E. now apply NoDup_map_filter.
    + intros e He Hin. rewrite E in He. apply filter_In in He.
      apply (Hfresh e (proj1 He)). destruct op; simpl; auto.
Qed.

Lemma run_guaranteed (day : string) (ops : list Op) :
  clocks_upto day ops -> guaranteed day ops (fold_left apply ops []).
Proof.
  intros Hclk. unfold guaranteed. repeat split.
  - assert (G : forall l,
              Forall (fun e => amount_ok e && date_ok day e = true) l ->
              Forall (fun e => amount_ok e && date_ok day e = true)
                     (fold_left apply ops l)).
    { induction ops as [|op ops IH]; intros l Hl; [exact Hl|].
      simpl. apply IH.
      - intros o c Ho. apply Hclk. now right.
      - apply step_amount_date; auto.
        intros c Hc. apply (Hclk op c); [now left|exact Hc]. }
    apply G. constructor.
  - intros Hnu.
    assert (G : forall l,
              Forall (fun e => valid day e = true) l ->
              Forall (fun e => valid day e = true)
                     (fold_left apply ops l)).
    { induction ops as [|op ops IH]; intros l Hl; [exact Hl|].
      simpl in Hnu. apply orb_false_iff in Hnu. destruct Hnu as [Hu Hnu].
      simpl. apply IH; auto.
      - intros o c Ho. apply Hclk. now right.
      - apply step_valid; auto.
        intros c Hc. apply (Hclk op c); [now left|exact Hc]. }
    apply G. constructor.
  - intros Hs. apply run_ids; [constructor|exact Hs|intros e []].
Qed.

End Reachable.

Section ReachableIterations.
Context {H : Host} {HL : HostLaws H}.

Lemma new_record_valid (day : string) (r : Txn) (n : num) (d : string) :
  amount r = ANum n -> bad_amount n = false ->
  date r = Some d -> Js.str_gt d day = false ->
  Js.truthy (title r) = true -> Js.truthy (category r) = true ->
  valid day r = true.
Proof.
  intros Ha Hn Hd Hgt Ht Hc.
  unfold valid, amount_ok, date_ok, title_ok, category_ok.
  rewrite Ha, Hd, Ht, Hc, (good_amount_positive n Hn). simpl.
  now rewrite Hgt.
Qed.

Lemma clear_is_filter (confirmed : bool) (l : list Txn) :
  exists f, (if confirmed then [] else l) = filter f l.
Proof.
  destruct confirmed.
  - exists (fun _ => false). induction l; simpl; auto.
  - exists (fun _ => true). induction l; simpl; congruence.
Qed.

Ltac add_cases f clk :=
  destruct (missing_field f) eqn:Em; [now left|];
  destruct (bad_amount (StringToNumber (form_amount f))) eqn:Ea;
    [now left|];
  destruct (Js.str_gt (form_date f) (today clk)) eqn:Ed; [now left|];
  destruct (missing_field_false f Em) as [Ht Hcat].

Ltac edit_cases ef clk :=
  destruct (bad_amount (Number (edit_amount ef))) eqn:Ea; [now left|];
  destruct (date_gt (edit_date ef) (Some (today clk))) eqn:Ed;
    [now left|];
  right; right; left.

Lemma Checked_apply_cases (l : list Txn) (op : Op) :
  CheckedRun.apply l op = l
  \/ (exists r f clk, op = OpAdd f clk /\ id r = now clk
        /\ valid (today clk) r = true
        /\ Permutation (CheckedRun.apply l op) (r :: l))
  \/ (exists i ef clk m, op = OpUpdate i ef clk
        /\ (forall e, id (m e) = id e /\ amount_ok (m e) = true
                      /\ date_ok (today clk) (m e) = true)
        /\ CheckedRun.apply l op
           = map (fun e => if (id e =? i)%Z then m e else e) l)
  \/ (exists f, CheckedRun.apply l op = filter f l).
Proof.
  destruct op as [f clk|i ef clk|i|c]; simpl.
  - unfold Checked.addExpense. add_cases f clk.
    destruct (Js.truthy (finalCategory f)) eqn:Ec; [|now left].
    right; left.
    exists (mkTxn (now clk) (form_title f)
              (ANum (StringToNumber (form_amount f)))
              (Some (form_date f)) (finalCategory f)
              None None None None), f, clk. simpl.
    split; [reflexivity|]. split; [reflexivity|]. split.
    + eapply new_record_valid; simpl; eauto.
    + symmetry. apply Permutation_cons_append.
  - unfold Checked.saveEdit. edit_cases ef clk.
    exists i, ef, clk,
      (fun e => Checked.merge e ef (Number (edit_amount ef))).
    split; [reflexivity|]. split; [|reflexivity].
    intros e. unfold amount_ok, date_ok. simpl.
    now rewrite Ed, (good_amount_positive _ Ea).
  - right; right; right. eexists. reflexivity.
  - right; right; right. apply clear_is_filter.
Qed.

Lemma MultiType_apply_cases (l : list Txn) (op : Op) :
  MultiTypeRun.apply l op = l
  \/ (exists r f clk, op = OpAdd f clk /\ id r = now clk
        /\ valid (today clk) r = true
        /\ Permutation (MultiTypeRun.apply l op) (r :: l))
  \/ (exists i ef clk m, op = OpUpdate i ef clk
        /\ (forall e, id (m e) = id e /\ amount_ok (m e) = true
                      /\ date_ok (today clk) (m e) = true)
        /\ MultiTypeRun.apply l op
           = map (fun e => if (id e =? i)%Z then m e else e) l)
  \/ (exists f, MultiTypeRun.apply l op = filter f l).
Proof.
  destruct op as [f clk|i ef clk|i|c]; simpl.
  - unfold MultiType.addExpense. add_cases f clk.
    destruct (Js.truthy (finalCategory f)) eqn:Ec; [|now left].
    right; left.
    exists (mkTxn (now clk) (form_title f)
              (ANum (StringToNumber (form_amount f)))
              (Some (form_date f)) (finalCategory f)
              (Some (form_type f)) None None None), f, clk. simpl.
    split; [reflexivity|]. split; [reflexivity|]. split.
    + eapply new_record_valid; simpl; eauto.
    + symmetry. apply Permutation_cons_append.
  - unfold MultiType.saveEdit. edit_cases ef clk.
    exists i, ef, clk,
      (fun e => MultiType.merge e ef (Number (edit_amount ef))).
    split; [reflexivity|]. split; [|reflexivity].
    intros e. unfold amount_ok, date_ok. simpl.
    now rewrite Ed, (good_amount_positive _ Ea).
  - right; right; right. eexists. reflexivity.
  - right; right; right. apply clear_is_filter.
Qed.

Lemma Budget_apply_cases (l : list Txn) (op : Op) :
  BudgetRun.apply_op l op = l
  \/ (exists r f clk, op = OpAdd f clk /\ id r = now clk
        /\ valid (today clk) r = true
        /\ Permutation (BudgetRun.apply_op l op) (r :: l))
  \/ (exists i ef clk m, op = OpUpdate i ef clk
        /\ (forall e, id (m e) = id e /\ amount_ok (m e) = true
                      /\ date_ok (today clk) (m e) = true)
        /\ BudgetRun.apply_op l op
           = map (fun e => if (id e =? i)%Z then m e else e) l)
  \/ (exists f, BudgetRun.apply_op l op = filter f l).
Proof.
  destruct op as [f clk|i ef clk|i|c]; simpl.
  - unfold Budget.addExpense. add_cases f clk.
    right; left.
    exists (mkTxn (now clk) (form_title f)
              (ANum (StringToNumber (form_amount f)))
              (Some (form_date f)) (form_category f)
              None (Some (form_notes f)) (Some (isoStamp clk)) None),
      f, clk. simpl.
    split; [reflexivity|]. split; [reflexivity|]. split.
    + eapply new_record_valid; simpl; eauto.
    + reflexivity.
  - unfold Budget.saveEdit. edit_cases ef clk.
    exists i, ef, clk,
      (fun e => Budget.merge e ef (Number (edit_amount ef))
                             (isoStamp clk)).
    split; [reflexivity|]. split; [|reflexivity].
    intros e. unfold amount_ok, date_ok. simpl.
    now rewrite Ed, (good_amount_positive _ Ea).
  - right; right; right. eexists. reflexivity.
  - right; right; right. unfold Budget.clearAll.
    destruct c; simpl; [apply (clear_is_filter true)
                       |apply (clear_is_filter false)].
Qed.

(** C2 (as amended).  In the three iterations that validate, every
    collection reached from the empty one by add, update, remove and
    clear has only records with a numeric amount above zero and a date
    that is not in the future; their titles and categories are not empty
    as long as no update was made; their [id]s are distinct provided the
    calls of add read distinct values of the clock.  (Import is left
    out: it installs whatever the file holds.) *)
Theorem reachable_states_guaranteed (day : string) (ops : list Op) :
  clocks_upto day ops ->
  guaranteed day ops (CheckedRun.run ops [])
  /\ guaranteed day ops (MultiTypeRun.run ops [])
  /\ guaranteed day ops (BudgetRun.run_ops ops []).
Proof.
  intros Hclk. split; [|split].
  - apply run_guaranteed with (apply := CheckedRun.apply);
      [exact Checked_apply_cases|exact Hclk].
  - apply run_guaranteed with (apply := MultiTypeRun.apply);
      [exact MultiType_apply_cases|exact Hclk].
  - apply run_guaranteed with (apply := BudgetRun.apply_op);
      [exact Budget_apply_cases|exact Hclk].
Qed.

End ReachableIterations.

(** ** The view pipeline *)

Section Pipeline.
Context {H : Host}.

(** The filters of [MultiType] keep the records that pass the three
    tests, in their order: the stages filter one after the other. *)
Lemma MultiType_filters_fuse (p : Params) (expenses : list Txn) :
  MultiType.searchStage p
    (MultiType.typeStage p (MultiType.monthStage p expenses))
  = filter (fun e =>
              (negb (Js.truthy (selectedMonth p))
               || month_matches (selectedMonth p) e)
              && (if String.eqb (filterType p) "expense"
                  then MultiType.is_expense e
                  else if String.eqb (filterType p) "income"
                       then MultiType.has_type "income" e
                       else true)
              && (negb (Js.truthy (Js.trim (search p)))
                  || title_matches (Js.toLowerCase (search p)) e))
           expenses.
Proof.
  assert (Htrue : forall l : list Txn, filter (fun _ => true) l = l).
  { induction l; simpl; congruence. }
  assert (Hfuse : forall (f g : Txn -> bool) l,
             filter g (filter f l) = filter (fun e => f e && g e) l).
  { intros f g l. induction l as [|e l IH]; simpl; [reflexivity|].
    destruct (f e); simpl; [destruct (g e)|]; now rewrite IH. }
  assert (Hstage : forall (c : bool) (f : Txn -> bool) l,
             (if c then filter f l else l)
             = filter (fun e => negb c || f e) l).
  { intros [] f l; simpl; [reflexivity|now rewrite Htrue]. }
  assert (Htype : forall l,
             MultiType.typeStage p l
             = filter (fun e =>
                         if String.eqb (filterType p) "expense"
                         then MultiType.is_expense e
                         else if String.eqb (filterType p) "income"
                              then MultiType.has_type "income" e
                              else true) l).
  { intros l. unfold MultiType.typeStage.
    destruct (String.eqb_spec (filterType p) "all") as [Ea|Ea]; simpl.
    - rewrite Ea. simpl. now rewrite Htrue.
    - destruct (String.eqb (filterType p) "expense"); [reflexivity|].
      destruct (String.eqb (filterType p) "income"); [reflexivity|].
      now rewrite Htrue. }
  rewrite Htype. unfold MultiType.searchStage, MultiType.monthStage.
  rewrite !Hstage, !Hfuse. apply filter_ext. intros e.
  now rewrite andb_assoc.
Qed.

(** C3, at its failing input.  In [Plain], the comparator answers -1 for
    two records of the same date in either order, never 0; the sort
    then puts the record added last first.  [Checked], whose comparator
    answers 0 there, keeps the order. *)
Theorem Plain_sort_reverses_ties :
  Plain.compare Sample.by_date Sample.tea Sample.bus = (-1)%Z
  /\ Plain.compare Sample.by_date Sample.bus Sample.tea = (-1)%Z
  /\ Plain.view Sample.by_date [Sample.tea; Sample.bus]
     = [Sample.bus; Sample.tea]
  /\ Checked.compare Sample.by_date Sample.tea Sample.bus = 0%Z
  /\ Checked.view Sample.by_date [Sample.tea; Sample.bus]
     = [Sample.tea; Sample.bus].
Proof. repeat split; reflexivity. Qed.

End Pipeline.

(** ** Import and export *)

Section ImportExport.
Context {H : Host}.

(** A file that is not JSON, or that holds [null], is reported and
    changes nothing. *)
Lemma import_reports_unparsable (file : Budget.Parse)
    (l : list Txn) (b : Budget.Json) :
  file = Budget.SyntaxError \/ file = Budget.Parsed Budget.JNull ->
  Budget.importData (Some file)
  = Budget.mkImport None None
      (Some (Notify "Invalid file format" "error"))
  /\ Budget.imported (Budget.importData (Some file)) l = Some l
  /\ Budget.imported_budget (Budget.importData (Some file)) b = b.
Proof. intros [-> | ->]; repeat split; reflexivity. Qed.

(** A file without a truthy [expenses] property changes nothing. *)
Lemma import_ignores_missing_expenses (data : Budget.Json)
    (l : list Txn) (b : Budget.Json) :
  match Budget.prop "expenses" data with
  | Budget.Value v => Budget.truthy v = false
  | _ => True
  end ->
  Budget.imported (Budget.importData (Some (Budget.Parsed data))) l
  = Some l
  /\ Budget.imported_budget
       (Budget.importData (Some (Budget.Parsed data))) b = b.
Proof.
  unfold Budget.importData.
  destruct (Budget.prop "expenses" data) as [| |v]; simpl.
  - auto.
  - auto.
  - intros ->. auto.
Qed.

(** C6, at its failing inputs.  A file that holds an object without
    [expenses] is ignored without any report; a file whose [expenses] is
    a string is imported: the string takes the place of the collection,
    and the import is reported as a success. *)
Theorem import_misses_format_errors (l : list Txn) :
  Budget.importData (Some (Budget.Parsed Sample.no_expenses))
  = Budget.mkImport None None None
  /\ Budget.importData (Some (Budget.Parsed Sample.text_expenses))
     = Budget.mkImport (Some (Budget.JStr "abc")) None
         (Some (Notify "Data imported successfully!" "success"))
  /\ Budget.imported
       (Budget.importData (Some (Budget.Parsed Sample.text_expenses))) l
     = None.
Proof. repeat split; reflexivity. Qed.

Lemma txn_json_reads_back (e e' : Txn) :
  Budget.txn_json e = Some e' ->
  (e' = e <-> amount_reads_back e).
Proof.
  unfold Budget.txn_json, amount_reads_back.
  destruct (Budget.amount_json (amount e)) as [a|]; [|discriminate].
  intros E. injection E as <-. split.
  - intros E. f_equal. now rewrite <- E.
  - intros E. injection E as ->. now destruct e.
Qed.

Lemma txn_json_None (e : Txn) :
  Budget.txn_json e = None -> ~ amount_reads_back e.
Proof.
  unfold Budget.txn_json, amount_reads_back.
  destruct (Budget.amount_json (amount e)); discriminate.
Qed.

(** An array of transactions is read back as it was written exactly when
    every amount is. *)
Lemma txns_json_reads_back (l : list Txn) :
  Budget.txns_json l = Some l <-> Forall amount_reads_back l.
Proof.
  induction l as [|e l IH]; simpl.
  - split; [constructor|reflexivity].
  - destruct (Budget.txn_json e) as [e'|] eqn:Ee.
    + pose proof (txn_json_reads_back e e' Ee) as He.
      destruct (Budget.txns_json l) as [r|].
      * split.
        -- intros E. injection E as E1 E2. constructor.
           ++ now apply He.
           ++ apply IH. now rewrite E2.
        -- intros Hf. inversion Hf as [|? ? Hx Hl]; subst.
           apply He in Hx. apply IH in Hl. congruence.
      * split; [discriminate|].
        intros Hf. inversion Hf as [|? ? _ Hl]; subst.
        apply IH in Hl. discriminate.
    + split; [destruct (Budget.txns_json l); discriminate|].
      intros Hf. inversion Hf as [|? ? Hx _]; subst.
      now apply txn_json_None in Hx.
Qed.

Lemma imported_exported (expenses : list Txn) (monthlyBudget : Budget.Json)
    (clk : Clock) (current : list Txn) :
  Budget.imported
    (Budget.importData
       (Some (fst (Budget.exportData expenses monthlyBudget clk)))) current
  = Budget.txns_json expenses.
Proof.
  unfold Budget.exportData, Budget.exportDoc, Budget.importData,
    Budget.imported. simpl.
  destruct (Budget.txns_json expenses); reflexivity.
Qed.

(** C8 (as amended).  Importing the file that export writes gives back
    the collection that was exported, whatever the collection in memory
    is then, exactly when the amount of every record is read back from
    its JSON text as it was: every string is, and every finite number
    (but the negative zero); the import reports a success in any case. *)
Theorem import_export_roundtrip
    (expenses : list Txn) (monthlyBudget : Budget.Json) (clk : Clock)
    (current : list Txn) :
  let file := fst (Budget.exportData expenses monthlyBudget clk) in
  (Forall amount_reads_back expenses ->
   Budget.imported (Budget.importData (Some file)) current = Some expenses
   /\ Budget.setExpenses (Budget.importData (Some file))
      = Some (Budget.JTxns expenses))
  /\ (Budget.imported (Budget.importData (Some file)) current
      = Some expenses
      -> Forall amount_reads_back expenses)
  /\ Budget.notification (Budget.importData (Some file))
     = Some (Notify "Data imported successfully!" "success").
Proof.
  intros file. unfold file. rewrite imported_exported.
  split; [|split].
  - intros Hf. apply txns_json_reads_back in Hf. split; [exact Hf|].
    unfold Budget.exportData, Budget.exportDoc, Budget.importData. simpl.
    now rewrite Hf.
  - apply txns_json_reads_back.
  - unfold Budget.exportData, Budget.exportDoc, Budget.importData. simpl.
    destruct (Budget.txns_json expenses); reflexivity.
Qed.

(** The budget comes back as [JSON] reads it back, unless that is
    falsy. *)
Lemma import_export_budget
    (expenses : list Txn) (monthlyBudget : Budget.Json) (clk : Clock)
    (current : Budget.Json) :
  let file := fst (Budget.exportData expenses monthlyBudget clk) in
  Budget.imported_budget (Budget.importData (Some file)) current
  = if Budget.truthy (Budget.reparse monthlyBudget)
    then Budget.reparse monthlyBudget else current.
Proof.
  unfold Budget.exportData, Budget.exportDoc, Budget.importData,
    Budget.imported_budget. simpl.
  destruct (Budget.txns_json expenses); simpl;
    now destruct (Budget.truthy (Budget.reparse monthlyBudget)).
Qed.

End ImportExport.

(** ** Objects used as dictionaries *)

Section DictFacts.
Variable V : Type.
Implicit Types (o : JsObject.t V) (k m : string) (v : V).

Lemma get_replace k m v o :
  JsObject.get k (JsObject.replace m v o)
  = if String.eqb m k
    then match JsObject.get m o with Some _ => Some v | None => None end
    else JsObject.get k o.
Proof.
  induction o as [|[k' v'] o IH]; simpl.
  - now destruct (String.eqb m k).
  - destruct (String.eqb_spec k' m) as [->|Hne]; simpl.
    + destruct (String.eqb m k); reflexivity.
    + rewrite IH. destruct (String.eqb_spec m k) as [<-|Hmk].
      * destruct (String.eqb_spec k' m); [contradiction|reflexivity].
      * reflexivity.
Qed.

Lemma get_place k m v o :
  JsObject.get m o = None ->
  JsObject.get k (JsObject.place m v o)
  = if String.eqb m k then Some v else JsObject.get k o.
Proof.
  induction o as [|[k' v'] o IH]; simpl; intros Hm.
  - reflexivity.
  - destruct (String.eqb_spec k' m) as [->|Hne]; [discriminate|].
    destruct (JsObject.goes_before m k'); simpl.
    + destruct (String.eqb m k); reflexivity.
    + rewrite (IH Hm). destruct (String.eqb_spec m k) as [<-|Hmk].
      * destruct (String.eqb_spec k' m); [contradiction|reflexivity].
      * reflexivity.
Qed.

Lemma get_set k m v o :
  JsObject.get k (JsObject.set m v o)
  = if String.eqb m k then Some v else JsObject.get k o.
Proof.
  unfold JsObject.set. destruct (JsObject.get m o) eqn:Hm.
  - rewrite get_replace, Hm. reflexivity.
  - now apply get_place.
Qed.

Lemma keys_replace m v o :
  JsObject.keys (JsObject.replace m v o) = JsObject.keys o.
Proof.
  induction o as [|[k' v'] o IH]; simpl; [reflexivity|].
  destruct (String.eqb_spec k' m) as [->|Hne]; simpl; [reflexivity|].
  now rewrite IH.
Qed.

Lemma keys_place_perm m v o :
  Permutation (JsObject.keys (JsObject.place m v o))
              (m :: JsObject.keys o).
Proof.
  induction o as [|[k' v'] o IH]; simpl; [reflexivity|].
  destruct (JsObject.goes_before m k'); simpl; [reflexivity|].
  rewrite IH. apply perm_swap.
Qed.

Lemma get_None_keys k o :
  JsObject.get k o = None <-> ~ In k (JsObject.keys o).
Proof.
  induction o as [|[k' v'] o IH]; simpl; [tauto|].
  destruct (String.eqb_spec k' k) as [->|Hne].
  - split; [discriminate|tauto].
  - rewrite IH. tauto.
Qed.

Lemma NoDup_keys_set m v o :
  NoDup (JsObject.keys o) -> NoDup (JsObject.keys (JsObject.set m v o)).
Proof.
  intros Hn. unfold JsObject.set.
  destruct (JsObject.get m o) eqn:Hm.
  - now rewrite keys_replace.
  - eapply Permutation_NoDup; [symmetry; apply keys_place_perm|].
    constructor; [now apply get_None_keys|exact Hn].
Qed.

Lemma In_get k v o :
  NoDup (JsObject.keys o) -> (In (k, v) o <-> JsObject.get k o = Some v).
Proof.
  induction o as [|[k' v'] o IH]; simpl; intros Hn.
  - split; [tauto|discriminate].
  - inversion Hn as [|? ? Hni Hn']; subst.
    destruct (String.eqb_spec k' k) as [->|Hne].
    + split.
      * intros [E|Hin]; [congruence|].
        exfalso. apply Hni. change k with (fst (k, v)).
        now apply in_map.
      * intros E. left. congruence.
    + rewrite <- (IH Hn'). split; [|tauto].
      intros [E|Hin]; [congruence|exact Hin].
Qed.

Lemma In_values v o :
  In v (JsObject.values o) <-> exists k, In (k, v) o.
Proof.
  unfold JsObject.values. rewrite in_map_iff. split.
  - intros ([k v'] & E & Hin). simpl in E. subst v'. now exists k.
  - intros (k & Hin). now exists (k, v).
Qed.

End DictFacts.

(** ** The monthly totals of [MultiType] *)

Section MonthMap.
Context {H : Host}.

Lemma sum_amounts_snoc (l : list Txn) (e : Txn) :
  sum_amounts (l ++ [e]) = num_add (sum_amounts l) (Number (amount e)).
Proof. unfold sum_amounts. now rewrite fold_left_app. Qed.

Lemma bucket_sum_snoc (k : string) (sel : Txn -> bool) (l : list Txn)
    (e : Txn) :
  bucket_sum k sel (l ++ [e])
  = if in_bucket k sel e
    then num_add (bucket_sum k sel l) (Number (amount e))
    else bucket_sum k sel l.
Proof.
  unfold bucket_sum. rewrite filter_app. simpl.
  destruct (in_bucket k sel e).
  - apply sum_amounts_snoc.
  - now rewrite app_nil_r.
Qed.

Lemma opt_str_eqb_Some (a b : string) :
  Js.opt_str_eqb (Some a) b = String.eqb a b.
Proof. reflexivity. Qed.

Lemma month_row_snoc_other (k : string) (l : list Txn) (e : Txn) :
  Js.opt_str_eqb (counted_key e) k = false ->
  month_row k (l ++ [e]) = month_row k l.
Proof.
  intros Hk. unfold month_row. rewrite !bucket_sum_snoc.
  unfold in_bucket. now rewrite Hk.
Qed.

Lemma month_row_snoc_same (m : string) (l : list Txn) (e : Txn) :
  counted_key e = Some m ->
  month_row m (l ++ [e]) = MultiType.add_amount e (month_row m l).
Proof.
  intros Hk. unfold month_row, MultiType.add_amount.
  rewrite !bucket_sum_snoc. unfold in_bucket.
  rewrite Hk, opt_str_eqb_Some, String.eqb_refl. simpl.
  unfold is_other, is_income, is_investment.
  destruct (MultiType.has_type "income" e); simpl; [reflexivity|].
  destruct (MultiType.has_type "investment" e); reflexivity.
Qed.

Lemma month_row_fresh (k : string) (l : list Txn) :
  month_present k l = false ->
  month_row k l
  = {| MultiType.month := k; MultiType.expense := num_zero;
       MultiType.income := num_zero; MultiType.investment := num_zero |}.
Proof.
  intros Hp. unfold month_row, bucket_sum.
  assert (Hnone : forall sel, filter (in_bucket k sel) l = []).
  { intros sel. apply filter_none. intros e He. unfold in_bucket.
    unfold month_present in Hp.
    destruct (Js.opt_str_eqb (counted_key e) k) eqn:E; [|reflexivity].
    exfalso. assert (Ht : existsb
               (fun e => Js.opt_str_eqb (counted_key e) k) l = true).
    { apply existsb_exists. now exists e. }
    congruence. }
  now rewrite !Hnone.
Qed.

Lemma monthMap_snoc (l : list Txn) (e : Txn) :
  MultiType.monthMap (l ++ [e])
  = MultiType.monthMap_step (MultiType.monthMap l) e.
Proof. unfold MultiType.monthMap. now rewrite fold_left_app. Qed.

Lemma month_present_snoc (k : string) (l : list Txn) (e : Txn) :
  month_present k (l ++ [e])
  = month_present k l || Js.opt_str_eqb (counted_key e) k.
Proof.
  unfold month_present. rewrite existsb_app. simpl.
  now rewrite orb_false_r.
Qed.

Lemma monthMap_step_counted (mm : JsObject.t MultiType.MonthRow)
    (e : Txn) :
  MultiType.monthMap_step mm e
  = match counted_key e with
    | None => mm
    | Some m =>
        let mm1 :=
          match JsObject.get m mm with
          | None =>
              JsObject.set m
                {| MultiType.month := m; MultiType.expense := num_zero;
                   MultiType.income := num_zero;
                   MultiType.investment := num_zero |} mm
          | Some _ => mm
          end in
        match JsObject.get m mm1 with
        | Some r => JsObject.replace m (MultiType.add_amount e r) mm1
        | None => mm1
        end
    end.
Proof.
  unfold MultiType.monthMap_step, counted_key.
  destruct (month_key e) as [m|]; [|reflexivity].
  now destruct (JsObject.inherited m).
Qed.

(** The object [monthMap] holds, for every month of the view, the row of
    that month, and nothing else. *)
Lemma monthMap_get (l : list Txn) (k : string) :
  JsObject.get k (MultiType.monthMap l)
  = if month_present k l then Some (month_row k l) else None.
Proof.
  revert k. induction l as [|e l IH] using rev_ind; intros k.
  - reflexivity.
  - rewrite monthMap_snoc, month_present_snoc, monthMap_step_counted.
    destruct (counted_key e) as [m|] eqn:Ek.
    + set (mm := MultiType.monthMap l) in *.
      set (mm1 := match JsObject.get m mm with
                  | Some _ => mm
                  | None => JsObject.set m _ mm
                  end).
      assert (Hm1 : JsObject.get m mm1 = Some (month_row m l)).
      { subst mm1. rewrite (IH m).
        destruct (month_present m l) eqn:Hp.
        - rewrite (IH m), Hp. reflexivity.
        - rewrite get_set, String.eqb_refl.
          now rewrite (month_row_fresh m l Hp). }
      assert (Hk1 : forall k', m <> k' ->
                 JsObject.get k' mm1 = JsObject.get k' mm).
      { intros k' Hne. subst mm1.
        destruct (JsObject.get m mm); [reflexivity|].
        rewrite get_set.
        destruct (String.eqb_spec m k'); [contradiction|reflexivity]. }
      cbv zeta. rewrite Hm1, get_replace, Hm1, opt_str_eqb_Some.
      destruct (String.eqb_spec m k) as [<-|Hne].
      * rewrite orb_true_r. now rewrite (month_row_snoc_same m l e Ek).
      * rewrite orb_false_r, (Hk1 k Hne), (IH k).
        rewrite month_row_snoc_other; [reflexivity|].
        rewrite Ek, opt_str_eqb_Some.
        now destruct (String.eqb_spec m k).
    + simpl. rewrite orb_false_r, (IH k).
      rewrite month_row_snoc_other; [reflexivity|]. now rewrite Ek.
Qed.

Lemma monthMap_NoDup (l : list Txn) :
  NoDup (JsObject.keys (MultiType.monthMap l)).
Proof.
  induction l as [|e l IH] using rev_ind; [constructor|].
  rewrite monthMap_snoc, monthMap_step_counted.
  destruct (counted_key e) as [m|]; [|exact IH].
  set (mm := MultiType.monthMap l) in *.
  set (mm1 := match JsObject.get m mm with
              | Some _ => mm
              | None => JsObject.set m _ mm
              end).
  assert (Hn1 : NoDup (JsObject.keys mm1)).
  { subst mm1. destruct (JsObject.get m mm); [exact IH|].
    now apply NoDup_keys_set. }
  clearbody mm1. cbv zeta.
  destruct (JsObject.get m mm1); [|exact Hn1].
  now rewrite keys_replace.
Qed.

Lemma month_present_iff (k : string) (l : list Txn) :
  month_present k l = true <-> exists e, In e l /\ counted_key e = Some k.
Proof.
  unfold month_present. rewrite existsb_exists. split.
  - intros (e & He & Hk). exists e. split; [exact He|].
    destruct (counted_key e) as [m|]; [|discriminate].
    simpl in Hk. apply String.eqb_eq in Hk. now subst.
  - intros (e & He & Hk). exists e. split; [exact He|].
    rewrite Hk. simpl. apply String.eqb_refl.
Qed.

(** The values of [monthMap] are the rows of the months of the view. *)
Lemma monthMap_values (l : list Txn) (r : MultiType.MonthRow) :
  In r (JsObject.values (MultiType.monthMap l))
  <-> exists k, month_present k l = true /\ r = month_row k l.
Proof.
  rewrite In_values. split.
  - intros (k & Hin). exists k.
    apply (In_get _ k r _ (monthMap_NoDup l)) in Hin.
    rewrite monthMap_get in Hin.
    destruct (month_present k l); [|discriminate].
    split; [reflexivity|congruence].
  - intros (k & Hp & ->). exists k.
    apply (In_get _ k _ _ (monthMap_NoDup l)).
    now rewrite monthMap_get, Hp.
Qed.

Lemma monthMap_months (l : list Txn) :
  map MultiType.month (JsObject.values (MultiType.monthMap l))
  = JsObject.keys (MultiType.monthMap l).
Proof.
  assert (G : forall o : JsObject.t MultiType.MonthRow,
             (forall k r, In (k, r) o -> MultiType.month r = k) ->
             map MultiType.month (JsObject.values o) = JsObject.keys o).
  { induction o as [|[k r] o IHo]; intros Ho; simpl; [reflexivity|].
    rewrite (Ho k r) by now left.
    f_equal. apply IHo. intros k' r' Hin. apply Ho. now right. }
  apply G. intros k r Hin.
  apply (In_get _ k r _ (monthMap_NoDup l)) in Hin.
  rewrite monthMap_get in Hin.
  destruct (month_present k l); [|discriminate].
  injection Hin as <-. reflexivity.
Qed.

(** Records without a date leave [monthMap] as it is. *)
Lemma monthMap_skips_missing (l : list Txn) :
  MultiType.monthMap l
  = MultiType.monthMap (filter (fun e => negb (date_missing e)) l).
Proof.
  unfold MultiType.monthMap. generalize (@nil (string * MultiType.MonthRow)).
  induction l as [|e l IH]; intros acc; simpl; [reflexivity|].
  destruct (date_missing e) eqn:Hd; simpl.
  - rewrite <- IH. f_equal. unfold MultiType.monthMap_step.
    assert (Hk : month_key e = None).
    { unfold month_key, date_missing in *.
      destruct (date e) as [d|]; [|reflexivity].
      apply negb_true_iff, truthy_false_iff in Hd. subst d. reflexivity. }
    now rewrite Hk.
  - apply IH.
Qed.

End MonthMap.

(** ** The monthly totals of [Budget] *)

Section Monthly.
Context {H : Host}.

Lemma aggregate_Throw (l : list Txn) (err : string) :
  fold_left Budget.aggregate_step l (Budget.Throw err) = Budget.Throw err.
Proof. induction l as [|e l IH]; simpl; auto. Qed.

Lemma has_month_Some (k d : string) (e : Txn) :
  date e = Some d -> has_month k e = String.eqb (Js.slice0 7 d) k.
Proof. intros Hd. unfold has_month. now rewrite Hd. Qed.

(** When the loop ends without throwing, [monthlyData] holds under each
    key the running total of the records of that month. *)
Lemma aggregate_get (l : list Txn) :
  forall (m0 w0 m w : JsObject.t num) (k : string),
  fold_left Budget.aggregate_step l (Budget.Ok (m0, w0))
  = Budget.Ok (m, w) ->
  JsObject.get k m
  = fold_left
      (fun (s : option num) e =>
         Some (num_add (Budget.or_zero s) (Number (amount e))))
      (filter (has_month k) l) (JsObject.get k m0).
Proof.
  induction l as [|e l IH]; intros m0 w0 m w k; simpl.
  - intros E. injection E as <- <-. reflexivity.
  - destruct (date e) as [d|] eqn:Hd;
      [|rewrite aggregate_Throw; discriminate].
    destruct (num_isNaN (Date_parse (Some d)));
      [rewrite aggregate_Throw; discriminate|].
    intros E. rewrite (IH _ _ _ _ k E).
    unfold Budget.bump. rewrite get_set, (has_month_Some k d e Hd).
    destruct (String.eqb_spec (Js.slice0 7 d) k) as [<-|Hne];
      reflexivity.
Qed.

Lemma aggregate_NoDup (l : list Txn) :
  forall (m0 w0 m w : JsObject.t num),
  NoDup (JsObject.keys m0) ->
  fold_left Budget.aggregate_step l (Budget.Ok (m0, w0))
  = Budget.Ok (m, w) ->
  NoDup (JsObject.keys m).
Proof.
  induction l as [|e l IH]; intros m0 w0 m w Hn; simpl.
  - intros E. injection E as <- <-. exact Hn.
  - destruct (date e) as [d|];
      [|rewrite aggregate_Throw; discriminate].
    destruct (num_isNaN (Date_parse (Some d)));
      [rewrite aggregate_Throw; discriminate|].
    apply IH. unfold Budget.bump. now apply NoDup_keys_set.
Qed.

(** A computation that ends without throwing has found a date on every
    record. *)
Lemma computed_Ok_dates (p : Params) (expenses : list Txn)
    (c : Budget.Computed) :
  Budget.computed p expenses = Budget.Ok c ->
  Forall (fun e => date e <> None) expenses.
Proof.
  unfold Budget.computed.
  destruct (Budget.aggregate _) as [[m w]|]; [|discriminate].
  destruct (forallb _ expenses) eqn:Hf; [|discriminate].
  intros _. apply Forall_forall. intros e He.
  rewrite forallb_forall in Hf. specialize (Hf e He).
  destruct (date e); [discriminate|discriminate].
Qed.

End Monthly.

(** ** The charts by month *)

Section ByMonth.
Context {H : Host} {HL : HostLaws H}.

Lemma localeCompare_consistent (A : Type) (key : A -> string) :
  JsArray.consistent_on
    (fun a b => num_sign (localeCompare (key a) (key b)))
    (fun _ => True).
Proof.
  split.
  - intros a _. apply lc_refl.
  - intros a b _ _. apply lc_antisym.
  - intros a b c _ _ _. apply lc_trans.
Qed.

Lemma Forall_True (A : Type) (l : list A) : Forall (fun _ => True) l.
Proof. induction l; constructor; auto. Qed.

Lemma sorted_by_key (A : Type) (key : A -> string) (l : list A) :
  keys_ascending key
    (JsArray.sort (fun a b => num_sign (localeCompare (key a) (key b))) l).
Proof.
  apply sort_ascending with (P := fun _ => True).
  - apply localeCompare_consistent.
  - apply Forall_True.
Qed.

Lemma keys_ascending_map (A B : Type) (f : A -> B) (key : B -> string)
    (l : list A) :
  keys_ascending (fun a => key (f a)) l -> keys_ascending key (map f l).
Proof.
  unfold keys_ascending. induction 1 as [|a l Hs IH Ha]; simpl;
    constructor; auto.
  now apply Forall_map.
Qed.

Lemma unfiltered_view (p : Params) (expenses : list Txn) :
  Js.truthy (selectedMonth p) = false -> filterType p = "all"%string ->
  Js.truthy (Js.trim (search p)) = false ->
  Permutation (MultiType.view p expenses) expenses.
Proof.
  intros Hm Ht Hs. unfold MultiType.view. rewrite Hm, Ht, Hs. simpl.
  destruct (Js.truthy (sortBy p)); [apply sort_perm|reflexivity].
Qed.

End ByMonth.

(* ===================================================================== *)
(** * Further properties of the store *)
(* ===================================================================== *)

Section StoreFacts.
Context {H : Host}.

Lemma map_fixed (A : Type) (f : A -> A) (l : list A) :
  (forall x, In x l -> f x = x) -> map f l = l.
Proof.
  induction l as [|x l IH]; simpl; intros Hf; [reflexivity|].
  rewrite (Hf x) by now left.
  f_equal. apply IH. intros y Hy. apply Hf. now right.
Qed.

Lemma filter_all (A : Type) (f : A -> bool) (l : list A) :
  (forall x, In x l -> f x = true) <-> filter f l = l.
Proof.
  induction l as [|x l IH]; simpl.
  - split; [reflexivity|intros _ x []].
  - split.
    + intros Hf. rewrite (Hf x) by now left. f_equal.
      apply IH. intros y Hy. apply Hf. now right.
    + intros E. destruct (f x) eqn:Ex.
      * injection E as E. intros y [<-|Hy]; [exact Ex|].
        now apply (proj2 IH E).
      * exfalso.
        assert (Hl : (List.length (filter f l) <= List.length l)%nat)
          by apply filter_length_le.
        rewrite E in Hl. simpl in Hl. lia.
Qed.

(** Saving the edit form as [startEdit] filled it changes nothing, when
    the record is the only one with its [id]: in [Plain] always, in
    [Checked] when the amount of the record is a number above zero and its
    date is not in the future, in [MultiType] when moreover the amount
    reads back from its decimal form. *)
Theorem edit_unchanged_is_noop (e : Txn) (clk : Clock) (l : list Txn) :
  (forall e', In e' l -> id e' = id e -> e' = e) ->
  Plain.saveEdit (fst (PlainForm.startEdit e)) (snd (PlainForm.startEdit e))
                 clk l
  = (l, None)
  /\ (forall n, amount e = ANum n -> bad_amount n = false ->
        date_gt (date e) (Some (today clk)) = false ->
        Checked.saveEdit (fst (CheckedCards.startEdit e))
                         (snd (CheckedCards.startEdit e)) clk l
        = (l, None)
        /\ (StringToNumber (num_toString n) = n ->
            MultiType.saveEdit (fst (MultiTypeCards.startEdit e))
                               (snd (MultiTypeCards.startEdit e)) clk l
            = (l, None))).
Proof.
  intros Huniq. split.
  - unfold Plain.saveEdit. simpl. f_equal. apply map_fixed.
    intros e' He'. destruct (Z.eqb_spec (id e') (id e)) as [E|_];
      [|reflexivity].
    rewrite (Huniq e' He' E). now destruct e.
  - intros n Ha Hn Hd. split.
    + unfold Checked.saveEdit. simpl. rewrite Ha. simpl. rewrite Hn, Hd.
      f_equal. apply map_fixed.
      intros e' He'. destruct (Z.eqb_spec (id e') (id e)) as [E|_];
        [|reflexivity].
      rewrite (Huniq e' He' E). unfold Checked.merge. simpl.
      destruct e; simpl in *. now subst.
    + intros Hrt. unfold MultiType.saveEdit. simpl. rewrite Ha. simpl.
      rewrite Hrt, Hn, Hd.
      f_equal. apply map_fixed.
      intros e' He'. destruct (Z.eqb_spec (id e') (id e)) as [E|_];
        [|reflexivity].
      rewrite (Huniq e' He' E). unfold MultiType.merge. simpl.
      destruct e; simpl in *. now subst.
Qed.

(** An update never adds, removes, moves or renumbers a record: the [id]s
    of the collection are the same list before and after, in the four
    iterations, whatever the patch. *)
Theorem update_keeps_ids (i : Z) (editForm : EditForm) (clk : Clock)
    (l : list Txn) :
  map id (fst (Plain.saveEdit i editForm clk l)) = map id l
  /\ map id (fst (Checked.saveEdit i editForm clk l)) = map id l
  /\ map id (fst (MultiType.saveEdit i editForm clk l)) = map id l
  /\ map id (fst (Budget.saveEdit i editForm clk l)) = map id l.
Proof.
  unfold Plain.saveEdit, Checked.saveEdit, MultiType.saveEdit,
    Budget.saveEdit.
  destruct (bad_amount _);
    [repeat split; try reflexivity; now apply map_id_patch|].
  destruct (date_gt _ _); repeat split; try reflexivity;
    now apply map_id_patch.
Qed.

Lemma filter_other_ids (i : Z) (l : list Txn) :
  ~ In i (map id l) -> filter (fun e => negb (id e =? i)%Z) l = l.
Proof.
  intros Hni. apply filter_all. intros e He.
  apply negb_true_iff, Z.eqb_neq. intros E. apply Hni.
  rewrite <- E. now apply in_map.
Qed.

(** Removing the [id] that an add has just stamped gives back the
    collection as it was before the add, when no record had that [id];
    this holds whether the add accepted the candidate or not. *)
Theorem add_then_remove_restores (f : Form) (clk : Clock) (l : list Txn) :
  ~ In (now clk) (map id l) ->
  Plain.deleteExpense (now clk) (fst (Plain.addExpense f clk l)) = l
  /\ Checked.deleteExpense (now clk) (fst (Checked.addExpense f clk l)) = l
  /\ MultiType.deleteExpense (now clk) (fst (MultiType.addExpense f clk l))
     = l
  /\ fst (Budget.deleteExpense true (now clk)
            (fst (Budget.addExpense f clk l))) = l.
Proof.
  intros Hni. pose proof (filter_other_ids (now clk) l Hni) as Hl.
  unfold Plain.deleteExpense, Checked.deleteExpense,
    MultiType.deleteExpense, Budget.deleteExpense,
    Plain.addExpense, Checked.addExpense, MultiType.addExpense,
    Budget.addExpense.
  destruct (missing_field f); [repeat split; exact Hl|].
  assert (Hsnoc : forall r, id r = now clk ->
            filter (fun e => negb (id e =? now clk)%Z) (l ++ [r]) = l).
  { intros r Hr. rewrite filter_app, Hl. simpl.
    rewrite Hr, Z.eqb_refl. simpl. apply app_nil_r. }
  split.
  { destruct (Js.truthy (finalCategory f)); simpl; [|exact Hl].
    now apply Hsnoc. }
  destruct (bad_amount _); [repeat split; exact Hl|].
  destruct (Js.str_gt _ _); [repeat split; exact Hl|].
  repeat split.
  - destruct (Js.truthy (finalCategory f)); simpl; [|exact Hl].
    now apply Hsnoc.
  - destruct (Js.truthy (finalCategory f)); simpl; [|exact Hl].
    now apply Hsnoc.
  - simpl. rewrite Z.eqb_refl. simpl. exact Hl.
Qed.

(** A removal changes the collection exactly when some record has the
    [id]; removing twice is removing once; two removals can be made in
    either order. *)
Theorem remove_absent_idempotent_commutes (i j : Z) (l : list Txn) :
  ((forall e, In e l -> id e <> i) <-> Checked.deleteExpense i l = l)
  /\ Checked.deleteExpense i (Checked.deleteExpense i l)
     = Checked.deleteExpense i l
  /\ Checked.deleteExpense i (Checked.deleteExpense j l)
     = Checked.deleteExpense j (Checked.deleteExpense i l).
Proof.
  unfold Checked.deleteExpense. split; [|split].
  - rewrite <- filter_all. split; intros Hf e He.
    + apply negb_true_iff, Z.eqb_neq. now apply Hf.
    + apply Z.eqb_neq, negb_true_iff. now apply Hf.
  - apply filter_idem.
  - induction l as [|e l IH]; simpl; [reflexivity|].
    destruct (id e =? j)%Z eqn:Ej, (id e =? i)%Z eqn:Ei; simpl;
      rewrite ?Ej, ?Ei; simpl; now rewrite IH.
Qed.

Lemma candidate_valid_later (f : Form) (clk clk' : Clock) :
  candidate_valid f clk = true ->
  String.leb (today clk) (today clk') = true ->
  candidate_valid f clk' = true.
Proof.
  unfold candidate_valid, date_in_future. intros Hv Hle.
  repeat (apply andb_true_iff in Hv; destruct Hv as [Hv ?]).
  repeat (apply andb_true_iff; split); auto.
  apply negb_true_iff. apply negb_true_iff in H1.
  exact (not_after_mono (Some (form_date f)) _ _ H1 Hle).
Qed.

Lemma Checked_add_grows_iff (f : Form) (clk : Clock) (l : list Txn) :
  candidate_valid f clk = true
  <-> List.length (fst (Checked.addExpense f clk l)) = S (List.length l).
Proof.
  unfold candidate_valid, date_in_future, Checked.addExpense.
  destruct (missing_field f); simpl; [split; [discriminate|lia]|].
  destruct (bad_amount _); simpl; [split; [discriminate|lia]|].
  destruct (Js.str_gt _ _); simpl; [split; [discriminate|lia]|].
  destruct (Js.truthy (finalCategory f)); simpl;
    [|split; [discriminate|lia]].
  rewrite length_app. simpl. split; [intros _; lia|reflexivity].
Qed.

(** The date check of add is strict and moves with the clock: a
    candidate dated on the current date is not in the future, and a
    candidate that add accepts on one day (it accepts those that pass
    every check, and adds one record) is accepted on every later day. *)
Theorem date_check_boundary (f : Form) (clk clk' : Clock)
    (l : list Txn) :
  (form_date f = today clk -> date_in_future f clk = false)
  /\ (candidate_valid f clk = true
      <-> List.length (fst (Checked.addExpense f clk l))
          = S (List.length l))
  /\ (String.leb (today clk) (today clk') = true ->
      List.length (fst (Checked.addExpense f clk l)) = S (List.length l) ->
      List.length (fst (Checked.addExpense f clk' l))
      = S (List.length l)).
Proof.
  split; [|split].
  - unfold date_in_future, Js.str_gt. intros ->. apply string_ltb_irrefl.
  - apply Checked_add_grows_iff.
  - intros Hle Hadd. apply Checked_add_grows_iff.
    apply candidate_valid_later with clk; [|exact Hle].
    now apply Checked_add_grows_iff in Hadd.
Qed.

Lemma untyped_id (e : Txn) : id (untyped e) = id e.
Proof. reflexivity. Qed.

Lemma filter_map_untyped (i : Z) (l : list Txn) :
  map untyped (filter (fun e => negb (id e =? i)%Z) l)
  = filter (fun e => negb (id e =? i)%Z) (map untyped l).
Proof.
  induction l as [|e l IH]; simpl; [reflexivity|].
  destruct (id e =? i)%Z; simpl; now rewrite IH.
Qed.

(** [MultiType] is [Checked] with a [type] on every record: the same
    operations, run on the same collection, reach collections that differ
    in the [type] of the records only. *)
Theorem MultiType_simulates_Checked (ops : list Op) (l : list Txn) :
  map untyped (MultiTypeRun.run ops l)
  = CheckedRun.run ops (map untyped l).
Proof.
  revert l. induction ops as [|op ops IH]; intros l; [reflexivity|].
  unfold MultiTypeRun.run, CheckedRun.run in *. simpl.
  rewrite IH. f_equal. clear IH.
  destruct op as [f clk|i ef clk|i|c]; simpl.
  - unfold MultiType.addExpense, Checked.addExpense.
    destruct (missing_field f); [reflexivity|].
    destruct (bad_amount _); [reflexivity|].
    destruct (Js.str_gt _ _); [reflexivity|].
    destruct (Js.truthy (finalCategory f)); [|reflexivity].
    simpl. now rewrite map_app.
  - unfold MultiType.saveEdit, Checked.saveEdit.
    destruct (bad_amount _); [reflexivity|].
    destruct (date_gt _ _); [reflexivity|].
    simpl. rewrite !map_map. apply map_ext. intros e.
    rewrite untyped_id. now destruct (id e =? i)%Z.
  - apply filter_map_untyped.
  - now destruct c.
Qed.

End StoreFacts.

(* ===================================================================== *)
(** * Further properties of the view *)
(* ===================================================================== *)

Section ViewFacts.
Context {H : Host}.

Lemma filter_true_id (A : Type) (l : list A) : filter (fun _ => true) l = l.
Proof. induction l; simpl; congruence. Qed.

Lemma filter_filter (A : Type) (f g : A -> bool) (l : list A) :
  filter g (filter f l) = filter (fun x => f x && g x) l.
Proof.
  induction l as [|x l IH]; simpl; [reflexivity|].
  destruct (f x); simpl; [destruct (g x)|]; now rewrite IH.
Qed.

Lemma stage_is_filter (A : Type) (c : bool) (f : A -> bool) (l : list A) :
  (if c then filter f l else l) = filter (fun x => negb c || f x) l.
Proof. destruct c; simpl; [reflexivity|now rewrite filter_true_id]. Qed.

Lemma Checked_filters (p : Params) (l : list Txn) :
  Checked.searchStage p (Checked.monthStage p l)
  = filter (fun e => month_ok p e && search_ok p e) l.
Proof.
  unfold Checked.searchStage, Checked.monthStage.
  now rewrite !stage_is_filter, filter_filter.
Qed.

Lemma MultiType_filters (p : Params) (l : list Txn) :
  MultiType.searchStage p
    (MultiType.typeStage p (MultiType.monthStage p l))
  = filter (fun e => month_ok p e && type_ok p e && search_ok p e) l.
Proof. apply MultiType_filters_fuse. Qed.

Lemma Budget_filters (p : Params) (l : list Txn) :
  Budget.searchStage p (Budget.monthStage p l)
  = filter (fun e => Budget_month_ok p e && Budget_search_ok p e) l.
Proof.
  unfold Budget.searchStage, Budget.monthStage.
  now rewrite !stage_is_filter, filter_filter.
Qed.

Lemma Checked_view_filters (p : Params) (l : list Txn) :
  Checked.view p l
  = Checked.sortStage p (filter (fun e => month_ok p e && search_ok p e) l).
Proof. now rewrite <- Checked_filters. Qed.

Lemma MultiType_view_filters (p : Params) (l : list Txn) :
  MultiType.view p l
  = MultiType.sortStage p
      (filter (fun e => month_ok p e && type_ok p e && search_ok p e) l).
Proof. now rewrite <- MultiType_filters. Qed.

(** The view holds the records of the collection that pass the tests that
    are switched on, each as often as the collection holds it, and no
    other record; without a sort field they are in the order of the
    collection.  This holds in the four iterations, also with the
    comparator of [Plain]. *)
Theorem view_keeps_matching (p : Params) (l : list Txn) :
  let kept := filter (fun e => month_ok p e && search_ok p e) l in
  let kept_typed :=
    filter (fun e => month_ok p e && type_ok p e && search_ok p e) l in
  Permutation (Plain.view p l) kept
  /\ Permutation (Checked.view p l) kept
  /\ Permutation (MultiType.view p l) kept_typed
  /\ Permutation (Budget.filteredExpenses p l)
       (filter (fun e => Budget_month_ok p e && Budget_search_ok p e) l)
  /\ (Js.truthy (sortBy p) = false ->
      Plain.view p l = kept /\ Checked.view p l = kept
      /\ MultiType.view p l = kept_typed).
Proof.
  intros kept kept_typed.
  assert (HP : Plain.view p l = Plain.sortStage p kept).
  { unfold kept. rewrite <- Checked_filters. reflexivity. }
  assert (HC : Checked.view p l = Checked.sortStage p kept).
  { apply Checked_view_filters. }
  assert (HM : MultiType.view p l = MultiType.sortStage p kept_typed).
  { apply MultiType_view_filters. }
  assert (HB : Budget.filteredExpenses p l
               = Budget.sortStage p
                   (filter (fun e => Budget_month_ok p e
                                     && Budget_search_ok p e) l)).
  { rewrite <- Budget_filters. reflexivity. }
  rewrite HP, HC, HM, HB.
  unfold Plain.sortStage, Checked.sortStage, MultiType.sortStage,
    Budget.sortStage.
  repeat split.
  - destruct (Js.truthy (sortBy p)); [apply sort_perm|reflexivity].
  - destruct (Js.truthy (sortBy p)); [apply sort_perm|reflexivity].
  - destruct (Js.truthy (sortBy p)); [apply sort_perm|reflexivity].
  - apply sort_perm.
  - now rewrite H0.
  - now rewrite H0.
  - now rewrite H0.
Qed.

(** *** The search *)

Lemma prefix_app (q s : string) :
  String.prefix q s = true <-> exists b, s = String.append q b.
Proof.
  revert s. induction q as [|c q IH]; intros s.
  - destruct s; simpl; split; eauto.
  - destruct s as [|d s]; simpl.
    + split; [discriminate|]. intros (b & E). discriminate.
    + destruct (Ascii.ascii_dec c d) as [->|Hne].
      * rewrite IH. split; intros (b & E); exists b; congruence.
      * split; [discriminate|]. intros (b & E). congruence.
Qed.

(** [s.includes(q)] holds when [q] is a part of [s] in one piece. *)
Lemma includes_app (s q : string) :
  Js.includes s q = true
  <-> exists a b, s = String.append a (String.append q b).
Proof.
  induction s as [|c s IH].
  - change (Js.includes "" q) with (String.prefix q "" || false).
    rewrite orb_false_r, prefix_app. split.
    + intros (b & E). exists ""%string, b. exact E.
    + intros (a & b & E). destruct a; simpl in E.
      * now exists b.
      * discriminate.
  - change (Js.includes (String c s) q)
      with (String.prefix q (String c s) || Js.includes s q).
    rewrite orb_true_iff, IH, prefix_app. split.
    + intros [(b & E)|(a & b & E)].
      * exists ""%string, b. exact E.
      * exists (String c a), b. simpl. now rewrite E.
    + intros ([|d a] & b & E); simpl in E.
      * left. now exists b.
      * right. exists a, b. congruence.
Qed.

(** With a search text that is not blank, the search keeps the records
    whose title, in lower case, has the search text, in lower case, as a
    part in one piece, and only those; [Plain] and [MultiType] search as
    [Checked] does. *)
Theorem search_keeps_titles_with_text (p : Params) (l : list Txn)
    (e : Txn) :
  Js.truthy (Js.trim (search p)) = true ->
  (In e (Checked.searchStage p l)
   <-> In e l
       /\ exists a b,
            Js.toLowerCase (title e)
            = String.append a
                (String.append (Js.toLowerCase (search p)) b))
  /\ Plain.searchStage p l = Checked.searchStage p l
  /\ MultiType.searchStage p l = Checked.searchStage p l.
Proof.
  intros Hs. split; [|split; reflexivity].
  unfold Checked.searchStage. rewrite Hs, filter_In.
  unfold title_matches. now rewrite includes_app.
Qed.

Lemma lower_char_idem (c : ascii) :
  Js.lower_char (Js.lower_char c) = Js.lower_char c.
Proof. destruct c as [[] [] [] [] [] [] [] []]; reflexivity. Qed.

Lemma lower_char_space (c : ascii) :
  Js.is_space (Js.lower_char c) = Js.is_space c.
Proof. destruct c as [[] [] [] [] [] [] [] []]; reflexivity. Qed.

Lemma toLowerCase_idem (s : string) :
  Js.toLowerCase (Js.toLowerCase s) = Js.toLowerCase s.
Proof.
  induction s as [|c s IH]; simpl; [reflexivity|].
  now rewrite lower_char_idem, IH.
Qed.

Lemma all_space_lower (s : string) :
  all_space (Js.toLowerCase s) = all_space s.
Proof.
  unfold all_space. induction s as [|c s IH]; simpl; [reflexivity|].
  now rewrite lower_char_space, IH.
Qed.

Lemma trimStart_all_space (s : string) :
  all_space s = true -> Js.trimStart s = ""%string.
Proof.
  unfold all_space. induction s as [|c s IH]; simpl; [reflexivity|].
  intros Hs. apply andb_true_iff in Hs. destruct Hs as [Hc Hs].
  rewrite Hc. now apply IH.
Qed.

Lemma trimStart_not_all_space (s : string) :
  all_space s = false -> all_space (Js.trimStart s) = false.
Proof.
  unfold all_space. induction s as [|c s IH]; simpl; [discriminate|].
  destruct (Js.is_space c) eqn:Hc; simpl; [exact IH|].
  intros _. now rewrite Hc.
Qed.

Lemma all_space_rev (s : string) :
  all_space (Js.rev_string s) = all_space s.
Proof.
  unfold all_space, Js.rev_string.
  rewrite list_ascii_of_string_of_list_ascii.
  generalize (list_ascii_of_string s). intros l.
  induction l as [|c l IH]; simpl; [reflexivity|].
  rewrite forallb_app, IH. simpl. rewrite andb_true_r. apply andb_comm.
Qed.

Lemma all_space_empty (s : string) :
  all_space s = false -> Js.truthy s = true.
Proof. destruct s; [discriminate|reflexivity]. Qed.

(** [s.trim()] is empty exactly when every character of [s] is white
    space. *)
Lemma trim_truthy (s : string) :
  Js.truthy (Js.trim s) = negb (all_space s).
Proof.
  unfold Js.trim. destruct (all_space s) eqn:Hs; simpl.
  - rewrite (trimStart_all_space s Hs). reflexivity.
  - apply all_space_empty. rewrite all_space_rev.
    apply trimStart_not_all_space. rewrite all_space_rev.
    now apply trimStart_not_all_space.
Qed.

Lemma with_search_lower (p : Params) :
  Js.truthy (Js.trim (search (with_search (Js.toLowerCase (search p)) p)))
  = Js.truthy (Js.trim (search p))
  /\ Js.toLowerCase (search (with_search (Js.toLowerCase (search p)) p))
     = Js.toLowerCase (search p).
Proof.
  simpl. split.
  - now rewrite !trim_truthy, all_space_lower.
  - apply toLowerCase_idem.
Qed.

(** The search does not tell capital letters from small ones in the search
    text: the text in lower case gives the same view, in the four
    iterations. *)
Theorem search_ignores_case_of_text (p : Params) (l : list Txn) :
  let p' := with_search (Js.toLowerCase (search p)) p in
  Plain.view p' l = Plain.view p l
  /\ Checked.view p' l = Checked.view p l
  /\ MultiType.view p' l = MultiType.view p l
  /\ Budget.filteredExpenses p' l = Budget.filteredExpenses p l.
Proof.
  intros p'. destruct (with_search_lower p) as [Ht Hl].
  unfold Plain.view, Checked.view, MultiType.view,
    Budget.filteredExpenses.
  subst p'. rewrite Ht, Hl. repeat split; reflexivity.
Qed.

End ViewFacts.

Section SortedView.
Context {H : Host} {HL : HostLaws H}.

Lemma key_lt_asym (p : Params) (a b : Txn) :
  key_lt p a b = true -> key_lt p b a = false.
Proof.
  intros Hab. destruct (key_lt p b a) eqn:Hba; [|reflexivity].
  rewrite <- (key_lt_irrefl p a). symmetry.
  now apply key_lt_trans with b.
Qed.

Lemma Checked_compare_in_order (p : Params) (a b : Txn) :
  sgn (Checked.compare p a b) <> Gt <-> in_order p a b = true.
Proof.
  rewrite <- Checked_compare_three_way.
  unfold three_way, direction, in_order.
  destruct (String.eqb (sortDir p) "asc").
  - destruct (key_lt p a b) eqn:Hab.
    + rewrite (key_lt_asym p a b Hab). simpl. split; [auto|discriminate].
    + destruct (key_lt p b a); simpl; split; congruence.
  - destruct (key_lt p a b) eqn:Hab; simpl.
    + split; congruence.
    + destruct (key_lt p b a); simpl; split; auto; discriminate.
Qed.

Lemma Checked_compare_ties (p : Params) (a e : Txn) :
  JsArray.ties (fun a b => sgn (Checked.compare p a b)) a e
  = same_key p a e.
Proof.
  unfold JsArray.ties. rewrite <- Checked_compare_three_way.
  unfold three_way, direction, same_key.
  destruct (key_lt p a e) eqn:Hae.
  - now destruct (String.eqb (sortDir p) "asc").
  - destruct (key_lt p e a); destruct (String.eqb (sortDir p) "asc");
      reflexivity.
Qed.

Lemma StronglySorted_iff (A : Type) (R S : A -> A -> Prop) (l : list A) :
  (forall a b, R a b <-> S a b) ->
  StronglySorted R l -> StronglySorted S l.
Proof.
  intros HRS. induction 1 as [|a l Hs IH Ha]; constructor; auto.
  rewrite Forall_forall in *. intros b Hb. apply HRS. now apply Ha.
Qed.

Lemma Checked_sorted_stable (p : Params) (l : list Txn) :
  Js.truthy (sortBy p) = true -> Forall (sortable p) l ->
  StronglySorted (fun a b => in_order p a b = true) (Checked.sortStage p l)
  /\ forall a, sortable p a ->
       filter (same_key p a) (Checked.sortStage p l)
       = filter (same_key p a) l.
Proof.
  intros Hs HP. split.
  - unfold Checked.sortStage. rewrite Hs.
    apply StronglySorted_iff
      with (R := fun a b => sgn (Checked.compare p a b) <> Gt).
    + apply Checked_compare_in_order.
    + apply sort_ascending with (P := sortable p); auto.
      apply Checked_compare_consistent.
  - intros a Pa.
    rewrite <- !(filter_ext _ _ (Checked_compare_ties p a)).
    now apply Checked_sort_stable.
Qed.

(** With a sort field, and on records that all have a date (for a sort by
    date) or a number for an amount (for a sort by amount), the views of
    [Checked] and [MultiType] are in the order of the key, ascending or
    descending as chosen, and the records with the same key are in the
    order in which the collection has them. *)
Theorem sorted_view_in_order_and_stable (p : Params) (l : list Txn) :
  Js.truthy (sortBy p) = true -> Forall (sortable p) l ->
  StronglySorted (fun a b => in_order p a b = true) (Checked.view p l)
  /\ StronglySorted (fun a b => in_order p a b = true) (MultiType.view p l)
  /\ (forall a, sortable p a ->
        filter (same_key p a) (Checked.view p l)
        = filter (same_key p a)
            (filter (fun e => month_ok p e && search_ok p e) l))
  /\ (forall a, sortable p a ->
        filter (same_key p a) (MultiType.view p l)
        = filter (same_key p a)
            (filter (fun e => month_ok p e && type_ok p e
                              && search_ok p e) l)).
Proof.
  intros Hs HP.
  rewrite Checked_view_filters, MultiType_view_filters.
  change (MultiType.sortStage p) with (Checked.sortStage p).
  assert (HF : forall f, Forall (sortable p) (filter f l)).
  { intros f. now apply Forall_filter. }
  destruct (Checked_sorted_stable p _ Hs (HF (fun e => month_ok p e
                                               && search_ok p e)))
    as [S1 T1].
  destruct (Checked_sorted_stable p _ Hs
              (HF (fun e => month_ok p e && type_ok p e && search_ok p e)))
    as [S2 T2].
  repeat split; assumption.
Qed.

End SortedView.

(* ===================================================================== *)
(** * The load, the cards and the charts *)
(* ===================================================================== *)

Section LoadFacts.
Context {H : Host}.

Lemma insert_map (A B : Type) (f : A -> B)
    (cmpA : A -> A -> comparison) (cmpB : B -> B -> comparison) :
  (forall a b, cmpB (f a) (f b) = cmpA a b) ->
  forall x l,
    JsArray.insert cmpB (f x) (map f l) = map f (JsArray.insert cmpA x l).
Proof.
  intros Hc x l. induction l as [|y l IH]; simpl; [reflexivity|].
  rewrite Hc. destruct (cmpA x y); simpl; try reflexivity;
    now rewrite IH.
Qed.

Lemma sort_map (A B : Type) (f : A -> B)
    (cmpA : A -> A -> comparison) (cmpB : B -> B -> comparison) :
  (forall a b, cmpB (f a) (f b) = cmpA a b) ->
  forall l, JsArray.sort cmpB (map f l) = map f (JsArray.sort cmpA l).
Proof.
  intros Hc l. unfold JsArray.sort.
  change (@nil B) with (map f []). generalize (@nil A).
  induction l as [|x l IH]; intros acc; simpl; [reflexivity|].
  rewrite (insert_map A B f cmpA cmpB Hc). apply IH.
Qed.

Lemma filter_map_same (A : Type) (f : A -> A) (t : A -> bool)
    (l : list A) :
  (forall a, t (f a) = t a) -> filter t (map f l) = map f (filter t l).
Proof.
  intros Ht. induction l as [|a l IH]; simpl; [reflexivity|].
  rewrite Ht. destruct (t a); simpl; now rewrite IH.
Qed.

Lemma typed_is_expense (e : Txn) :
  MultiType.is_expense (MultiTypeCards.typed e) = MultiType.is_expense e.
Proof.
  unfold MultiType.is_expense, MultiTypeCards.typed,
    MultiTypeCards.type_or_expense. simpl.
  destruct (type e) as [t|]; [|reflexivity].
  destruct (Js.truthy t) eqn:Ht; simpl; rewrite ?Ht; [reflexivity|].
  now rewrite orb_true_r.
Qed.

Lemma typed_has_expense (e : Txn) :
  MultiType.has_type "expense" (MultiTypeCards.typed e)
  = MultiType.is_expense e.
Proof.
  unfold MultiType.has_type, MultiType.is_expense, MultiTypeCards.typed,
    MultiTypeCards.type_or_expense. simpl.
  destruct (type e) as [t|]; [|reflexivity].
  unfold Js.truthy. destruct (String.eqb_spec t "") as [->|Hne]; simpl.
  - reflexivity.
  - now rewrite orb_false_r.
Qed.

Lemma typed_has_type (t : string) (e : Txn) :
  String.eqb t "expense" = false -> Js.truthy t = true ->
  MultiType.has_type t (MultiTypeCards.typed e) = MultiType.has_type t e.
Proof.
  intros Ht Hn.
  unfold MultiType.has_type, MultiTypeCards.typed,
    MultiTypeCards.type_or_expense, Js.opt_str_eqb, Js.truthy.
  cbn [type].
  destruct (type e) as [t'|].
  - destruct (String.eqb_spec t' "") as [->|Hne]; cbn [negb].
    + rewrite (String.eqb_sym "expense" t), Ht.
      destruct t; [discriminate|reflexivity].
    + reflexivity.
  - now rewrite (String.eqb_sym "expense" t).
Qed.

Lemma typed_type_ok (p : Params) (e : Txn) :
  type_ok p (MultiTypeCards.typed e) = type_ok p e.
Proof.
  unfold type_ok. rewrite typed_is_expense.
  now rewrite (typed_has_type "income" e eq_refl eq_refl).
Qed.

Lemma typed_idem (e : Txn) :
  MultiTypeCards.typed (MultiTypeCards.typed e) = MultiTypeCards.typed e.
Proof.
  unfold MultiTypeCards.typed, MultiTypeCards.type_or_expense. simpl.
  destruct (type e) as [t|]; [|reflexivity].
  destruct (Js.truthy t) eqn:Ht; [now rewrite Ht|reflexivity].
Qed.

Lemma typed_truthy (e : Txn) :
  Js.truthy (MultiTypeCards.type_or_expense e) = true.
Proof.
  unfold MultiTypeCards.type_or_expense.
  destruct (type e) as [t|]; [|reflexivity].
  destruct (Js.truthy t) eqn:Ht; [exact Ht|reflexivity].
Qed.

(** The load of [MultiType] gives every record a [type] that is not
    empty, ["expense"] where there was none, and changes nothing else;
    loading what was loaded changes nothing.  After it the test
    [type === "expense"] selects the records that the looser test of the
    cards selects, and the view of the loaded collection is the load of
    the view: the filters and the sort do not see the difference. *)
Theorem load_fills_in_type (l : list Txn) (p : Params) :
  MultiTypeCards.load None = []
  /\ Forall (fun e => exists t, type e = Some t /\ Js.truthy t = true)
       (MultiTypeCards.load (Some l))
  /\ MultiTypeCards.load (Some (MultiTypeCards.load (Some l)))
     = MultiTypeCards.load (Some l)
  /\ map untyped (MultiTypeCards.load (Some l)) = map untyped l
  /\ MultiTypeCards.expenseView (MultiTypeCards.load (Some l))
     = filter (MultiType.has_type "expense") (MultiTypeCards.load (Some l))
  /\ MultiType.view p (MultiTypeCards.load (Some l))
     = MultiTypeCards.load (Some (MultiType.view p l)).
Proof.
  unfold MultiTypeCards.load. simpl.
  split; [reflexivity|]. split; [|split; [|split; [|split]]].
  - apply Forall_forall. intros e He. apply in_map_iff in He.
    destruct He as (e0 & <- & _).
    exists (MultiTypeCards.type_or_expense e0).
    split; [reflexivity|apply typed_truthy].
  - rewrite map_map. apply map_ext. apply typed_idem.
  - rewrite map_map. apply map_ext. reflexivity.
  - unfold MultiTypeCards.expenseView.
    induction l as [|e l IH]; simpl; [reflexivity|].
    rewrite typed_has_expense, typed_is_expense.
    destruct (MultiType.is_expense e); now rewrite IH.
  - rewrite !MultiType_view_filters.
    rewrite filter_map_same.
    + unfold MultiType.sortStage.
      destruct (Js.truthy (sortBy p)); [|reflexivity].
      apply sort_map. reflexivity.
    + intros e. rewrite typed_type_ok. reflexivity.
Qed.

Lemma filter_kept (A : Type) (f g : A -> bool) (l : list A) :
  (forall x, g x = true -> f x = true) ->
  filter g (filter f l) = filter g l.
Proof.
  intros Hfg. induction l as [|x l IH]; simpl; [reflexivity|].
  destruct (g x) eqn:Hg.
  - rewrite (Hfg x Hg). simpl. now rewrite Hg, IH.
  - destruct (f x); simpl; [now rewrite Hg|exact IH].
Qed.

Lemma type_tests_exclusive (e : Txn) :
  (MultiType.is_expense e = true
   /\ MultiType.has_type "income" e = false
   /\ MultiType.has_type "investment" e = false)
  \/ (MultiType.is_expense e = false
      /\ MultiType.has_type "income" e = true
      /\ MultiType.has_type "investment" e = false)
  \/ (MultiType.is_expense e = false
      /\ MultiType.has_type "income" e = false
      /\ MultiType.has_type "investment" e = true)
  \/ (MultiType.is_expense e = false
      /\ MultiType.has_type "income" e = false
      /\ MultiType.has_type "investment" e = false).
Proof.
  unfold MultiType.is_expense, MultiType.has_type, Js.opt_str_eqb,
    Js.truthy.
  destruct (type e) as [t|]; [|left; auto].
  destruct (String.eqb_spec t "expense") as [->|He]; [left; auto|].
  destruct (String.eqb_spec t "") as [->|Hn]; [left; auto|].
  destruct (String.eqb_spec t "income") as [->|Hi];
    [right; left; auto|].
  destruct (String.eqb_spec t "investment") as [->|Hv];
    [right; right; left; auto|].
  right; right; right; auto.
Qed.

(** The three cards of [MultiType] split the view: every record of the
    view is in exactly one of [expenseView], [incomeView],
    [investmentView] and the records of another type, which no card
    counts.  The balance and the pie chart are those of the view without
    the records of another type, and the pie chart leaves out the income
    as well. *)
Theorem cards_split_view (view : list Txn) :
  Permutation view
    (MultiTypeCards.expenseView view ++ MultiTypeCards.incomeView view
     ++ MultiTypeCards.investmentView view
     ++ filter MultiTypeCards.other_type view)
  /\ MultiTypeCards.netBalance
       (filter (fun e => negb (MultiTypeCards.other_type e)) view)
     = MultiTypeCards.netBalance view
  /\ MultiTypeCards.pieData
       (filter (fun e => negb (MultiTypeCards.other_type e)
                         && negb (MultiType.has_type "income" e)) view)
     = MultiTypeCards.pieData view.
Proof.
  split; [|split].
  - unfold MultiTypeCards.expenseView, MultiTypeCards.incomeView,
      MultiTypeCards.investmentView.
    induction view as [|e l IH]; simpl; [constructor|].
    unfold MultiTypeCards.other_type at 1.
    destruct (type_tests_exclusive e)
      as [(-> & -> & ->)|[(-> & -> & ->)|[(-> & -> & ->)|(-> & -> & ->)]]];
      simpl.
    + now constructor.
    + now apply Permutation_cons_app.
    + rewrite app_assoc. apply Permutation_cons_app.
      now rewrite <- app_assoc.
    + rewrite !app_assoc. apply Permutation_cons_app.
      now rewrite <- !app_assoc.
  - unfold MultiTypeCards.netBalance, MultiTypeCards.totalIncome,
      MultiTypeCards.totalExpenses, MultiTypeCards.totalInvestment,
      MultiTypeCards.expenseView, MultiTypeCards.incomeView,
      MultiTypeCards.investmentView.
    rewrite !filter_kept; [reflexivity| | |]; intros e;
      unfold MultiTypeCards.other_type;
      destruct (type_tests_exclusive e)
        as [(-> & -> & ->)|[(-> & -> & ->)|[(-> & -> & ->)|(-> & -> & ->)]]];
      auto.
  - unfold MultiTypeCards.pieData, MultiTypeCards.expenseView,
      MultiTypeCards.investmentView.
    rewrite !filter_kept; [reflexivity| |]; intros e;
      unfold MultiTypeCards.other_type;
      destruct (type_tests_exclusive e)
        as [(-> & -> & ->)|[(-> & -> & ->)|[(-> & -> & ->)|(-> & -> & ->)]]];
      auto.
Qed.

End LoadFacts.

Section ChartFacts.
Context {H : Host}.

Lemma existsb_keys_get (V : Type) (k : string) (o : JsObject.t V) :
  existsb (String.eqb k) (JsObject.keys o)
  = match JsObject.get k o with Some _ => true | None => false end.
Proof.
  induction o as [|[k' v] o IH]; simpl; [reflexivity|].
  rewrite (String.eqb_sym k k').
  destruct (String.eqb k' k); simpl; [reflexivity|exact IH].
Qed.

Lemma place_last (V : Type) (k : string) (v : V) (o : JsObject.t V) :
  JsObject.array_index k = None ->
  JsObject.place k v o = o ++ [(k, v)].
Proof.
  intros Hk. induction o as [|[k' v'] o IH]; simpl; [reflexivity|].
  unfold JsObject.goes_before. rewrite Hk. now rewrite IH.
Qed.

Lemma keys_set_last (V : Type) (k : string) (v : V) (o : JsObject.t V) :
  JsObject.array_index k = None ->
  JsObject.keys (JsObject.set k v o)
  = if existsb (String.eqb k) (JsObject.keys o) then JsObject.keys o
    else JsObject.keys o ++ [k].
Proof.
  intros Hk. rewrite existsb_keys_get. unfold JsObject.set.
  destruct (JsObject.get k o).
  - apply keys_replace.
  - rewrite place_last by exact Hk. unfold JsObject.keys.
    now rewrite map_app.
Qed.

Lemma ordinary_not_index (k : string) :
  ordinary_key k = true -> JsObject.array_index k = None.
Proof.
  unfold ordinary_key. destruct (JsObject.array_index k);
    [discriminate|reflexivity].
Qed.

Lemma tally_keys_from (key : Txn -> option string) (l : list Txn) :
  forall o : JsObject.t num,
  (forall e k, In e l -> key e = Some k -> ordinary_key k = true) ->
  JsObject.keys
    (fold_left
       (fun acc e =>
          match key e with
          | Some k => Budget.bump k (Number (amount e)) acc
          | None => acc
          end) l o)
  = fold_left
      (fun acc k => if existsb (String.eqb k) acc then acc else acc ++ [k])
      (keys_of key l) (JsObject.keys o).
Proof.
  induction l as [|e l IH]; intros o Hk; simpl; [reflexivity|].
  rewrite IH by (intros e' k He'; apply Hk; now right).
  destruct (key e) as [k|] eqn:Ek; simpl; [|reflexivity].
  unfold Budget.bump. rewrite keys_set_last; [reflexivity|].
  apply ordinary_not_index. apply (Hk e k); [now left|exact Ek].
Qed.

Lemma tally_get_from (key : Txn -> option string) (l : list Txn) :
  forall (o : JsObject.t num) (k : string),
  JsObject.get k
    (fold_left
       (fun acc e =>
          match key e with
          | Some k => Budget.bump k (Number (amount e)) acc
          | None => acc
          end) l o)
  = fold_left
      (fun (s : option num) e =>
         Some (num_add (Budget.or_zero s) (Number (amount e))))
      (filter (fun e => Js.opt_str_eqb (key e) k) l) (JsObject.get k o).
Proof.
  induction l as [|e l IH]; intros o k; simpl; [reflexivity|].
  rewrite IH. destruct (key e) as [k0|]; simpl; [|reflexivity].
  unfold Budget.bump. rewrite get_set.
  destruct (String.eqb_spec k0 k) as [->|Hne]; reflexivity.
Qed.

Lemma tally_NoDup_from (key : Txn -> option string) (l : list Txn) :
  forall o : JsObject.t num,
  NoDup (JsObject.keys o) ->
  NoDup
    (JsObject.keys
       (fold_left
          (fun acc e =>
             match key e with
             | Some k => Budget.bump k (Number (amount e)) acc
             | None => acc
             end) l o)).
Proof.
  induction l as [|e l IH]; intros o Hn; simpl; [exact Hn|].
  apply IH. destruct (key e); [|exact Hn].
  unfold Budget.bump. now apply NoDup_keys_set.
Qed.

(** What a tally holds: its keys are the keys of the records, each once,
    in the order in which they first occur, and under each key the
    running total of the amounts of the records of that key. *)
Lemma tally_first_seen (key : Txn -> option string) (l : list Txn) :
  (forall e k, In e l -> key e = Some k -> ordinary_key k = true) ->
  map fst (JsObject.entries (tally key l)) = first_seen (keys_of key l)
  /\ forall k v,
       In (k, v) (JsObject.entries (tally key l))
       <-> running_total (filter (fun e => Js.opt_str_eqb (key e) k) l)
           = Some v.
Proof.
  intros Hk. split.
  - apply (tally_keys_from key l [] Hk).
  - intros k v. unfold JsObject.entries.
    rewrite (In_get _ k v (tally key l)
               (tally_NoDup_from key l [] (NoDup_nil _))).
    unfold tally. rewrite tally_get_from. reflexivity.
Qed.

Lemma keys_of_Some (f : Txn -> string) (l : list Txn) :
  keys_of (fun e => Some (f e)) l = map f l.
Proof. induction l as [|e l IH]; simpl; [reflexivity|now rewrite IH]. Qed.

(** The pie chart of [Checked] (and of [Plain], whose text is the same)
    has one slice for each category of the view, in the order in which
    the categories first occur in the view, and the value of a slice is
    the running total of the amounts of the records of its category.
    This is for categories that are neither an array index nor a name
    that objects inherit. *)
Theorem pie_slices_by_category (view : list Txn) :
  Forall (fun e => ordinary_key (category e) = true) view ->
  map fst (CheckedCards.pieData view) = first_seen (map category view)
  /\ forall k v,
       In (k, v) (CheckedCards.pieData view)
       <-> running_total
             (filter (fun e => String.eqb (category e) k) view)
           = Some v.
Proof.
  intros Hk.
  destruct (tally_first_seen (fun e => Some (category e)) view) as [K V].
  { intros e k He E. injection E as <-.
    rewrite Forall_forall in Hk. now apply Hk. }
  rewrite keys_of_Some in K. split; [exact K|exact V].
Qed.

(** The bar chart of [Checked] (and of [Plain]) has one bar for each
    month key of the view, in the order in which the months first occur
    in the view, not in the order of the calendar; the total of a bar is
    the running total of the amounts of the records of its month, and the
    records without a month key are in no bar. *)
Theorem bars_in_order_of_first_record (view : list Txn) :
  Forall (fun e => forall m, month_key e = Some m -> ordinary_key m = true)
         view ->
  map fst (CheckedCards.barData view) = first_seen (keys_of month_key view)
  /\ forall k v,
       In (k, v) (CheckedCards.barData view)
       <-> running_total
             (filter (fun e => Js.opt_str_eqb (month_key e) k) view)
           = Some v.
Proof.
  intros Hk. apply (tally_first_seen month_key view).
  intros e k He E. rewrite Forall_forall in Hk. now apply (Hk e He).
Qed.

End ChartFacts.

Section Insight.
Context {H : Host} {HL : HostLaws H}.

Lemma top_fold (A : Type) (value : A -> num) (rest : list A) :
  forall (seen pre : list A) (max : A) (post : list A),
  seen = pre ++ max :: post ->
  Forall (fun x => num_gtb (value x) (value max) = false) seen ->
  (Forall (fun x => num_isNaN (value x) = false) seen ->
   Forall (fun x => num_ltb (value x) (value max) = true) pre) ->
  let top :=
    fold_left
      (fun max item =>
         if num_gtb (value item) (value max) then item else max)
      rest max in
  exists pre' post',
    seen ++ rest = pre' ++ top :: post'
    /\ Forall (fun x => num_gtb (value x) (value top) = false)
              (seen ++ rest)
    /\ (Forall (fun x => num_isNaN (value x) = false) (seen ++ rest) ->
        Forall (fun x => num_ltb (value x) (value top) = true) pre').
Proof.
  induction rest as [|item rest IH]; intros seen pre max post Es Hle Hlt;
    simpl.
  - exists pre, post. rewrite !app_nil_r. auto.
  - replace (seen ++ item :: rest) with ((seen ++ [item]) ++ rest)
      by (now rewrite <- app_assoc).
    destruct (num_gtb (value item) (value max)) eqn:Hgt.
    + unfold num_gtb in Hgt. apply (IH (seen ++ [item]) seen item []).
      * reflexivity.
      * apply Forall_app. split.
        -- rewrite Forall_forall in *. intros x Hx. unfold num_gtb.
           destruct (num_ltb (value item) (value x)) eqn:Hix;
             [|reflexivity].
           rewrite <- (Hle x Hx). unfold num_gtb. symmetry.
           now apply ltb_trans with (value item).
        -- constructor; [|constructor]. unfold num_gtb. apply ltb_irrefl.
      * intros Hnn. apply Forall_app in Hnn. destruct Hnn as [Hnn _].
        rewrite Forall_forall in *. intros x Hx.
        destruct (ltb_negtrans (value max) (value x) (value item)
                    (Hnn x Hx) Hgt) as [Hmx|Hxi]; [|exact Hxi].
        specialize (Hle x Hx). unfold num_gtb in Hle. congruence.
    + apply (IH (seen ++ [item]) pre max (post ++ [item])).
      * rewrite Es, <- app_assoc. reflexivity.
      * apply Forall_app. split; [exact Hle|]. now constructor.
      * intros Hnn. apply Hlt. now apply Forall_app in Hnn.
Qed.

(** [getTopSpendingCategory] gives nothing for an empty chart only;
    otherwise it gives a slice of the chart that no slice is above, and,
    when no value is NaN, the first such slice: every slice before it is
    below it. *)
Theorem top_category_is_first_largest (A : Type) (value : A -> num)
    (pieData : list A) :
  (BudgetInsights.getTopSpendingCategory value pieData = None
   <-> pieData = [])
  /\ forall top,
       BudgetInsights.getTopSpendingCategory value pieData = Some top ->
       exists pre post,
         pieData = pre ++ top :: post
         /\ Forall (fun x => num_gtb (value x) (value top) = false) pieData
         /\ (Forall (fun x => num_isNaN (value x) = false) pieData ->
             Forall (fun x => num_ltb (value x) (value top) = true) pre).
Proof.
  unfold BudgetInsights.getTopSpendingCategory.
  destruct pieData as [|first rest].
  - split; [tauto|discriminate].
  - split; [split; discriminate|].
    intros top E. injection E as E. simpl in E.
    assert (Hff : num_gtb (value first) (value first) = false)
      by apply ltb_irrefl.
    rewrite Hff in E.
    destruct (top_fold A value rest [first] [] first [] eq_refl)
      as (pre' & post' & E' & F & G).
    + constructor; [|constructor]. unfold num_gtb. apply ltb_irrefl.
    + intros _. constructor.
    + simpl in *. rewrite E in *. exists pre', post'. auto.
Qed.

Lemma sorted_app_all (A : Type) (R : A -> A -> Prop) (l1 l2 : list A) :
  StronglySorted R (l1 ++ l2) ->
  forall a b, In a l1 -> In b l2 -> R a b.
Proof.
  induction l1 as [|x l1 IH]; simpl; intros Hs a b Ha Hb; [tauto|].
  inversion Hs as [|? ? Hs' Hx]; subst.
  destruct Ha as [<-|Ha].
  - rewrite Forall_forall in Hx. apply Hx. apply in_or_app. now right.
  - now apply IH.
Qed.

(** In the weekly range the bar chart has twelve bars at most, and they
    are the weeks with the lowest keys: a week of the data that has no
    bar is not before any week that has one.  With more than twelve weeks
    the latest ones are left out. *)
Theorem weekly_bars_are_first_twelve (p : Params)
    (monthlyData weeklyData : JsObject.t num) :
  timeRange p = "weekly"%string ->
  (List.length (Budget.bar p monthlyData weeklyData)
   = Nat.min 12 (List.length weeklyData))
  /\ keys_ascending fst (Budget.bar p monthlyData weeklyData)
  /\ forall row,
       In row (JsObject.entries weeklyData) ->
       In row (Budget.bar p monthlyData weeklyData)
       \/ forall shown,
            In shown (Budget.bar p monthlyData weeklyData) ->
            num_sign (localeCompare (fst shown) (fst row)) <> Gt.
Proof.
  intros Ht.
  assert (Eb : Budget.bar p monthlyData weeklyData
               = firstn 12
                   (JsArray.sort
                      (fun a b : string * num =>
                         num_sign (localeCompare (fst a) (fst b)))
                      (JsObject.entries weeklyData))).
  { unfold Budget.bar. rewrite Ht. reflexivity. }
  rewrite Eb. clear Eb.
  set (all := JsArray.sort _ _).
  assert (Hp : Permutation all (JsObject.entries weeklyData))
    by apply sort_perm.
  assert (Hs : keys_ascending fst all) by apply (sorted_by_key _ fst).
  split; [|split].
  - rewrite length_firstn, (Permutation_length Hp). reflexivity.
  - unfold keys_ascending in *.
    rewrite <- (firstn_skipn 12 all) in Hs.
    clear Hp. revert Hs. generalize (firstn 12 all) (skipn 12 all).
    intros l1 l2. induction l1 as [|x l1 IH]; simpl; intros Hs.
    + constructor.
    + inversion Hs as [|? ? Hs' Hx]; subst. constructor; [auto|].
      apply Forall_app in Hx. tauto.
  - intros row Hr.
    apply (Permutation_in _ (Permutation_sym Hp)) in Hr.
    rewrite <- (firstn_skipn 12 all) in Hr.
    apply in_app_or in Hr. destruct Hr as [Hr|Hr]; [now left|].
    right. intros shown Hsh.
    unfold keys_ascending in Hs.
    rewrite <- (firstn_skipn 12 all) in Hs.
    exact (sorted_app_all _ _ _ _ Hs shown row Hsh Hr).
Qed.

End Insight.

Section ComputedFacts.
Context {H : Host}.

Lemma Budget_filtered_perm (p : Params) (l : list Txn) :
  Permutation (Budget.filteredExpenses p l)
    (filter (fun e => Budget_month_ok p e && Budget_search_ok p e) l).
Proof.
  change (Budget.filteredExpenses p l)
    with (Budget.sortStage p
            (Budget.searchStage p (Budget.monthStage p l))).
  rewrite Budget_filters. apply sort_perm.
Qed.

Lemma aggregate_Ok_iff (l : list Txn) :
  forall m0 w0,
  (exists m w,
     fold_left Budget.aggregate_step l (Budget.Ok (m0, w0))
     = Budget.Ok (m, w))
  <-> Forall (fun e => date e <> None
                       /\ num_isNaN (Date_parse (date e)) = false) l.
Proof.
  induction l as [|e l IH]; intros m0 w0; simpl.
  - split; [constructor|]. intros _. now exists m0, w0.
  - destruct (date e) as [d|] eqn:Hd.
    + destruct (num_isNaN (Date_parse (Some d))) eqn:Hn.
      * rewrite aggregate_Throw. split.
        -- intros (m & w & E). discriminate.
        -- intros Hf. inversion Hf as [|? ? [_ Hx] _]; subst.
           rewrite Hd in Hx. congruence.
      * rewrite IH. split.
        -- intros Hf. constructor; [|exact Hf].
           rewrite Hd. split; [discriminate|exact Hn].
        -- intros Hf. now inversion Hf.
    + rewrite aggregate_Throw. split.
      * intros (m & w & E). discriminate.
      * intros Hf. inversion Hf as [|? ? [Hx _] _]; subst.
        now rewrite Hd in Hx.
Qed.

(** The computed object of [Budget] is made exactly when every record of
    the collection has a date and the date of every record that passes
    the filters is one [Date] can read; otherwise the computation throws,
    whatever the filters, for a single record without a date. *)
Theorem computed_needs_every_date (p : Params) (expenses : list Txn) :
  (exists c, Budget.computed p expenses = Budget.Ok c)
  <-> Forall (fun e => date e <> None) expenses
      /\ Forall (fun e => num_isNaN (Date_parse (date e)) = false)
           (Budget.filteredExpenses p expenses).
Proof.
  unfold Budget.computed, Budget.aggregate.
  set (filtered := Budget.filteredExpenses p expenses).
  pose proof (aggregate_Ok_iff filtered [] []) as Hagg.
  assert (Hsub : forall e, In e filtered -> In e expenses).
  { intros e He.
    apply (Permutation_in _ (Budget_filtered_perm p expenses)) in He.
    apply filter_In in He. tauto. }
  assert (Hall :
    forallb (fun e => match date e with Some _ => true | None => false end)
            expenses = true
    <-> Forall (fun e => date e <> None) expenses).
  { rewrite forallb_forall, Forall_forall.
    split; intros Hf e He; specialize (Hf e He); destruct (date e);
      congruence. }
  split.
  - intros (c & E).
    destruct (fold_left Budget.aggregate_step filtered _) as [[m w]|]
      eqn:Ea; [|discriminate].
    destruct (forallb _ expenses) eqn:Hf; [|discriminate].
    split; [now apply Hall|].
    pose proof (proj1 Hagg (ex_intro _ m (ex_intro _ w eq_refl))) as Hok.
    rewrite Forall_forall in *.
    intros e He. now apply Hok.
  - intros [Hd Hp].
    assert (Hok : exists m w,
              fold_left Budget.aggregate_step filtered (Budget.Ok ([], []))
              = Budget.Ok (m, w)).
    { apply Hagg. rewrite Forall_forall in *. intros e He. split.
      - apply Hd. now apply Hsub.
      - now apply Hp. }
    destruct Hok as (m & w & ->).
    rewrite (proj2 Hall Hd). eauto.
Qed.

(** In [Budget], saving the edit form as [startEdit] filled it, for a
    record with a number above zero for an amount and a date that is not
    in the future, leaves the title, the amount, the date, the category,
    the type and the creation stamp of every record as they are: the
    records with the [id] get the time of the save as [updatedAt] and
    their notes, the empty string when they had none. *)
Theorem Budget_edit_unchanged_only_stamps (e : Txn) (n : num)
    (clk : Clock) (l : list Txn) :
  (forall e', In e' l -> id e' = id e -> e' = e) ->
  amount e = ANum n -> bad_amount n = false ->
  date_gt (date e) (Some (today clk)) = false ->
  Budget.saveEdit (fst (BudgetInsights.startEdit e))
                  (snd (BudgetInsights.startEdit e)) clk l
  = (map (fun e' =>
            if (id e' =? id e)%Z
            then {| id := id e'; title := title e'; amount := amount e';
                    date := date e'; category := category e';
                    type := type e';
                    notes := Some (edit_notes
                                     (snd (BudgetInsights.startEdit e')));
                    createdAt := createdAt e';
                    updatedAt := Some (isoStamp clk) |}
            else e') l,
     Some (Notify "Expense updated successfully!" "success")).
Proof.
  intros Huniq Ha Hn Hd. unfold Budget.saveEdit. simpl.
  rewrite Ha. simpl. rewrite Hn, Hd. f_equal.
  apply map_ext_in. intros e' He'.
  destruct (Z.eqb_spec (id e') (id e)) as [E|_]; [|reflexivity].
  rewrite (Huniq e' He' E). unfold Budget.merge. simpl.
  now rewrite Ha.
Qed.

End ComputedFacts.

(* ===================================================================== *)
(** * The month filter, the search of [Budget] and the import *)
(* ===================================================================== *)

Section FilterFacts.
Context {H : Host}.

Lemma split_before_dash (y r : string) :
  no_dash y = true ->
  Js.split "-" (String.append y (String "-" r)) = y :: Js.split "-" r.
Proof.
  unfold no_dash. induction y as [|c y IH]; simpl; intros Hy.
  - reflexivity.
  - apply andb_true_iff in Hy. destruct Hy as [Hc Hy].
    apply negb_true_iff in Hc. rewrite Hc, (IH Hy). reflexivity.
Qed.

Lemma append_dash_truthy (y r : string) :
  Js.truthy (String.append y (String "-" r)) = true.
Proof. destruct y; reflexivity. Qed.

Lemma month_matches_ymd (m y mo d : string) (e : Txn) :
  no_dash y = true -> no_dash mo = true ->
  date e = Some (ymd y mo d) ->
  month_matches m e = String.eqb mo m.
Proof.
  intros Hy Hm Hd. unfold month_matches, ymd in *. rewrite Hd.
  rewrite append_dash_truthy, (split_before_dash y _ Hy),
    (split_before_dash mo d Hm).
  reflexivity.
Qed.

(** The month filter of [Checked] (and of [Plain] and [MultiType], whose
    text is the same) reads the part of the date between the first two
    hyphens and nothing else: it keeps a record dated [y-mo-d] exactly
    when [mo] is the selected month, whatever the year [y] and the day
    [d], so that a selected month shows that month of every year. *)
Theorem month_filter_ignores_year (p : Params) (l : list Txn) (e : Txn)
    (y mo d : string) :
  Js.truthy (selectedMonth p) = true ->
  no_dash y = true -> no_dash mo = true ->
  date e = Some (ymd y mo d) ->
  (In e (Checked.monthStage p l) <-> In e l /\ mo = selectedMonth p)
  /\ Plain.monthStage p l = Checked.monthStage p l
  /\ MultiType.monthStage p l = Checked.monthStage p l.
Proof.
  intros Hs Hy Hm Hd. split; [|split; reflexivity].
  unfold Checked.monthStage. rewrite Hs, filter_In.
  rewrite (month_matches_ymd _ y mo d e Hy Hm Hd).
  now rewrite String.eqb_eq.
Qed.

Lemma toLowerCase_empty (s : string) :
  Js.toLowerCase s = ""%string -> s = ""%string.
Proof. destruct s; [reflexivity|discriminate]. Qed.

Lemma search_text_not_empty (p : Params) :
  Js.truthy (Js.trim (search p)) = true ->
  Js.toLowerCase (search p) <> ""%string.
Proof.
  rewrite trim_truthy. intros Hs E.
  apply toLowerCase_empty in E. rewrite E in Hs. discriminate.
Qed.

Lemma append_empty (a b : string) :
  String.append a b = ""%string -> a = ""%string /\ b = ""%string.
Proof. destruct a; simpl; [auto|discriminate]. Qed.

(** With a search text that is not blank, the search of [Budget] keeps
    the records that have the text, in lower case, as a part in one piece
    of their title, of their category or of their notes, each in lower
    case, and only those. *)
Theorem Budget_search_reads_three_fields (p : Params) (l : list Txn)
    (e : Txn) :
  Js.truthy (Js.trim (search p)) = true ->
  let has := fun s : string =>
    exists a b,
      Js.toLowerCase s
      = String.append a (String.append (Js.toLowerCase (search p)) b) in
  In e (Budget.searchStage p l)
  <-> In e l
      /\ (has (title e) \/ has (category e)
          \/ exists n, notes e = Some n /\ has n).
Proof.
  intros Hs has. unfold Budget.searchStage. rewrite Hs, filter_In.
  unfold Budget.matches. rewrite !orb_true_iff, !includes_app.
  assert (Hn : (match notes e with
                | Some n =>
                    Js.truthy n
                    && Js.includes (Js.toLowerCase n)
                                   (Js.toLowerCase (search p))
                | None => false
                end = true)
               <-> exists n, notes e = Some n /\ has n).
  { destruct (notes e) as [n|].
    - rewrite andb_true_iff, includes_app. split.
      + intros [_ Hh]. exists n. auto.
      + intros (n' & E & Hh). injection E as <-. split; [|exact Hh].
        destruct n as [|c n]; [|reflexivity].
        destruct Hh as (a & b & E). simpl in E. symmetry in E.
        apply append_empty in E. destruct E as [_ E].
        apply append_empty in E. destruct E as [E _].
        now apply search_text_not_empty in E.
    - split; [discriminate|]. intros (n & E & _). discriminate. }
  rewrite Hn. unfold has. tauto.
Qed.

Ltac import_case :=
  repeat split; try discriminate; try congruence; auto;
  try (intros E; now contradiction E);
  try (intros [E|E]; discriminate E).

(** The import reports a success exactly when it replaces the
    collection, and an error exactly when the file is not JSON or holds
    [null]; it replaces the budget only together with the collection, and
    what it puts in the place of either is never a falsy value. *)
Theorem import_reports_what_it_did (file : option Budget.Parse) :
  let i := Budget.importData file in
  (Budget.notification i
   = Some (Notify "Data imported successfully!" "success")
   <-> Budget.setExpenses i <> None)
  /\ (Budget.notification i = Some (Notify "Invalid file format" "error")
      <-> file = Some Budget.SyntaxError
          \/ file = Some (Budget.Parsed Budget.JNull))
  /\ (Budget.setMonthlyBudget i <> None -> Budget.setExpenses i <> None)
  /\ (forall v, Budget.setExpenses i = Some v -> Budget.truthy v = true)
  /\ (forall b, Budget.setMonthlyBudget i = Some b ->
                Budget.truthy b = true).
Proof.
  unfold Budget.importData.
  destruct file as [[|data]|]; simpl.
  - import_case.
  - destruct data as [|b|n|s|l|l|props]; simpl;
      [import_case|import_case|import_case|import_case|import_case
      |import_case|].
    destruct (JsObject.get "expenses" props) as [v|]; simpl;
      [|import_case].
    destruct (Budget.truthy v) eqn:Hv; simpl; [|import_case].
    cbv zeta. simpl.
    split; [split; [intros _; discriminate|reflexivity]|].
    split; [split; [discriminate|intros [E|E]; discriminate E]|].
    split; [intros _; discriminate|].
    split; [intros v' E; injection E as <-; exact Hv|].
    intros b.
    destruct (JsObject.get "monthlyBudget" props) as [b'|]; simpl;
      [|discriminate].
    destruct (Budget.truthy b') eqn:Hb; [|discriminate].
    intros E. injection E as <-. exact Hb.
  - import_case.
Qed.

End FilterFacts.

(* ===================================================================== *)
(** * The view and the stages of the specification *)
(* ===================================================================== *)

Section StageFacts.
Context {H : Host}.

(** *** The month filter *)

Lemma split_dash (d : string) :
  Js.split "-" d
  = Stages.upto_dash d
    :: match Stages.after_dash d with
       | Some r => Js.split "-" r
       | None => []
       end.
Proof.
  induction d as [|c d IH]; simpl; [reflexivity|].
  destruct (Ascii.eqb c "-"); [reflexivity|].
  now rewrite IH.
Qed.

Lemma split_second (d : string) :
  nth_error (Js.split "-" d) 1 = Stages.month_of d.
Proof.
  rewrite split_dash. unfold Stages.month_of. simpl.
  destruct (Stages.after_dash d) as [r|]; [|reflexivity].
  now rewrite split_dash.
Qed.

Lemma month_matches_in_month (m : string) (e : Txn) :
  month_matches m e = Stages.in_month m e.
Proof.
  unfold month_matches, Stages.in_month.
  destruct (date e) as [d|]; [|reflexivity].
  rewrite split_second. destruct d; reflexivity.
Qed.

Lemma monthStage_spec (p : Params) (l : list Txn) :
  Checked.monthStage p l = Stages.month_filter p l.
Proof.
  unfold Checked.monthStage, Stages.month_filter, Js.truthy.
  destruct (String.eqb (selectedMonth p) ""); simpl; [reflexivity|].
  apply filter_ext. apply month_matches_in_month.
Qed.

Lemma two_digits_padStart (s : string) :
  Js.padStart0 2 s = Stages.two_digits s.
Proof. destruct s as [|c [|c' s]]; reflexivity. Qed.

Lemma Budget_monthStage_spec (p : Params) (l : list Txn) :
  Budget.monthStage p l = Stages.local_month_filter p l.
Proof.
  unfold Budget.monthStage, Stages.local_month_filter, Js.truthy.
  destruct (String.eqb (selectedMonth p) ""); simpl; [reflexivity|].
  apply filter_ext. intros e.
  unfold Budget.expenseMonth, Stages.local_month.
  now rewrite two_digits_padStart.
Qed.

(** *** The type filter *)

Lemma is_expense_type_of (e : Txn) :
  MultiType.is_expense e = String.eqb (Stages.type_of e) "expense".
Proof.
  unfold MultiType.is_expense, Stages.type_of, Js.truthy.
  destruct (type e) as [[|c t]|]; try reflexivity.
  simpl. now rewrite orb_false_r.
Qed.

Lemma has_income_type_of (e : Txn) :
  MultiType.has_type "income" e = String.eqb (Stages.type_of e) "income".
Proof.
  unfold MultiType.has_type, Stages.type_of, Js.opt_str_eqb.
  destruct (type e) as [[|c t]|]; reflexivity.
Qed.

Lemma typeStage_spec (p : Params) (l : list Txn) :
  MultiType.typeStage p l = Stages.type_filter p l.
Proof.
  unfold MultiType.typeStage, Stages.type_filter.
  destruct (String.eqb_spec (filterType p) "expense") as [E|_].
  - rewrite E. simpl. apply filter_ext. apply is_expense_type_of.
  - destruct (String.eqb_spec (filterType p) "income") as [E|_].
    + rewrite E. simpl. apply filter_ext. apply has_income_type_of.
    + simpl. now destruct (String.eqb (filterType p) "all").
Qed.

(** *** The search *)

Lemma prefix_substring (q s : string) :
  String.prefix q s
  = String.eqb (String.substring 0 (String.length q) s) q.
Proof.
  revert s. induction q as [|c q IH]; intros s.
  - destruct s; reflexivity.
  - destruct s as [|d s]; simpl; [reflexivity|].
    destruct (Ascii.ascii_dec c d) as [->|Hne].
    + rewrite IH. now rewrite Ascii.eqb_refl.
    + destruct (Ascii.eqb_spec d c) as [E|_]; [congruence|reflexivity].
Qed.

Lemma existsb_seq_shift (f : nat -> bool) (n : nat) :
  existsb f (seq 1 n) = existsb (fun i => f (S i)) (seq 0 n).
Proof.
  rewrite <- seq_shift. generalize (seq 0 n). intros l.
  induction l as [|i l IH]; simpl; [reflexivity|now rewrite IH].
Qed.

(** [s.includes(q)] looks for [q] at every position of [s]. *)
Lemma includes_positions (s q : string) :
  Js.includes s q
  = existsb
      (fun i => String.eqb (String.substring i (String.length q) s) q)
      (seq 0 (S (String.length s))).
Proof.
  induction s as [|c s IH].
  - change (Js.includes "" q) with (String.prefix q "" || false).
    rewrite prefix_substring. reflexivity.
  - change (Js.includes (String c s) q)
      with (String.prefix q (String c s) || Js.includes s q).
    rewrite prefix_substring, IH.
    change (seq 0 (S (String.length (String c s))))
      with (0%nat :: seq 1 (S (String.length s))).
    cbn [existsb]. rewrite existsb_seq_shift. reflexivity.
Qed.

Lemma toLowerCase_length (s : string) :
  String.length (Js.toLowerCase s) = String.length s.
Proof. induction s as [|c s IH]; simpl; congruence. Qed.

Lemma toLowerCase_substring (s : string) :
  forall i n,
  Js.toLowerCase (String.substring i n s)
  = String.substring i n (Js.toLowerCase s).
Proof.
  induction s as [|c s IH]; intros i n.
  - destruct i, n; reflexivity.
  - destruct i as [|i]; simpl.
    + destruct n as [|n]; simpl; [reflexivity|]. now rewrite IH.
    + apply IH.
Qed.

Lemma includes_contains_ci (s q : string) :
  Js.includes (Js.toLowerCase s) (Js.toLowerCase q)
  = Stages.contains_ci s q.
Proof.
  rewrite includes_positions. unfold Stages.contains_ci.
  rewrite !toLowerCase_length.
  generalize (seq 0 (S (String.length s))). intros l.
  induction l as [|i l IH]; simpl; [reflexivity|].
  rewrite IH. unfold Stages.same_letters.
  now rewrite toLowerCase_substring.
Qed.

Lemma blank_trim (s : string) :
  Js.truthy (Js.trim s) = negb (Stages.blank s).
Proof. apply trim_truthy. Qed.

Lemma searchStage_spec (p : Params) (l : list Txn) :
  Checked.searchStage p l = Stages.search_title p l.
Proof.
  unfold Checked.searchStage, Stages.search_title. rewrite blank_trim.
  destruct (Stages.blank (search p)); simpl; [reflexivity|].
  apply filter_ext. intros e. apply includes_contains_ci.
Qed.

Lemma contains_ci_empty (q : string) :
  Stages.blank q = false -> Stages.contains_ci "" q = false.
Proof.
  intros Hq. rewrite <- includes_contains_ci.
  destruct q as [|c q]; [discriminate|reflexivity].
Qed.

Lemma Budget_searchStage_spec (p : Params) (l : list Txn) :
  Budget.searchStage p l = Stages.search_fields p l.
Proof.
  unfold Budget.searchStage, Stages.search_fields. rewrite blank_trim.
  destruct (Stages.blank (search p)) eqn:Hb; simpl; [reflexivity|].
  apply filter_ext. intros e. unfold Budget.matches.
  rewrite !includes_contains_ci. f_equal.
  destruct (notes e) as [n|]; [|reflexivity].
  rewrite includes_contains_ci.
  destruct n as [|c n]; [|reflexivity].
  simpl. symmetry. now apply contains_ci_empty.
Qed.

(** *** The sort *)

Lemma insert_ext (A : Type) (f g : A -> A -> comparison) :
  (forall a b, f a b = g a b) ->
  forall x l, JsArray.insert f x l = JsArray.insert g x l.
Proof.
  intros E x l. induction l as [|y l IH]; simpl; [reflexivity|].
  now rewrite E, IH.
Qed.

Lemma sort_ext (A : Type) (f g : A -> A -> comparison) :
  (forall a b, f a b = g a b) ->
  forall l, JsArray.sort f l = JsArray.sort g l.
Proof.
  intros E l. unfold JsArray.sort. generalize (@nil A).
  induction l as [|x l IH]; intros acc; simpl; [reflexivity|].
  rewrite (insert_ext A f g E). apply IH.
Qed.

Lemma compare_by_field (p : Params) (a b : Txn) :
  sgn (Checked.compare p a b)
  = Stages.in_direction p (Stages.by_field p a b).
Proof.
  unfold Checked.compare, Stages.in_direction, Stages.by_field,
    Stages.num_order, num_gtb, date_gt, date_lt, Js.str_gt, Js.str_lt.
  destruct (String.eqb (sortBy p) "amount").
  - destruct (num_ltb (Number (amount a)) (Number (amount b)));
      [now destruct (String.eqb (sortDir p) "asc")|].
    destruct (num_ltb (Number (amount b)) (Number (amount a)));
      now destruct (String.eqb (sortDir p) "asc").
  - destruct (date a) as [x|], (date b) as [y|];
      try (now destruct (String.eqb (sortDir p) "asc")).
    destruct (String.ltb x y);
      [now destruct (String.eqb (sortDir p) "asc")|].
    destruct (String.ltb y x);
      now destruct (String.eqb (sortDir p) "asc").
Qed.

Lemma sortStage_spec (p : Params) (l : list Txn) :
  Checked.sortStage p l = Stages.sort_by p l.
Proof.
  unfold Checked.sortStage, Stages.sort_by, Js.truthy.
  destruct (String.eqb (sortBy p) ""); simpl; [reflexivity|].
  apply sort_ext. apply compare_by_field.
Qed.

Lemma MultiType_sortStage_spec (p : Params) (l : list Txn) :
  MultiType.sortStage p l = Stages.sort_by p l.
Proof.
  unfold MultiType.sortStage, Stages.sort_by, Js.truthy.
  destruct (String.eqb (sortBy p) ""); simpl; [reflexivity|].
  apply sort_ext. intros a b.
  rewrite <- compare_by_field. reflexivity.
Qed.

End StageFacts.

Section BudgetStageFacts.
Context {H : Host} {HA : HostArith H}.

Lemma in_direction_mul (p : Params) (x : num) :
  num_sign
    (num_mul x (if String.eqb (sortDir p) "asc" then num_one
                else num_minus_one))
  = Stages.in_direction p (num_sign x).
Proof.
  unfold Stages.in_direction.
  destruct (String.eqb (sortDir p) "asc");
    [apply mul_one_sign|apply mul_minus_one_sign].
Qed.

Lemma Budget_compare_by_field (p : Params) (a b : Txn) :
  num_sign (Budget.compare p a b)
  = Stages.in_direction p (Stages.Budget_by_field p a b).
Proof.
  unfold Budget.compare, Stages.Budget_by_field. cbv zeta.
  destruct (String.eqb (sortBy p) "amount").
  - rewrite in_direction_mul, sub_sign. reflexivity.
  - destruct (String.eqb (sortBy p) "title").
    + apply in_direction_mul.
    + rewrite in_direction_mul, sub_sign. reflexivity.
Qed.

Lemma Budget_sortStage_spec (p : Params) (l : list Txn) :
  Budget.sortStage p l = Stages.Budget_sort_by p l.
Proof.
  unfold Budget.sortStage, Stages.Budget_sort_by.
  apply sort_ext. apply Budget_compare_by_field.
Qed.


End BudgetStageFacts.

(* ===================================================================== *)
(** * The charts by month, in [MultiType] and in [Budget] *)
(* ===================================================================== *)

Section ByMonthBoth.
Context {H : Host} {HL : HostLaws H}.

Lemma digit_not_inherited (c : ascii) (s : string) :
  is_digit c = true -> JsObject.inherited (String c s) = false.
Proof.
  intros Hd.
  destruct c as [[] [] [] [] [] [] [] []];
    try (vm_compute in Hd; discriminate Hd); reflexivity.
Qed.

(** The month key of a date [YYYY-MM-DD] is no name that objects
    inherit. *)
Lemma well_formed_key (d : string) :
  well_formed_date d = true -> JsObject.inherited (Js.slice0 7 d) = false.
Proof.
  unfold well_formed_date.
  destruct d as [|c1 [|c2 [|c3 [|c4 [|c5 [|c6 [|c7 d]]]]]]];
    try discriminate.
  destruct d as [|c8 [|c9 [|c10 [|c11 d]]]]; try discriminate.
  intros Hw. cbn [list_ascii_of_string forallb] in Hw.
  apply andb_true_iff in Hw. destruct Hw as [Hw _].
  apply andb_true_iff in Hw. destruct Hw as [Hw _].
  apply andb_true_iff in Hw. destruct Hw as [Hw _].
  exact (digit_not_inherited c1 _ Hw).
Qed.

Lemma calendar_dated_all (l : list Txn) :
  forallb calendar_dated l = true ->
  Forall (fun e => date e <> None
                   /\ num_isNaN (Date_parse (date e)) = false) l.
Proof.
  rewrite forallb_forall, Forall_forall. intros Hl e He.
  specialize (Hl e He). unfold calendar_dated in Hl.
  destruct (date e) as [d|]; [|discriminate].
  apply andb_true_iff in Hl. destruct Hl as [_ Hl].
  apply negb_true_iff in Hl. split; [discriminate|exact Hl].
Qed.

Lemma running_total_from_Some (l : list Txn) :
  forall x : num,
  fold_left
    (fun (s : option num) e =>
       Some (num_add (Budget.or_zero s) (Number (amount e))))
    l (Some x) <> None.
Proof.
  induction l as [|e l IH]; intros x; simpl; [discriminate|apply IH].
Qed.

Lemma running_total_nil_iff (l : list Txn) :
  running_total l = None <-> l = [].
Proof.
  unfold running_total. split; [|now intros ->].
  destruct l as [|e l]; [reflexivity|]. simpl.
  intros E. now apply running_total_from_Some in E.
Qed.


End ByMonthBoth.

(* ===================================================================== *)
(** * The statements on [IntHost] *)
(* ===================================================================== *)

Lemma IntHost_sign_localeCompare (a b : string) :
  num_sign (H := IntHost.host) (localeCompare a b) = String.compare a b.
Proof.
  unfold num_sign. simpl. unfold IntHost.localeCompare.
  destruct (String.compare a b); reflexivity.
Qed.

Lemma IntHost_laws : HostLaws IntHost.host.
Proof.
  split.
  - reflexivity.
  - intros [a|] [b|]; simpl; try discriminate. intros _ _.
    apply Z.leb_antisym.
  - intros [a|]; simpl; [apply Z.ltb_irrefl|reflexivity].
  - intros [a|] [b|] [c|]; simpl; try discriminate.
    rewrite !Z.ltb_lt. lia.
  - intros [a|] [b|] [c|]; simpl; try discriminate.
    intros _. rewrite !Z.ltb_lt. lia.
  - intros a. rewrite IntHost_sign_localeCompare.
    apply string_compare_refl.
  - intros a b. rewrite !IntHost_sign_localeCompare.
    apply String.compare_antisym.
  - intros a b c. rewrite !IntHost_sign_localeCompare.
    apply string_compare_le_trans.
Qed.

Lemma IntHost_arith : HostArith IntHost.host.
Proof.
  split.
  - intros [a|] [b|]; try reflexivity. unfold num_sign. simpl.
    destruct (Z.ltb_spec (a - b) 0), (Z.ltb_spec a b),
      (Z.ltb_spec 0 (a - b)), (Z.ltb_spec b a); try reflexivity; lia.
  - intros [a|]; [|reflexivity]. unfold num_sign. simpl.
    now rewrite Z.mul_1_r.
  - intros [a|]; [|reflexivity]. unfold num_sign. simpl.
    destruct (Z.ltb_spec (a * -1) 0), (Z.ltb_spec a 0),
      (Z.ltb_spec 0 (a * -1)), (Z.ltb_spec 0 a); try reflexivity; lia.
Qed.

#[local] Existing Instance IntHost.host.

(** C1: the theorem at a candidate without a title. *)
Lemma add_rejects_invalid_candidate_witness :
  candidate_invalid Sample.untitled Sample.march = true
  /\ fst (Checked.addExpense Sample.untitled Sample.march [Sample.tea])
     = [Sample.tea].
Proof.
  split; [reflexivity|].
  exact (proj1 (add_rejects_invalid_candidate Sample.untitled Sample.march
                  [Sample.tea] eq_refl)).
Defined.

(** C1 as stated fails: [Checked] rejects a candidate without a title
    without any report, and [Plain] adds a candidate with a negative
    amount. *)
Lemma add_invalid_unreported_or_added :
  candidate_invalid Sample.untitled Sample.march = true
  /\ Checked.addExpense Sample.untitled Sample.march [] = ([], None)
  /\ candidate_invalid Sample.negative Sample.march = true
  /\ fst (Plain.addExpense Sample.negative Sample.march []) <> [].
Proof. repeat split; try reflexivity. discriminate. Qed.

(** C4: the theorem at a valid candidate. *)
Lemma add_accepts_valid_candidate_witness :
  candidate_valid Sample.lunch Sample.march = true
  /\ List.length
       (fst (Checked.addExpense Sample.lunch Sample.march [Sample.tea]))
     = 2%nat.
Proof.
  split; [reflexivity|].
  exact (proj1 (proj2 (proj2 (proj2
           (add_accepts_valid_candidate (HL := IntHost_laws)
              Sample.lunch Sample.march [Sample.tea] eq_refl))))).
Defined.

(** C4 as stated fails: [Budget] puts the new record first, not last, and
    in [Checked] the new record takes an [id] that is in the collection
    when the clock has not moved. *)
Lemma add_front_or_same_id :
  candidate_valid Sample.lunch Sample.march = true
  /\ nth_error (fst (Budget.addExpense Sample.lunch Sample.march
                       [Sample.tea])) 1
     = Some Sample.tea
  /\ NoDup (map id [Sample.stored_lunch])
  /\ map id (fst (Checked.addExpense Sample.lunch Sample.march
                    [Sample.stored_lunch]))
     = [1709287200000; 1709287200000]%Z.
Proof.
  repeat split; try reflexivity.
  constructor; [intros []|constructor].
Qed.

(** C5 as stated fails: [Plain] saves a patch with a negative amount, and
    reports nothing. *)
Lemma update_unchecked_in_Plain :
  edit_invalid Sample.patch_negative Sample.march = true
  /\ fst (Plain.saveEdit 1 Sample.patch_negative Sample.march [Sample.tea])
     <> [Sample.tea]
  /\ reports_error
       (Plain.saveEdit 1 Sample.patch_negative Sample.march [Sample.tea])
     = false.
Proof. repeat split; try reflexivity. discriminate. Qed.

(** C2: the theorem at an add, an update and a removal. *)
Lemma reachable_states_guaranteed_witness :
  let ops := [OpAdd Sample.lunch Sample.march;
              OpUpdate 1709287200000 Sample.patch_untitled Sample.march;
              OpRemove 7] in
  clocks_upto "2024-03-01" ops
  /\ guaranteed "2024-03-01" ops (CheckedRun.run ops []).
Proof.
  intros ops.
  assert (Hclk : clocks_upto "2024-03-01" ops).
  { intros op clk [<-|[<-|[<-|[]]]] E; inversion E; reflexivity. }
  split; [exact Hclk|].
  exact (proj1 (reachable_states_guaranteed (HL := IntHost_laws)
                  "2024-03-01" ops Hclk)).
Defined.

(** C2 as stated fails: two adds within one millisecond give two records
    the same [id]; an update gives a record an empty title; an import
    installs a record with a negative amount. *)
Lemma reachable_state_breaks_invariants :
  ~ invariants "2024-03-01"
      (CheckedRun.run [OpAdd Sample.lunch Sample.march;
                       OpAdd Sample.lunch Sample.march] [])
  /\ ~ invariants "2024-03-01"
         (CheckedRun.run
            [OpAdd Sample.lunch Sample.march;
             OpUpdate 1709287200000 Sample.patch_untitled Sample.march] [])
  /\ BudgetRun.run
       [BudgetRun.Import (Some (Budget.Parsed Sample.debt_file))] []
     = Some [Sample.debt]
  /\ ~ invariants "2024-03-01" [Sample.debt].
Proof.
  repeat split.
  - intros [_ Hn]. simpl in Hn. inversion Hn as [|? ? Hni _]; subst.
    apply Hni. now left.
  - intros [Hv _]. simpl in Hv. inversion Hv as [|? ? Hbad _]; subst.
    discriminate Hbad.
  - intros [Hv _]. inversion Hv as [|? ? Hbad _]; subst.
    discriminate Hbad.
Qed.


(** C5: the theorem at a patch that passes the checks, for the [id] of
    the first of two records. *)
Lemma update_validates_and_replaces_witness :
  edit_invalid Sample.patch_tea Sample.march = false
  /\ replaces_in_place 1
       (fun e e' =>
          carries_patch Sample.patch_tea (StringToNumber "6") e e'
          /\ type e' = type e /\ notes e' = notes e
          /\ updatedAt e' = updatedAt e)
       [Sample.tea; Sample.bus]
       (fst (Checked.saveEdit 1 Sample.patch_tea Sample.march
               [Sample.tea; Sample.bus]))
  /\ fst (Checked.saveEdit 1 Sample.patch_tea Sample.march
            [Sample.tea; Sample.bus])
     = [mkTxn 1 "Green tea" (ANum (StringToNumber "6"))
              (Some "2024-01-06"%string) "Drinks" None None None None;
        Sample.bus].
Proof.
  split; [reflexivity|]. split; [|reflexivity].
  exact (proj1 (proj1 (update_validates_and_replaces 1 Sample.patch_tea
                         Sample.march [Sample.tea; Sample.bus]))).
Defined.



(** C8: the theorem at a collection with a number and a string for
    amounts. *)
Lemma import_export_roundtrip_witness :
  Forall amount_reads_back [Sample.stored_lunch; Sample.tea]
  /\ Budget.imported
       (Budget.importData
          (Some (fst (Budget.exportData [Sample.stored_lunch; Sample.tea]
                        (Budget.JNum (StringToNumber "5000"))
                        Sample.march))))
       [Sample.bus]
     = Some [Sample.stored_lunch; Sample.tea].
Proof.
  assert (Hf : Forall amount_reads_back [Sample.stored_lunch; Sample.tea]).
  { repeat constructor. }
  split; [exact Hf|].
  exact (proj1 (proj1 (import_export_roundtrip
                         [Sample.stored_lunch; Sample.tea]
                         (Budget.JNum (StringToNumber "5000"))
                         Sample.march [Sample.bus]) Hf)).
Defined.

(** C8 as stated fails: the import of a file with the amount
    ["Infinity"] and an update that saves the edit form as it is filled
    for that record store the number [Infinity], which is above zero;
    export writes [null] for it, and the import of the exported file puts
    an array with an amount [null] in the place of the collection. *)
Lemma export_loses_infinite_amount :
  let stored := mkTxn (H := WideHost.host) 5 "Big"
                  (ANum (H := WideHost.host) WideHost.PosInf) (Some "2024-01-05"%string) "Bills"
                  None (Some ""%string) None
                  (Some "2024-03-01T10:00:00.001Z"%string) in
  let file := fst (Budget.exportData (H := WideHost.host) [stored]
                     (Budget.JNum (H := WideHost.host) (WideHost.Fin 5000)) Sample.march) in
  BudgetRun.run (H := WideHost.host)
    [BudgetRun.Import (Some (Budget.Parsed Sample.big_file));
     BudgetRun.Basic (OpUpdate 5 Sample.big_form Sample.march)] []
  = Some [stored]
  /\ amount_ok stored = true
  /\ Budget.setExpenses (Budget.importData (Some file))
     = Some (Budget.JArr
               [Budget.JObj
                  [("id"%string, Budget.JNum (H := WideHost.host) (WideHost.Fin 5));
                   ("title"%string, Budget.JStr "Big");
                   ("amount"%string, Budget.JNull);
                   ("date"%string, Budget.JStr "2024-01-05");
                   ("category"%string, Budget.JStr "Bills");
                   ("notes"%string, Budget.JStr "");
                   ("updatedAt"%string,
                    Budget.JStr "2024-03-01T10:00:00.001Z")]])
  /\ Budget.imported (Budget.importData (Some file)) [] <> Some [stored].
Proof.
  repeat split; try reflexivity. discriminate.
Qed.

(** ** The further properties at sample inputs *)

(** Saving the untouched form of [Sample.tea] in [Plain]. *)
Lemma edit_unchanged_is_noop_witness :
  (forall e', In e' [Sample.tea; Sample.bus] ->
              id e' = id Sample.tea -> e' = Sample.tea)
  /\ Plain.saveEdit (fst (PlainForm.startEdit Sample.tea))
                    (snd (PlainForm.startEdit Sample.tea))
                    Sample.march [Sample.tea; Sample.bus]
     = ([Sample.tea; Sample.bus], None).
Proof.
  assert (Hu : forall e', In e' [Sample.tea; Sample.bus] ->
                          id e' = id Sample.tea -> e' = Sample.tea).
  { intros e' [<-|[<-|[]]] E; [reflexivity|discriminate E]. }
  split; [exact Hu|].
  exact (proj1 (edit_unchanged_is_noop Sample.tea Sample.march
                  [Sample.tea; Sample.bus] Hu)).
Defined.

(** Adding [Sample.lunch] to a collection and removing it again. *)
Lemma add_then_remove_restores_witness :
  ~ In (now Sample.march) (map id [Sample.tea])
  /\ Checked.deleteExpense (now Sample.march)
       (fst (Checked.addExpense Sample.lunch Sample.march [Sample.tea]))
     = [Sample.tea].
Proof.
  assert (Hn : ~ In (now Sample.march) (map id [Sample.tea])).
  { intros [E|[]]. discriminate E. }
  split; [exact Hn|].
  exact (proj1 (proj2 (add_then_remove_restores Sample.lunch Sample.march
                         [Sample.tea] Hn))).
Defined.

(** The search for ["RENT"] in [Cases.ledger]. *)
Lemma search_keeps_titles_with_text_witness :
  Js.truthy (Js.trim (search Cases.find_rent)) = true
  /\ (In Cases.rent (Checked.searchStage Cases.find_rent Cases.ledger)
      <-> In Cases.rent Cases.ledger
          /\ exists a b,
               Js.toLowerCase (title Cases.rent)
               = String.append a
                   (String.append
                      (Js.toLowerCase (search Cases.find_rent)) b)).
Proof.
  split; [reflexivity|].
  exact (proj1 (search_keeps_titles_with_text Cases.find_rent Cases.ledger
                  Cases.rent eq_refl)).
Defined.

(** [Cases.ledger] sorted by amount. *)
Lemma sorted_view_in_order_and_stable_witness :
  Js.truthy (sortBy Cases.by_amount) = true
  /\ Forall (sortable Cases.by_amount) Cases.ledger
  /\ StronglySorted (fun a b => in_order Cases.by_amount a b = true)
       (Checked.view Cases.by_amount Cases.ledger).
Proof.
  assert (Hs : Forall (sortable Cases.by_amount) Cases.ledger).
  { repeat constructor. }
  split; [reflexivity|]. split; [exact Hs|].
  exact (proj1 (sorted_view_in_order_and_stable (HL := IntHost_laws)
                  Cases.by_amount Cases.ledger eq_refl Hs)).
Defined.

(** The pie chart of [Cases.ledger]. *)
Lemma pie_slices_by_category_witness :
  Forall (fun e => ordinary_key (category e) = true) Cases.ledger
  /\ map fst (CheckedCards.pieData Cases.ledger)
     = first_seen (map category Cases.ledger).
Proof.
  assert (Hk : Forall (fun e => ordinary_key (category e) = true)
                      Cases.ledger).
  { repeat constructor. }
  split; [exact Hk|].
  exact (proj1 (pie_slices_by_category Cases.ledger Hk)).
Defined.

(** The bar chart of [Cases.ledger]: February stands before January. *)
Lemma bars_in_order_of_first_record_witness :
  Forall (fun e => forall m, month_key e = Some m -> ordinary_key m = true)
         Cases.ledger
  /\ map fst (CheckedCards.barData Cases.ledger)
     = first_seen (keys_of month_key Cases.ledger)
  /\ first_seen (keys_of month_key Cases.ledger)
     = ["2024-02"; "2024-01"]%string.
Proof.
  assert (Hk : Forall (fun e => forall m, month_key e = Some m ->
                                          ordinary_key m = true)
                      Cases.ledger).
  { repeat constructor; intros m E; injection E as <-; reflexivity. }
  split; [exact Hk|]. split; [|reflexivity].
  exact (proj1 (bars_in_order_of_first_record Cases.ledger Hk)).
Defined.

(** The top slice of a chart of three. *)
Lemma top_category_is_first_largest_witness :
  BudgetInsights.getTopSpendingCategory snd
    (CheckedCards.pieData Cases.ledger) = None
  <-> CheckedCards.pieData Cases.ledger = [].
Proof.
  exact (proj1 (top_category_is_first_largest (HL := IntHost_laws)
                  (string * num) snd (CheckedCards.pieData Cases.ledger))).
Defined.

(** The weekly bars of a dictionary of one week. *)
Lemma weekly_bars_are_first_twelve_witness :
  timeRange Cases.weekly = "weekly"%string
  /\ List.length
       (Budget.bar Cases.weekly [] [("2024-01-29"%string, Some 5%Z)])
     = Nat.min 12 1.
Proof.
  split; [reflexivity|].
  exact (proj1 (weekly_bars_are_first_twelve (HL := IntHost_laws)
                  Cases.weekly [] [("2024-01-29"%string, Some 5%Z)]
                  eq_refl)).
Defined.

(** Saving the untouched form of [Cases.rent] in [Budget]. *)
Lemma Budget_edit_unchanged_only_stamps_witness :
  (forall e', In e' Cases.ledger -> id e' = id Cases.rent -> e' = Cases.rent)
  /\ amount Cases.rent = ANum (StringToNumber "900")
  /\ bad_amount (StringToNumber "900") = false
  /\ date_gt (date Cases.rent) (Some (today Sample.march)) = false
  /\ map id
       (fst (Budget.saveEdit (fst (BudgetInsights.startEdit Cases.rent))
               (snd (BudgetInsights.startEdit Cases.rent))
               Sample.march Cases.ledger))
     = [11; 12; 13]%Z.
Proof.
  assert (Hu : forall e', In e' Cases.ledger -> id e' = id Cases.rent ->
                          e' = Cases.rent).
  { intros e' [<-|[<-|[<-|[]]]] E; [reflexivity|discriminate E
                                   |discriminate E]. }
  split; [exact Hu|]. repeat (split; [reflexivity|]).
  rewrite (Budget_edit_unchanged_only_stamps Cases.rent
             (StringToNumber "900") Sample.march Cases.ledger Hu
             eq_refl eq_refl eq_refl).
  reflexivity.
Defined.

(** [Cases.rent], dated in February 2024, under the month filter. *)
Lemma month_filter_ignores_year_witness :
  Js.truthy (selectedMonth Cases.in_february) = true
  /\ no_dash "2024" = true /\ no_dash "02" = true
  /\ date Cases.rent = Some (ymd "2024" "02" "01")
  /\ (In Cases.rent (Checked.monthStage Cases.in_february Cases.ledger)
      <-> In Cases.rent Cases.ledger
          /\ "02"%string = selectedMonth Cases.in_february).
Proof.
  repeat (split; [reflexivity|]).
  exact (proj1 (month_filter_ignores_year Cases.in_february Cases.ledger
                  Cases.rent "2024" "02" "01"
                  eq_refl eq_refl eq_refl eq_refl)).
Defined.

(** The search of [Budget] for ["RENT"] in [Cases.ledger]. *)
Lemma Budget_search_reads_three_fields_witness :
  Js.truthy (Js.trim (search Cases.find_rent)) = true
  /\ (In Cases.rent (Budget.searchStage Cases.find_rent Cases.ledger)
      -> In Cases.rent Cases.ledger).
Proof.
  split; [reflexivity|].
  intros Hin.
  exact (proj1 (proj1 (Budget_search_reads_three_fields Cases.find_rent
                         Cases.ledger Cases.rent eq_refl) Hin)).
Defined.
